(** * Rhino Dynamic Blocks: a shallow embedding of [dynamic_blocks.py]

    The script keeps a registry of parametric families and placed
    instances inside a Rhino document.  Registry data is whatever
    [json.loads] returned, so it is modelled as a JSON tree on which the
    Python operations of the script ([d[k]], [d.get], [d.setdefault],
    [d.pop], truthiness) are written out, exceptions included.  The Rhino
    document is modelled as a small state machine: a string table, a table
    of instance definitions and a table of objects.  The Python runtime
    pieces that the script only calls (numbers, [round], [float],
    [str.format] on non-strings, [json], [uuid]) are the fields of one
    [Env] class. *)

From Stdlib Require Import String Ascii List Bool Arith ZArith NArith Lia.
From Stdlib Require Import Permutation Sorted.
From Stdlib Require Import DecimalString DecimalN.
Import ListNotations.
Local Open Scope list_scope.
Local Open Scope string_scope.

Set Implicit Arguments.

(** ** JSON trees, as [json.loads] builds them *)

(** A Python [dict] with string keys is an insertion-ordered association
    list; [None] is [JNull]. *)
#[local] Unset Elimination Schemes.
Inductive json (num : Type) : Type :=
| JNull
| JBool (b : bool)
| JNum (n : num)
| JStr (s : string)
| JArr (items : list (json num))
| JObj (fields : list (string * json num)).

#[local] Set Elimination Schemes.

Arguments JNull {num}.
Arguments JBool {num} b.
Arguments JStr {num} s.
Arguments JArr {num} items.
Arguments JObj {num} fields.

(** ** The runtime the script runs on *)

Class Env : Type := {
  (** Python numbers ([int] and [float] values). *)
  num : Type;
  num_of_Z : Z -> num;
  (** [bool(x)] on a number. *)
  num_truthy : num -> bool;
  (** [round(x, 6)]. *)
  py_round6 : num -> num;
  (** [float(x)] on a number: [None] when it raises [OverflowError], as
      it does on an integer beyond the range of floats. *)
  float_of_num : num -> option num;
  (** [float(True)] and [float(False)]. *)
  float_of_bool : bool -> num;
  (** [float(s)] on a text: [None] when it raises [ValueError], whose
      message is then [float_error s]. *)
  float_of_string : string -> option num;
  float_error : string -> string;
  (** [s.lower()]. *)
  lower : string -> string;
  (** [sorted(l)] for two or more values that are not all texts: [None]
      when a comparison between two of them raises [TypeError]. *)
  sorted_mixed : list (json num) -> option (list (json num));
  (** ["{}".format(v)] for a value that is not a string. *)
  format_other : json num -> string;
  (** [json.loads] ([None] when it raises) and [json.dumps]. *)
  json_loads : string -> option (json num);
  json_dumps : json num -> string;
  (** The successive results of [str(uuid.uuid4())]. *)
  uuid4_nth : nat -> string;
  (** Rhino's transform and object-attribute values, opaque to the script. *)
  Transform : Type;
  ObjectAttributes : Type;
  default_attributes : ObjectAttributes
}.

(** ** Exceptions *)

Inductive exn : Type :=
| KeyError (key : string)
| TypeError
| AttributeError
| ValueError (msg : string)
| OverflowError
| FormatException.

Inductive Res (A : Type) : Type :=
| Ok (a : A)
| Raise (e : exn).

Arguments Ok {A} a.
Arguments Raise {A} e.

Definition res_bind {A B} (r : Res A) (k : A -> Res B) : Res B :=
  match r with
  | Ok a => k a
  | Raise e => Raise e
  end.

Declare Scope res_scope.
Delimit Scope res_scope with res.
Notation "x <- r ;; k" := (res_bind r (fun x => k))
  (at level 61, r at next level, right associativity) : res_scope.

Fixpoint res_map {A B} (f : A -> Res B) (l : list A) : Res (list B) :=
  match l with
  | [] => Ok []
  | a :: l' =>
      (b <- f a ;; bs <- res_map f l' ;; Ok (b :: bs))%res
  end.

(** ** Python strings *)

(** [sep.join(parts)]. *)
Definition join (sep : string) (parts : list string) : string :=
  String.concat sep parts.

(** [sorted] on a list of strings (code-point order). *)
Fixpoint insert_sorted (x : string) (l : list string) : list string :=
  match l with
  | [] => [x]
  | y :: l' => if String.leb x y then x :: l else y :: insert_sorted x l'
  end.

Definition sorted (l : list string) : list string :=
  fold_right insert_sorted [] l.

(** ** Python dictionaries *)

Section Dict.
Context {V : Type}.

Fixpoint dict_get (d : list (string * V)) (k : string) : option V :=
  match d with
  | [] => None
  | (k', v) :: d' => if String.eqb k' k then Some v else dict_get d' k
  end.

(** [d[k] = v]: an existing key keeps its place. *)
Fixpoint dict_set (d : list (string * V)) (k : string) (v : V)
  : list (string * V) :=
  match d with
  | [] => [(k, v)]
  | (k', v') :: d' =>
      if String.eqb k' k then (k', v) :: d' else (k', v') :: dict_set d' k v
  end.

(** [d.pop(k, None)], the dictionary afterwards. *)
Definition dict_pop (d : list (string * V)) (k : string)
  : list (string * V) :=
  filter (fun kv => negb (String.eqb (fst kv) k)) d.

Definition dict_keys (d : list (string * V)) : list string := map fst d.
Definition dict_values (d : list (string * V)) : list V := map snd d.

Definition dict_has (d : list (string * V)) (k : string) : bool :=
  match dict_get d k with Some _ => true | None => false end.

(** A Python dict holds each key once. *)
Definition dict_wf (d : list (string * V)) : Prop := NoDup (dict_keys d).
End Dict.

(** ** Object identities *)

(** A [System.Guid], kept as a number; [str(g)] is its canonical text and
    [Rhino.Guid(s)] reads a text back, or raises. *)
Definition Guid : Type := N.
Definition Guid_Empty : Guid := 0%N.

Definition str_of_Guid (g : Guid) : string :=
  NilZero.string_of_uint (N.to_uint g).

Definition Guid_of_str (s : string) : Res Guid :=
  match NilZero.uint_of_string s with
  | Some d => Ok (N.of_uint d)
  | None => Raise FormatException
  end.

Section Script.
Context {E : Env}.

#[local] Abbreviation value := (json num).

(** *** Python operations on loaded values *)

Definition py_truthy (v : value) : bool :=
  match v with
  | JNull => false
  | JBool b => b
  | JNum n => num_truthy n
  | JStr s => negb (String.eqb s "")
  | JArr items => match items with [] => false | _ => true end
  | JObj fields => match fields with [] => false | _ => true end
  end.

(** [v[k]] with a string key. *)
Definition py_getitem (v : value) (k : string) : Res value :=
  match v with
  | JObj fields =>
      match dict_get fields k with
      | Some x => Ok x
      | None => Raise (KeyError k)
      end
  | _ => Raise TypeError
  end.

(** [v[k] = x]; the updated container is returned. *)
Definition py_setitem (v : value) (k : string) (x : value) : Res value :=
  match v with
  | JObj fields => Ok (JObj (dict_set fields k x))
  | _ => Raise TypeError
  end.

(** [v.get(k)] where [k] is any loaded value. *)
Definition py_get (v : value) (k : value) : Res value :=
  match v with
  | JObj fields =>
      match k with
      | JStr s =>
          match dict_get fields s with
          | Some x => Ok x
          | None => Ok JNull
          end
      | JArr _ | JObj _ => Raise TypeError
      | _ => Ok JNull
      end
  | _ => Raise AttributeError
  end.

(** [v.get(k, default)] with a string key. *)
Definition py_get_default (v : value) (k : string) (dflt : value)
  : Res value :=
  match v with
  | JObj fields =>
      match dict_get fields k with
      | Some x => Ok x
      | None => Ok dflt
      end
  | _ => Raise AttributeError
  end.

(** [v.setdefault(k, default)]; the container afterwards. *)
Definition py_setdefault (v : value) (k : string) (dflt : value)
  : Res value :=
  match v with
  | JObj fields =>
      if dict_has fields k then Ok v else Ok (JObj (dict_set fields k dflt))
  | _ => Raise AttributeError
  end.

(** [v.pop(k, None)]; the container afterwards. *)
Definition py_pop (v : value) (k : string) : Res value :=
  match v with
  | JObj fields => Ok (JObj (dict_pop fields k))
  | _ => Raise AttributeError
  end.

(** [v.items()] and [v.values()]. *)
Definition py_items (v : value) : Res (list (string * value)) :=
  match v with
  | JObj fields => Ok fields
  | _ => Raise AttributeError
  end.

Definition py_values (v : value) : Res (list value) :=
  match v with
  | JObj fields => Ok (dict_values fields)
  | _ => Raise AttributeError
  end.

Definition py_keys (v : value) : Res (list string) :=
  match v with
  | JObj fields => Ok (dict_keys fields)
  | _ => Raise AttributeError
  end.

(** [v == s] for a string [s]. *)
Definition py_eq_str (v : value) (s : string) : bool :=
  match v with
  | JStr s' => String.eqb s' s
  | _ => false
  end.

(** [v.lower()]. *)
Definition py_lower (v : value) : Res string :=
  match v with
  | JStr s => Ok (lower s)
  | _ => Raise AttributeError
  end.

(** [float(v)]. *)
Definition py_float (v : value) : Res num :=
  match v with
  | JNum n =>
      match float_of_num n with
      | Some x => Ok x
      | None => Raise OverflowError
      end
  | JBool b => Ok (float_of_bool b)
  | JStr s =>
      match float_of_string s with
      | Some x => Ok x
      | None => Raise (ValueError (float_error s))
      end
  | _ => Raise TypeError
  end.

(** ["{}".format(v)]. *)
Definition py_format (v : value) : string :=
  match v with
  | JStr s => s
  | _ => format_other v
  end.

(** The texts of a list whose items are all texts. *)
Fixpoint texts_of (l : list value) : option (list string) :=
  match l with
  | [] => Some []
  | JStr s :: l' =>
      match texts_of l' with
      | Some names => Some (s :: names)
      | None => None
      end
  | _ => None
  end.

(** [sorted(l)] for a list of loaded values: texts are ordered among
    themselves, a list of at most one item needs no comparison, and
    whether other items compare is the runtime's matter. *)
Definition py_sorted (l : list value) : Res (list value) :=
  match texts_of l with
  | Some names => Ok (map JStr (sorted names))
  | None =>
      match l with
      | [] | [_] => Ok l
      | _ =>
          match sorted_mixed l with
          | Some l' => Ok l'
          | None => Raise TypeError
          end
      end
  end.

(** *** Block definition helpers *)

Definition definition_name (family_name : value) (values : value)
  : Res string :=
  (keys <- py_keys values ;;
   parts <- res_map (fun k =>
              v <- py_getitem values k ;;
              Ok (k ++ "=" ++ py_format v)) (sorted keys) ;;
   let payload := join "_" parts in
   Ok ("DB_" ++ py_format family_name ++ "_" ++ payload))%res.


(** *** The Rhino document *)

Record Point3d : Type := mkPoint3d { PX : num; PY : num; PZ : num }.

(** [Polyline(points).ToNurbsCurve()]. *)
Inductive Curve : Type := NurbsCurve (vertices : list Point3d).

Record InstanceDefinition : Type := mkInstanceDefinition {
  idef_Name : string;
  idef_Description : string;
  idef_BasePoint : Point3d;
  idef_Geometry : list Curve;
  idef_Attributes : list ObjectAttributes
}.

Inductive ObjectKind : Type :=
| InstanceObject (idef_index : nat) (InstanceXform : Transform)
| OtherObject.

(** Deleted objects stay in the table, flagged, as Rhino keeps them for
    undo; a locked object refuses deletion. *)
Record RhinoObject : Type := mkRhinoObject {
  Id : Guid;
  Kind : ObjectKind;
  Attributes : ObjectAttributes;
  IsLocked : bool;
  IsDeleted : bool
}.

(** [NextIds] is the supply of identities the document will try to issue
    to new objects, in order; an exhausted supply or a [Guid_Empty] entry
    makes the creation fail. *)
Record RhinoDoc : Type := mkRhinoDoc {
  Strings : list (string * string * string);
  InstanceDefinitions : list InstanceDefinition;
  Objects : list RhinoObject;
  NextIds : list Guid
}.

(** [doc.Strings.GetValue(section, key)]. *)
Fixpoint strings_lookup (t : list (string * string * string))
  (section key : string) : option string :=
  match t with
  | [] => None
  | (s, k, v) :: t' =>
      if String.eqb s section && String.eqb k key then Some v
      else strings_lookup t' section key
  end.

Definition Strings_GetValue (d : RhinoDoc) (section key : string)
  : option string :=
  strings_lookup (Strings d) section key.

(** [doc.Strings.SetString(section, key, value)]. *)
Fixpoint strings_store (t : list (string * string * string))
  (section key value : string) : list (string * string * string) :=
  match t with
  | [] => [(section, key, value)]
  | (s, k, v) :: t' =>
      if String.eqb s section && String.eqb k key
      then (s, k, value) :: t'
      else (s, k, v) :: strings_store t' section key value
  end.

Definition Strings_SetString (d : RhinoDoc) (section key value : string)
  : RhinoDoc :=
  mkRhinoDoc (strings_store (Strings d) section key value)
             (InstanceDefinitions d) (Objects d) (NextIds d).

(** [doc.InstanceDefinitions.Find(name, True)]: the index of the
    definition of that name. *)
Fixpoint find_definition (t : list InstanceDefinition) (nm : string)
  (i : nat) : option nat :=
  match t with
  | [] => None
  | idef :: t' =>
      if String.eqb (idef_Name idef) nm then Some i
      else find_definition t' nm (S i)
  end.

Definition InstanceDefinitions_Find (d : RhinoDoc) (nm : string)
  : option nat :=
  find_definition (InstanceDefinitions d) nm 0.

(** [doc.InstanceDefinitions.Add(name, description, base_point,
    geometry, attrs)]: the new definition's index, and the document. *)
Definition InstanceDefinitions_Add (d : RhinoDoc) (nm description : string)
  (base_point : Point3d) (geometry : list Curve)
  (attrs : list ObjectAttributes) : nat * RhinoDoc :=
  (length (InstanceDefinitions d),
   mkRhinoDoc (Strings d)
     (InstanceDefinitions d
        ++ [mkInstanceDefinition nm description base_point geometry attrs])%list
     (Objects d) (NextIds d)).

(** [doc.Objects.FindId(id)]: deleted objects are not found. *)
Definition Objects_FindId (d : RhinoDoc) (id : Guid) : option RhinoObject :=
  find (fun o => N.eqb (Id o) id && negb (IsDeleted o)) (Objects d).

Definition mark_deleted (id : Guid) (o : RhinoObject) : RhinoObject :=
  if N.eqb (Id o) id
  then mkRhinoObject (Id o) (Kind o) (Attributes o) (IsLocked o) true
  else o.

Definition without_object (d : RhinoDoc) (id : Guid) : RhinoDoc :=
  mkRhinoDoc (Strings d) (InstanceDefinitions d)
    (map (mark_deleted id) (Objects d)) (NextIds d).

(** [doc.Objects.Delete(obj, False)]. *)
Definition Objects_Delete (d : RhinoDoc) (o : RhinoObject)
  : bool * RhinoDoc :=
  match Objects_FindId d (Id o) with
  | Some o' =>
      if IsLocked o' then (false, d) else (true, without_object d (Id o))
  | None => (false, d)
  end.

Definition id_in_use (d : RhinoDoc) (id : Guid) : bool :=
  existsb (fun o => N.eqb (Id o) id) (Objects d).

(** [doc.Objects.AddInstanceObject(idef_index, xform, attr)]: the next
    identity of the supply is consumed; the object is created under it
    unless it is [Guid_Empty], already borne by an object of the table,
    or the definition index is not in the table, in which case
    [Guid_Empty] is returned. *)
Definition Objects_AddInstanceObject (d : RhinoDoc) (idef_index : nat)
  (xform : Transform) (attr : ObjectAttributes) : Guid * RhinoDoc :=
  match NextIds d with
  | [] => (Guid_Empty, d)
  | g :: rest =>
      if N.eqb g Guid_Empty || id_in_use d g
         || negb (idef_index <? length (InstanceDefinitions d))%nat
      then (Guid_Empty,
            mkRhinoDoc (Strings d) (InstanceDefinitions d) (Objects d) rest)
      else (g,
            mkRhinoDoc (Strings d) (InstanceDefinitions d)
              (Objects d
                 ++ [mkRhinoObject g (InstanceObject idef_index xform)
                       attr false false])%list
              rest)
  end.

(** *** The world a command runs in *)

(** What the script did to its surroundings, oldest first. *)
Inductive Event : Type :=
| EvSetString (section key value : string)
| EvFindDefinition (nm : string)
| EvBuildGeometry (width height : num)
| EvAddDefinition (nm : string) (index : nat)
| EvDeleteObject (id : Guid) (deleted : bool)
| EvAddInstanceObject (idef_index : nat) (id : Guid)
| EvMessageBox (text : string)
| EvRedraw.

Record World : Type := mkWorld {
  doc : RhinoDoc;
  uuid_count : nat;
  events : list Event
}.

Definition M (A : Type) : Type := World -> Res A * World.

Definition ret {A} (a : A) : M A := fun w => (Ok a, w).

Definition bind {A B} (c : M A) (k : A -> M B) : M B :=
  fun w =>
    match c w with
    | (Ok a, w') => k a w'
    | (Raise e, w') => (Raise e, w')
    end.

Definition lift {A} (r : Res A) : M A := fun w => (r, w).

Definition emit (e : Event) : M unit :=
  fun w => (Ok tt, mkWorld (doc w) (uuid_count w) (events w ++ [e])%list).

Definition get_doc : M RhinoDoc := fun w => (Ok (doc w), w).

Definition put_doc (d : RhinoDoc) : M unit :=
  fun w => (Ok tt, mkWorld d (uuid_count w) (events w)).

End Script.

Declare Scope cmd_scope.
Delimit Scope cmd_scope with cmd.
Notation "x <- c ;; k" := (bind c (fun x => k))
  (at level 61, c at next level, right associativity) : cmd_scope.
Notation "c ;;; k" := (bind c (fun _ => k))
  (at level 61, right associativity) : cmd_scope.

Section Program.
Context {E : Env}.

#[local] Abbreviation value := (json num).

Local Open Scope cmd_scope.

(** *** Host calls, as commands *)

Definition GetValue (section key : string) : M (option string) :=
  d <- get_doc ;; ret (Strings_GetValue d section key).

Definition SetString (section key v : string) : M unit :=
  d <- get_doc ;;
  put_doc (Strings_SetString d section key v) ;;;
  emit (EvSetString section key v).

Definition Find (nm : string) : M (option nat) :=
  d <- get_doc ;;
  emit (EvFindDefinition nm) ;;;
  ret (InstanceDefinitions_Find d nm).

Definition Add (nm description : string) (base_point : Point3d)
  (geometry : list Curve) (attrs : list ObjectAttributes) : M nat :=
  d <- get_doc ;;
  let '(idx, d') :=
    InstanceDefinitions_Add d nm description base_point geometry attrs in
  put_doc d' ;;;
  emit (EvAddDefinition nm idx) ;;;
  ret idx.

Definition FindId (id : Guid) : M (option RhinoObject) :=
  d <- get_doc ;; ret (Objects_FindId d id).

Definition Delete (o : RhinoObject) : M bool :=
  d <- get_doc ;;
  let '(ok, d') := Objects_Delete d o in
  put_doc d' ;;;
  emit (EvDeleteObject (Id o) ok) ;;;
  ret ok.

Definition AddInstanceObject (idef_index : nat) (xform : Transform)
  (attr : ObjectAttributes) : M Guid :=
  d <- get_doc ;;
  let '(g, d') := Objects_AddInstanceObject d idef_index xform attr in
  put_doc d' ;;;
  emit (EvAddInstanceObject idef_index g) ;;;
  ret g.

Definition MessageBox (text : string) : M unit := emit (EvMessageBox text).

Definition Redraw : M unit := emit EvRedraw.

(** [str(uuid.uuid4())]. *)
Definition uuid4 : M string :=
  fun w => (Ok (uuid4_nth (uuid_count w)),
            mkWorld (doc w) (S (uuid_count w)) (events w)).

(** *** The registry *)

Definition STORE_SECTION : string := "RhinoDynamicBlocks".
Definition STORE_KEY : string := "Registry".

Record Family : Type := mkFamily {
  family_id : string;
  name : string;
  family_type : string;
  parameters : value
}.

(** The registry object: its [data] attribute (its [doc] is the world's). *)
Record DynamicBlockRegistry : Type := mkRegistry { data : value }.

Definition empty_data : value :=
  JObj [("families", JObj []); ("instances", JObj [])].

(** The body of the [try] in [_load]. *)
Definition parse_registry (raw : string) : Res value :=
  (loaded <- match json_loads raw with
             | Some v => Ok v
             | None => Raise (ValueError "No JSON object could be decoded")
             end ;;
   loaded <- py_setdefault loaded "families" (JObj []) ;;
   loaded <- py_setdefault loaded "instances" (JObj []) ;;
   Ok loaded)%res.

(** What [_load] returns for the text [raw] it read from the document. *)
Definition decode_registry (raw : option string) : value :=
  match raw with
  | None => empty_data
  | Some raw =>
      if String.eqb raw "" then empty_data
      else match parse_registry raw with
           | Ok loaded => loaded
           | Raise _ => empty_data
           end
  end.

Definition _load : M value :=
  raw <- GetValue STORE_SECTION STORE_KEY ;;
  ret (decode_registry raw).

(** [DynamicBlockRegistry(sc.doc)]. *)
Definition new_registry : M DynamicBlockRegistry :=
  loaded <- _load ;; ret (mkRegistry loaded).

Definition save (self : DynamicBlockRegistry) : M unit :=
  SetString STORE_SECTION STORE_KEY (json_dumps (data self)).

(** [container[field][key] = x]: the inner dictionary is changed in
    place, so the container sees the change. *)
Definition setitem_in (container : value) (field key : string) (x : value)
  : Res value :=
  (inner <- py_getitem container field ;;
   inner <- py_setitem inner key x ;;
   py_setitem container field inner)%res.

(** [container[field].pop(key, None)], likewise in place. *)
Definition pop_in (container : value) (field key : string) : Res value :=
  (inner <- py_getitem container field ;;
   inner <- py_pop inner key ;;
   py_setitem container field inner)%res.

Definition add_family (self : DynamicBlockRegistry) (family : Family)
  : M DynamicBlockRegistry :=
  d <- lift (setitem_in (data self) "families" (family_id family)
               (JObj [("name", JStr (name family));
                      ("family_type", JStr (family_type family));
                      ("parameters", parameters family)])) ;;
  let self := mkRegistry d in
  save self ;;;
  ret self.

Definition get_family (self : DynamicBlockRegistry) (family_id : value)
  : Res value :=
  (families <- py_getitem (data self) "families" ;;
   py_get families family_id)%res.

(** The loop of [find_family_by_name] over [items()]. *)
Fixpoint find_family_in (items : list (string * value)) (nm : string)
  : Res (option (string * value)) :=
  match items with
  | [] => Ok None
  | (family_id, family) :: rest =>
      (n <- py_getitem family "name" ;;
       n <- py_lower n ;;
       if String.eqb n (lower nm) then Ok (Some (family_id, family))
       else find_family_in rest nm)%res
  end.

(** [(None, None)] is [None]. *)
Definition find_family_by_name (self : DynamicBlockRegistry) (nm : string)
  : Res (option (string * value)) :=
  (families <- py_getitem (data self) "families" ;;
   items <- py_items families ;;
   find_family_in items nm)%res.

Definition add_instance (self : DynamicBlockRegistry) (obj_id : string)
  (family_id : value) (values : value) : M DynamicBlockRegistry :=
  d <- lift (setitem_in (data self) "instances" obj_id
               (JObj [("family_id", family_id); ("values", values)])) ;;
  let self := mkRegistry d in
  save self ;;;
  ret self.

Definition get_instance (self : DynamicBlockRegistry) (obj_id : string)
  : Res value :=
  (instances <- py_getitem (data self) "instances" ;;
   py_get instances (JStr obj_id))%res.

Definition remove_instance (self : DynamicBlockRegistry) (obj_id : string)
  : M DynamicBlockRegistry :=
  d <- lift (pop_in (data self) "instances" obj_id) ;;
  let self := mkRegistry d in
  save self ;;;
  ret self.

(** The generator's loop over [items()], run to the end. *)
Fixpoint instances_of_family (items : list (string * value))
  (family_id : string) : Res (list (string * value)) :=
  match items with
  | [] => Ok []
  | (obj_id, info) :: rest =>
      (fid <- py_getitem info "family_id" ;;
       if py_eq_str fid family_id
       then (more <- instances_of_family rest family_id ;;
             Ok ((obj_id, info) :: more))
       else instances_of_family rest family_id)%res
  end.

(** [list(reg.iter_instances_for_family(family_id))]. *)
Definition iter_instances_for_family (self : DynamicBlockRegistry)
  (family_id : string) : Res (list (string * value)) :=
  (instances <- py_getitem (data self) "instances" ;;
   items <- py_items instances ;;
   instances_of_family items family_id)%res.

(** *** Geometry factories *)

Definition make_rectangle_geometry (width height : num) : M (list Curve) :=
  emit (EvBuildGeometry width height) ;;;
  let zero := num_of_Z 0 in
  let p0 := mkPoint3d zero zero zero in
  let p1 := mkPoint3d width zero zero in
  let p2 := mkPoint3d width height zero in
  let p3 := mkPoint3d zero height zero in
  ret [NurbsCurve [p0; p1; p2; p3; p0]].

Definition build_geometry (family_type : value) (values : value)
  : M (list Curve) :=
  if py_eq_str family_type "rectangle" then
    w <- lift (x <- py_getitem values "Width" ;; py_float x)%res ;;
    h <- lift (x <- py_getitem values "Height" ;; py_float x)%res ;;
    make_rectangle_geometry w h
  else
    lift (Raise (ValueError
                   ("Unsupported family type: " ++ py_format family_type))).

(** *** Block definition helpers *)

Definition ensure_definition (family : value) (values : value) : M nat :=
  nm <- lift (n <- py_getitem family "name" ;; definition_name n values)%res ;;
  idef <- Find nm ;;
  match idef with
  | Some index => ret index
  | None =>
      ty <- lift (py_getitem family "family_type") ;;
      geometry <- build_geometry ty values ;;
      let base_point := mkPoint3d (num_of_Z 0) (num_of_Z 0) (num_of_Z 0) in
      let attrs := map (fun _ => default_attributes) geometry in
      Add nm "Dynamic block variant" base_point geometry attrs
  end.

(** What [replace_instance_geometry] returns: [False] or a string. *)
Inductive PyResult : Type :=
| PyFalse
| PyStr (s : string).

Definition result_truthy (r : PyResult) : bool :=
  match r with
  | PyFalse => false
  | PyStr s => negb (String.eqb s "")
  end.

Definition replace_instance_geometry (instance_id : string)
  (family : value) (values : value) : M PyResult :=
  id <- lift (Guid_of_str instance_id) ;;
  obj_ref <- FindId id ;;
  match obj_ref with
  | None => ret PyFalse
  | Some inst_obj =>
      match Kind inst_obj with
      | OtherObject => ret PyFalse
      | InstanceObject _ xform =>
          let attr := Attributes inst_obj in
          deleted <- Delete inst_obj ;;
          if negb deleted then ret PyFalse
          else
            idef_index <- ensure_definition family values ;;
            new_id <- AddInstanceObject idef_index xform attr ;;
            if N.eqb new_id Guid_Empty then ret PyFalse
            else ret (PyStr (str_of_Guid new_id))
      end
  end.

(** *** Commands

    The answers given at the prompts of a command are its arguments;
    [None] is a cancelled prompt. *)

Definition cmd_create_rectangle_family (name_answer : option string)
  (default_w default_h : option num) : M unit :=
  match name_answer with
  | None => ret tt
  | Some nm =>
      if String.eqb nm "" then ret tt
      else
        match default_w with
        | None => ret tt
        | Some default_w =>
            match default_h with
            | None => ret tt
            | Some default_h =>
                reg <- new_registry ;;
                existing <- lift (find_family_by_name reg nm) ;;
                let existing_id :=
                  match existing with
                  | Some (fid, _) => negb (String.eqb fid "")
                  | None => false
                  end in
                if existing_id then
                  MessageBox ("Family '" ++ nm ++ "' already exists")
                else
                  fid <- uuid4 ;;
                  let family :=
                    mkFamily fid nm "rectangle"
                      (JObj [("Width", JNum default_w);
                             ("Height", JNum default_h)]) in
                  add_family reg family ;;;
                  MessageBox ("Created family '" ++ nm ++ "'")
            end
        end
  end.

Definition cmd_edit_instance_parameters (pick : option Guid)
  (width height : option num) : M unit :=
  reg <- new_registry ;;
  match pick with
  | None => ret tt
  | Some obj_id =>
      inst <- lift (get_instance reg (str_of_Guid obj_id)) ;;
      if negb (py_truthy inst) then
        MessageBox "Selected instance is not managed by Dynamic Blocks."
      else
        family <- lift (fid <- py_getitem inst "family_id" ;;
                        get_family reg fid)%res ;;
        if negb (py_truthy family) then
          MessageBox "Family metadata missing."
        else
          cur_vals <- lift (py_getitem inst "values") ;;
          lift (x <- py_getitem cur_vals "Width" ;; py_float x)%res ;;;
          match width with
          | None => ret tt
          | Some width =>
              lift (x <- py_getitem cur_vals "Height" ;; py_float x)%res ;;;
              match height with
              | None => ret tt
              | Some height =>
                  let new_values :=
                    JObj [("Width", JNum (py_round6 width));
                          ("Height", JNum (py_round6 height))] in
                  new_id <- replace_instance_geometry
                              (str_of_Guid obj_id) family new_values ;;
                  match new_id with
                  | PyStr new_id_str =>
                      if String.eqb new_id_str "" then
                        MessageBox "Failed to update instance"
                      else
                        reg <- remove_instance reg (str_of_Guid obj_id) ;;
                        fid <- lift (py_getitem inst "family_id") ;;
                        add_instance reg new_id_str fid new_values ;;;
                        Redraw
                  | PyFalse => MessageBox "Failed to update instance"
                  end
              end
          end
  end.

(** One turn of the loop over [updates] in [cmd_sync_family_instances]. *)
Definition sync_one (family_id : string) (family : value)
  (reg : DynamicBlockRegistry) (update : string * value)
  : M DynamicBlockRegistry :=
  let '(obj_id, info) := update in
  id <- lift (Guid_of_str obj_id) ;;
  found <- FindId id ;;
  match found with
  | None => remove_instance reg obj_id
  | Some _ =>
      values <- lift (py_getitem info "values") ;;
      new_id <- replace_instance_geometry obj_id family values ;;
      match new_id with
      | PyStr new_id_str =>
          if negb (String.eqb new_id_str "")
             && negb (String.eqb new_id_str obj_id)
          then
            reg <- remove_instance reg obj_id ;;
            values <- lift (py_getitem info "values") ;;
            add_instance reg new_id_str (JStr family_id) values
          else ret reg
      | PyFalse => ret reg
      end
  end.

Fixpoint sync_all (family_id : string) (family : value)
  (reg : DynamicBlockRegistry) (updates : list (string * value))
  : M DynamicBlockRegistry :=
  match updates with
  | [] => ret reg
  | update :: rest =>
      reg <- sync_one family_id family reg update ;;
      sync_all family_id family reg rest
  end.

Definition cmd_sync_family_instances (name_answer : option string)
  (default_w default_h : option num) : M unit :=
  reg <- new_registry ;;
  families <- lift (py_get_default (data reg) "families" (JObj [])) ;;
  if negb (py_truthy families) then MessageBox "No families available."
  else
    lift (fs <- py_values families ;;
          ns <- res_map (fun f => py_getitem f "name") fs ;;
          py_sorted ns)%res ;;;
    match name_answer with
    | None => ret tt
    | Some nm =>
        if String.eqb nm "" then ret tt
        else
          found <- lift (find_family_by_name reg nm) ;;
          match found with
          | None => ret tt
          | Some (family_id, family) =>
              if negb (py_truthy family) then ret tt
              else
                lift (p <- py_getitem family "parameters" ;;
                      x <- py_getitem p "Width" ;; py_float x)%res ;;;
                match default_w with
                | None => ret tt
                | Some default_w =>
                    lift (p <- py_getitem family "parameters" ;;
                          x <- py_getitem p "Height" ;; py_float x)%res ;;;
                    match default_h with
                    | None => ret tt
                    | Some default_h =>
                        (* [family] is the very object held by
                           [reg.data["families"][family_id]] *)
                        family <- lift
                          (f <- setitem_in family "parameters" "Width"
                                  (JNum (py_round6 default_w)) ;;
                           setitem_in f "parameters" "Height"
                             (JNum (py_round6 default_h)))%res ;;
                        d <- lift (setitem_in (data reg) "families"
                                     family_id family) ;;
                        let reg := mkRegistry d in
                        updates <- lift
                          (iter_instances_for_family reg family_id) ;;
                        reg <- sync_all family_id family reg updates ;;
                        save reg ;;;
                        Redraw ;;;
                        MessageBox ("Family '" ++ nm ++ "' synchronized.")
                    end
                end
          end
    end.

End Program.

(** *** The insert command *)

Section InsertCommand.
Context {E : Env}.

(** [Rhino.Geometry.Transform.Translation(dx, dy, dz)]. *)
Variable Translation : num -> num -> num -> Transform.

Local Open Scope cmd_scope.

(** The answers are those of the list box, the two number prompts and
    the point prompt.  [AddInstanceObject(idef_index, xform)] is the
    overload that gives the object the document's default attributes. *)
Definition cmd_insert_instance (name_answer : option string)
  (width height : option num) (pt : option Point3d) : M unit :=
  reg <- new_registry ;;
  families <- lift (py_get_default (data reg) "families" (JObj [])) ;;
  if negb (py_truthy families) then
    MessageBox "No families found. Create one first."
  else
    lift (fs <- py_values families ;;
          ns <- res_map (fun f => py_getitem f "name") fs ;;
          py_sorted ns)%res ;;;
    match name_answer with
    | None => ret tt
    | Some nm =>
        if String.eqb nm "" then ret tt
        else
          found <- lift (find_family_by_name reg nm) ;;
          match found with
          | None => ret tt
          | Some (family_id, family) =>
              if negb (py_truthy family) then ret tt
              else
                lift (p <- py_getitem family "parameters" ;;
                      x <- py_getitem p "Width" ;; py_float x)%res ;;;
                match width with
                | None => ret tt
                | Some width =>
                    lift (p <- py_getitem family "parameters" ;;
                          x <- py_getitem p "Height" ;; py_float x)%res ;;;
                    match height with
                    | None => ret tt
                    | Some height =>
                        match pt with
                        | None => ret tt
                        | Some pt =>
                            let values :=
                              JObj [("Width", JNum (py_round6 width));
                                    ("Height", JNum (py_round6 height))] in
                            idef_index <- ensure_definition family values ;;
                            let xform :=
                              Translation (PX pt) (PY pt) (PZ pt) in
                            obj_id <- AddInstanceObject idef_index xform
                                        default_attributes ;;
                            if N.eqb obj_id Guid_Empty then
                              MessageBox "Failed to create instance"
                            else
                              add_instance reg (str_of_Guid obj_id)
                                (JStr family_id) values ;;;
                              Redraw
                        end
                    end
                end
          end
    end.

End InsertCommand.

(** * Vocabulary of the statements *)

Section Vocabulary.
Context {E : Env}.
#[local] Abbreviation value := (json num).

(** The [k=v] piece that [definition_name] writes for key [k]. *)
Definition name_part (fields : list (string * value)) (k : string) : string :=
  k ++ "=" ++ py_format (match dict_get fields k with
                         | Some v => v
                         | None => JNull
                         end).

(** A tree that Python dictionaries can hold: no key twice in a mapping. *)
Fixpoint json_wf (v : value) : Prop :=
  match v with
  | JArr items =>
      (fix all (l : list value) : Prop :=
         match l with
         | [] => True
         | x :: l' => json_wf x /\ all l'
         end) items
  | JObj fields =>
      NoDup (map fst fields) /\
      (fix all (l : list (string * value)) : Prop :=
         match l with
         | [] => True
         | (_, x) :: l' => json_wf x /\ all l'
         end) fields
  | _ => True
  end.

(** What the script relies on from the [json] module: a dumped tree
    reads back as itself, and no dump is the empty text. *)
Class JsonLaws : Prop := {
  loads_dumps : forall v : value, json_wf v -> json_loads (json_dumps v) = Some v;
  dumps_nonempty : forall v : value, json_dumps v <> ""
}.

(** The registry a document stores, as [_load] reads it. *)
Definition stored_registry (d : RhinoDoc) : value :=
  decode_registry (Strings_GetValue d STORE_SECTION STORE_KEY).

(** The registry text of a document. *)
Definition stored_text (d : RhinoDoc) : option string :=
  Strings_GetValue d STORE_SECTION STORE_KEY.

(** The shape of the persisted registry:
    [{families: {id: {name, family_type, parameters}},
      instances: {id: {family_id, values}}}], where parameters and
    values hold a [Width] and a [Height] that are numbers [float]
    accepts. *)
Definition in_float_range (x : num) : Prop :=
  exists f, float_of_num x = Some f.

Definition values_ok (v : value) : Prop :=
  exists fields w h,
    v = JObj fields /\
    dict_get fields "Width" = Some (JNum w) /\
    dict_get fields "Height" = Some (JNum h) /\
    in_float_range w /\ in_float_range h.

Definition family_value_ok (v : value) : Prop :=
  exists fields n params,
    v = JObj fields /\
    dict_get fields "name" = Some (JStr n) /\
    dict_get fields "family_type" = Some (JStr "rectangle") /\
    dict_get fields "parameters" = Some params /\
    values_ok params.

Definition family_ok (entry : string * value) : Prop :=
  fst entry <> "" /\ family_value_ok (snd entry).

Definition instance_value_ok (v : value) : Prop :=
  exists fields fid vals,
    v = JObj fields /\
    dict_get fields "family_id" = Some (JStr fid) /\
    dict_get fields "values" = Some vals /\
    values_ok vals.

Definition instance_ok (entry : string * value) : Prop :=
  (exists g, fst entry = str_of_Guid g) /\ instance_value_ok (snd entry).

Definition registry_ok (d : value) : Prop :=
  exists top fams insts,
    d = JObj top /\
    dict_get top "families" = Some (JObj fams) /\
    dict_get top "instances" = Some (JObj insts) /\
    dict_wf fams /\ dict_wf insts /\
    Forall family_ok fams /\ Forall instance_ok insts.

(** The [families] and [instances] mappings of registry data. *)
Definition families_of (d : value) : list (string * value) :=
  match py_getitem d "families" with
  | Ok (JObj fams) => fams
  | _ => []
  end.

Definition instances_of (d : value) : list (string * value) :=
  match py_getitem d "instances" with
  | Ok (JObj insts) => insts
  | _ => []
  end.

(** The world [w] after the events [evs], and with document [d]. *)
Definition log (w : World) (evs : list Event) : World :=
  mkWorld (doc w) (uuid_count w) (events w ++ evs)%list.

Definition with_doc (w : World) (d : RhinoDoc) : World :=
  mkWorld d (uuid_count w) (events w).

(** Events of the definition cache that concern the definition [nm]. *)
Definition definition_event (nm : string) (values : value) (e : Event)
  : Prop :=
  match e with
  | EvFindDefinition n => n = nm
  | EvAddDefinition n _ => n = nm
  | EvBuildGeometry width height =>
      (x <- py_getitem values "Width" ;; py_float x)%res = Ok width /\
      (x <- py_getitem values "Height" ;; py_float x)%res = Ok height
  | _ => False
  end.

(** Events that act on the placed object [id]: its deletion, or the
    creation of an object under that identity. *)
Definition object_event (id : Guid) (e : Event) : Prop :=
  match e with
  | EvDeleteObject id' _ => id' = id
  | EvAddInstanceObject _ id' => id' = id /\ id' <> Guid_Empty
  | _ => False
  end.

(** The events of replacing the object [id] with geometry for [values]
    under the definition name [nm], identities coming from [supply];
    registry writes are let through. *)
Definition replace_event (id : Guid) (supply : list Guid) (nm : string)
  (values : value) (e : Event) : Prop :=
  match e with
  | EvDeleteObject id' _ => id' = id
  | EvAddInstanceObject _ id' => id' = Guid_Empty \/ In id' supply
  | EvSetString _ _ _ => True
  | EvRedraw | EvMessageBox _ => False
  | _ => definition_event nm values e
  end.

(** A family the geometry factory can build for. *)
Definition buildable (family : value) (n : string) : Prop :=
  py_getitem family "name" = Ok (JStr n) /\
  py_getitem family "family_type" = Ok (JStr "rectangle").

(** Whether an instance entry is bound to the family [fid]. *)
Definition bound_to (fid : string) (entry : string * value) : bool :=
  match py_getitem (snd entry) "family_id" with
  | Ok v => py_eq_str v fid
  | Raise _ => false
  end.

(** The registry entry of an instance. *)
Definition instance_entry (fid : value) (values : value) : value :=
  JObj [("family_id", fid); ("values", values)].

(** What an event of a synchronisation may be when the instance [gone]
    is only pruned and geometry is built for [vals] only: it does not
    act on the object [gone], and if it concerns a definition, it is the
    definition named [nm], built from [vals]. *)
Definition survivor_event (gone : Guid) (nm : string) (vals : value)
  (e : Event) : Prop :=
  ~ object_event gone e /\
  match e with
  | EvFindDefinition _ | EvAddDefinition _ _ | EvBuildGeometry _ _ =>
      definition_event nm vals e
  | _ => True
  end.

(** The object [o] of the instance [live], once deleted, is regenerated
    from the values [vals] between the documents [d] and [d']: the
    events [evs] look up the definition named [nm], build it from the
    floats of [vals] when [d] had none, and request an object for the
    index [d'] finds under [nm]; the old object is gone.  When the host
    issued an identity, the new object carries it with the old transform
    and attributes, and the family's [entry] is [vals] under that
    identity; when it issued none, the entry is still [old]. *)
Definition regenerated_from (fid : string) (vals : value) (live : Guid)
  (o : RhinoObject) (xform : Transform) (nm : string) (d d' : RhinoDoc)
  (evs : list Event) (old entry : string * value) : Prop :=
  exists idx new,
    InstanceDefinitions_Find d' nm = Some idx /\
    In (EvFindDefinition nm) evs /\
    In (EvAddInstanceObject idx new) evs /\
    (InstanceDefinitions_Find d nm = None ->
     exists fw fh,
       (x <- py_getitem vals "Width" ;; py_float x)%res = Ok fw /\
       (x <- py_getitem vals "Height" ;; py_float x)%res = Ok fh /\
       In (EvBuildGeometry fw fh) evs /\ In (EvAddDefinition nm idx) evs) /\
    Objects_FindId d' live = None /\
    (new = Guid_Empty -> entry = old) /\
    (new <> Guid_Empty ->
     entry = (str_of_Guid new, instance_entry (JStr fid) vals) /\
     Objects_FindId d' new
     = Some (mkRhinoObject new (InstanceObject idx xform) (Attributes o)
               false false)).

(** An instance entry that has a [family_id]. *)
Definition has_family_id (entry : string * value) : Prop :=
  exists v, py_getitem (snd entry) "family_id" = Ok v.

Definition is_write (e : Event) : bool :=
  match e with
  | EvSetString _ _ _ => true
  | _ => false
  end.

(** The four ways a call of [ensure_definition] can go. *)
Inductive ensure_outcome (family values : value) (w : World)
  : Res nat -> World -> Prop :=
| ensure_no_name e :
    (n <- py_getitem family "name" ;; definition_name n values)%res
    = Raise e ->
    ensure_outcome family values w (Raise e) w
| ensure_hit nm index :
    (n <- py_getitem family "name" ;; definition_name n values)%res
    = Ok nm ->
    InstanceDefinitions_Find (doc w) nm = Some index ->
    ensure_outcome family values w (Ok index) (log w [EvFindDefinition nm])
| ensure_miss_raise nm e :
    (n <- py_getitem family "name" ;; definition_name n values)%res
    = Ok nm ->
    InstanceDefinitions_Find (doc w) nm = None ->
    ensure_outcome family values w (Raise e) (log w [EvFindDefinition nm])
| ensure_miss_built nm width height idef :
    (n <- py_getitem family "name" ;; definition_name n values)%res
    = Ok nm ->
    InstanceDefinitions_Find (doc w) nm = None ->
    (x <- py_getitem values "Width" ;; py_float x)%res = Ok width ->
    (x <- py_getitem values "Height" ;; py_float x)%res = Ok height ->
    idef_Name idef = nm ->
    let index := length (InstanceDefinitions (doc w)) in
    ensure_outcome family values w (Ok index)
      (log (with_doc w
              (mkRhinoDoc (Strings (doc w))
                 (InstanceDefinitions (doc w) ++ [idef])
                 (Objects (doc w)) (NextIds (doc w))))
         [EvFindDefinition nm; EvBuildGeometry width height;
          EvAddDefinition nm index]).

(** The ways a call of [replace_instance_geometry] can go. *)
Inductive replace_outcome (instance_id : string) (family values : value)
  (w : World) : Res PyResult -> World -> Prop :=
| replace_bad_id e :
    Guid_of_str instance_id = Raise e ->
    replace_outcome instance_id family values w (Raise e) w
| replace_not_found id :
    Guid_of_str instance_id = Ok id ->
    Objects_FindId (doc w) id = None ->
    replace_outcome instance_id family values w (Ok PyFalse) w
| replace_not_instance id o :
    Guid_of_str instance_id = Ok id ->
    Objects_FindId (doc w) id = Some o ->
    Kind o = OtherObject ->
    replace_outcome instance_id family values w (Ok PyFalse) w
| replace_delete_failed id o index xform :
    Guid_of_str instance_id = Ok id ->
    Objects_FindId (doc w) id = Some o ->
    Kind o = InstanceObject index xform ->
    IsLocked o = true ->
    replace_outcome instance_id family values w (Ok PyFalse)
      (log w [EvDeleteObject id false])
| replace_no_definition id o index xform e w2 :
    Guid_of_str instance_id = Ok id ->
    Objects_FindId (doc w) id = Some o ->
    Kind o = InstanceObject index xform ->
    IsLocked o = false ->
    ensure_definition family values
      (log (with_doc w (without_object (doc w) id)) [EvDeleteObject id true])
    = (Raise e, w2) ->
    replace_outcome instance_id family values w (Raise e) w2
| replace_lost id o index xform idef_index w2 d3 :
    Guid_of_str instance_id = Ok id ->
    Objects_FindId (doc w) id = Some o ->
    Kind o = InstanceObject index xform ->
    IsLocked o = false ->
    ensure_definition family values
      (log (with_doc w (without_object (doc w) id)) [EvDeleteObject id true])
    = (Ok idef_index, w2) ->
    Objects_AddInstanceObject (doc w2) idef_index xform (Attributes o)
    = (Guid_Empty, d3) ->
    replace_outcome instance_id family values w (Ok PyFalse)
      (log (with_doc w2 d3) [EvAddInstanceObject idef_index Guid_Empty])
| replace_done id o index xform idef_index w2 new_id d3 :
    Guid_of_str instance_id = Ok id ->
    Objects_FindId (doc w) id = Some o ->
    Kind o = InstanceObject index xform ->
    IsLocked o = false ->
    ensure_definition family values
      (log (with_doc w (without_object (doc w) id)) [EvDeleteObject id true])
    = (Ok idef_index, w2) ->
    Objects_AddInstanceObject (doc w2) idef_index xform (Attributes o)
    = (new_id, d3) ->
    new_id <> Guid_Empty ->
    replace_outcome instance_id family values w
      (Ok (PyStr (str_of_Guid new_id)))
      (log (with_doc w2 d3) [EvAddInstanceObject idef_index new_id]).

(** The three failures of [replace_instance_geometry] that leave the
    old object in place. *)
Definition instance_not_found (d : RhinoDoc) (id : Guid) : Prop :=
  Objects_FindId d id = None.

Definition not_an_instance (d : RhinoDoc) (id : Guid) : Prop :=
  exists o, Objects_FindId d id = Some o /\ Kind o = OtherObject.

Definition delete_refused (d : RhinoDoc) (id : Guid) : Prop :=
  exists o index xform,
    Objects_FindId d id = Some o /\
    Kind o = InstanceObject index xform /\
    IsLocked o = true.

(** The document has no identity to issue: its supply is exhausted, or
    the next identity is the empty one or already borne by an object. *)
Definition cannot_issue (d : RhinoDoc) : Prop :=
  match NextIds d with
  | [] => True
  | g :: _ => g = Guid_Empty \/ id_in_use d g = true
  end.

(** The same, for a text that is an identity [id], told by what the
    document was before and is after, with the events of the call. *)
Inductive replace_run (id : Guid) (family values : value) (w : World)
  : Res PyResult -> World -> list Event -> Prop :=
| run_not_found :
    instance_not_found (doc w) id ->
    replace_run id family values w (Ok PyFalse) w []
| run_not_instance :
    not_an_instance (doc w) id ->
    replace_run id family values w (Ok PyFalse) w []
| run_delete_refused :
    delete_refused (doc w) id ->
    replace_run id family values w (Ok PyFalse)
      (log w [EvDeleteObject id false]) [EvDeleteObject id false]
| run_no_definition o index xform e w' evs :
    Objects_FindId (doc w) id = Some o ->
    Kind o = InstanceObject index xform ->
    IsLocked o = false ->
    Objects (doc w') = Objects (without_object (doc w) id) ->
    NextIds (doc w') = NextIds (doc w) ->
    Forall (fun e => exists nm, definition_event nm values e) evs ->
    (forall nm,
        (n <- py_getitem family "name" ;; definition_name n values)%res
        = Ok nm ->
        Forall (definition_event nm values) evs) ->
    (forall n, buildable family n -> values_ok values -> False) ->
    replace_run id family values w (Raise e) w'
      (EvDeleteObject id true :: evs)
| run_lost o index xform idef_index w' evs :
    Objects_FindId (doc w) id = Some o ->
    Kind o = InstanceObject index xform ->
    IsLocked o = false ->
    cannot_issue (doc w) ->
    Objects (doc w') = Objects (without_object (doc w) id) ->
    NextIds (doc w') = tl (NextIds (doc w)) ->
    Forall (fun e => exists nm, definition_event nm values e) evs ->
    (forall nm,
        (n <- py_getitem family "name" ;; definition_name n values)%res
        = Ok nm ->
        Forall (definition_event nm values) evs) ->
    replace_run id family values w (Ok PyFalse) w'
      (EvDeleteObject id true
         :: evs ++ [EvAddInstanceObject idef_index Guid_Empty])%list
| run_done o index xform idef_index new_id w' evs :
    Objects_FindId (doc w) id = Some o ->
    Kind o = InstanceObject index xform ->
    IsLocked o = false ->
    new_id <> Guid_Empty ->
    id_in_use (doc w) new_id = false ->
    NextIds (doc w) = new_id :: NextIds (doc w') ->
    Objects (doc w')
    = (Objects (without_object (doc w) id)
         ++ [mkRhinoObject new_id (InstanceObject idef_index xform)
               (Attributes o) false false])%list ->
    Forall (fun e => exists nm, definition_event nm values e) evs ->
    (forall nm,
        (n <- py_getitem family "name" ;; definition_name n values)%res
        = Ok nm ->
        Forall (definition_event nm values) evs) ->
    replace_run id family values w (Ok (PyStr (str_of_Guid new_id))) w'
      (EvDeleteObject id true
         :: evs ++ [EvAddInstanceObject idef_index new_id])%list.

(** The world after [save] wrote the data [d]. *)
Definition saved (w : World) (d : value) : World :=
  mkWorld (Strings_SetString (doc w) STORE_SECTION STORE_KEY (json_dumps d))
    (uuid_count w)
    (events w ++ [EvSetString STORE_SECTION STORE_KEY (json_dumps d)])%list.

(** Registry data holding the two mappings [fams] and [insts]. *)
Definition has_maps (d : value) (fams insts : list (string * value))
  : Prop :=
  exists top,
    d = JObj top /\
    dict_get top "families" = Some (JObj fams) /\
    dict_get top "instances" = Some (JObj insts).

(** The events a command adds when run from [w]. *)
Definition trace {A} (c : M A) (w : World) : list Event :=
  skipn (length (events w)) (events (snd (c w))).

(** How many times the document's string table was written. *)
Definition writes (evs : list Event) : nat := length (filter is_write evs).
End Vocabulary.

(** ** Vocabulary of the further statements *)

Section LookupVocabulary.
Context {E : Env}.
#[local] Abbreviation value := (json num).

(** A family entry whose name is the text [nm] up to letter case. *)
Definition name_matches (nm : string) (entry : string * value) : Prop :=
  exists n, py_getitem (snd entry) "name" = Ok (JStr n) /\ lower n = lower nm.

(** A family entry that has a text as its name. *)
Definition has_name (entry : string * value) : Prop :=
  exists n, py_getitem (snd entry) "name" = Ok (JStr n).

(** The closed polyline [make_rectangle_geometry] draws. *)
Definition rectangle (width height : num) : Curve :=
  let zero := num_of_Z 0 in
  NurbsCurve [mkPoint3d zero zero zero; mkPoint3d width zero zero;
              mkPoint3d width height zero; mkPoint3d zero height zero;
              mkPoint3d zero zero zero].

(** The key under which family names are compared, and a families
    mapping in which no two names are equal up to letter case. *)
Definition name_key (entry : string * value) : string :=
  match py_getitem (snd entry) "name" with
  | Ok (JStr n) => lower n
  | _ => ""
  end.

Definition names_unique (fams : list (string * value)) : Prop :=
  NoDup (map name_key fams).

End LookupVocabulary.

(** * A concrete runtime

    An instance of [Env] on which every definition above computes: numbers
    are naturals written in decimal, and the [json] module is a printer in
    Python's default layout with a reader for that layout. *)

Module Sample.

(** [str.lower] on the texts of the sample runs, which are ASCII: the
    letters [A] to [Z] are lowered and every other byte is kept. *)
Definition lower_ascii (c : ascii) : ascii :=
  let n := nat_of_ascii c in
  if (65 <=? n)%nat && (n <=? 90)%nat then ascii_of_nat (n + 32) else c.

Fixpoint lower_letters (s : string) : string :=
  match s with
  | EmptyString => EmptyString
  | String c s' => String (lower_ascii c) (lower_letters s')
  end.

Definition dquote : ascii := ascii_of_nat 34.
Definition backslash : ascii := ascii_of_nat 92.

Definition is_digit (c : ascii) : bool :=
  (48 <=? nat_of_ascii c)%nat && (nat_of_ascii c <=? 57)%nat.

Definition str_of_N (n : N) : string := NilZero.string_of_uint (N.to_uint n).

Definition N_of_str (s : string) : option N :=
  option_map N.of_uint (NilZero.uint_of_string s).

Fixpoint escape (s : string) : string :=
  match s with
  | EmptyString => EmptyString
  | String c s' =>
      if Ascii.eqb c dquote || Ascii.eqb c backslash
      then String backslash (String c (escape s'))
      else String c (escape s')
  end.

Definition quote (s : string) : string :=
  String dquote (escape s ++ String dquote EmptyString).

Fixpoint dumps (v : json N) : string :=
  match v with
  | JNull => "null"
  | JBool true => "true"
  | JBool false => "false"
  | JNum n => str_of_N n
  | JStr s => quote s
  | JArr items => "[" ++ String.concat ", " (map dumps items) ++ "]"
  | JObj fields =>
      "{" ++ String.concat ", "
               (map (fun kv => quote (fst kv) ++ ": " ++ dumps (snd kv))
                  fields)
          ++ "}"
  end.

(** The text after an opening quote, up to the closing one. *)
Fixpoint read_string (s : string) : option (string * string) :=
  match s with
  | EmptyString => None
  | String c s' =>
      if Ascii.eqb c dquote then Some (EmptyString, s')
      else if Ascii.eqb c backslash then
        match s' with
        | EmptyString => None
        | String c' s'' =>
            match read_string s'' with
            | Some (t, rest) => Some (String c' t, rest)
            | None => None
            end
        end
      else
        match read_string s' with
        | Some (t, rest) => Some (String c t, rest)
        | None => None
        end
  end.

Fixpoint span_digits (s : string) : string * string :=
  match s with
  | EmptyString => (EmptyString, EmptyString)
  | String c s' =>
      if is_digit c
      then let (digits, rest) := span_digits s' in (String c digits, rest)
      else (EmptyString, s)
  end.

Definition head_not_digit (s : string) : Prop :=
  match s with
  | EmptyString => True
  | String c _ => is_digit c = false
  end.

(** [s] with the text [word] removed from its front. *)
Fixpoint expect (word s : string) : option string :=
  match word with
  | EmptyString => Some s
  | String c word' =>
      match s with
      | String c' s' => if Ascii.eqb c c' then expect word' s' else None
      | EmptyString => None
      end
  end.

Definition dict_of_pairs (pairs : list (string * json N))
  : list (string * json N) :=
  fold_left (fun d kv => dict_set d (fst kv) (snd kv)) pairs [].

Fixpoint parse_value (fuel : nat) (s : string) : option (json N * string) :=
  match fuel with
  | O => None
  | S fuel =>
      match s with
      | EmptyString => None
      | String c s' =>
          if Ascii.eqb c "n" then
            option_map (pair JNull) (expect "ull" s')
          else if Ascii.eqb c "t" then
            option_map (pair (JBool true)) (expect "rue" s')
          else if Ascii.eqb c "f" then
            option_map (pair (JBool false)) (expect "alse" s')
          else if Ascii.eqb c dquote then
            match read_string s' with
            | Some (t, rest) => Some (JStr t, rest)
            | None => None
            end
          else if Ascii.eqb c "[" then
            match expect "]" s' with
            | Some rest => Some (JArr [], rest)
            | None =>
                match parse_items fuel s' with
                | Some (items, rest) => Some (JArr items, rest)
                | None => None
                end
            end
          else if Ascii.eqb c "{" then
            match expect "}" s' with
            | Some rest => Some (JObj [], rest)
            | None =>
                match parse_members fuel s' with
                | Some (pairs, rest) => Some (JObj (dict_of_pairs pairs), rest)
                | None => None
                end
            end
          else if is_digit c then
            let (digits, rest) := span_digits s in
            match N_of_str digits with
            | Some n => Some (JNum n, rest)
            | None => None
            end
          else None
      end
  end
with parse_items (fuel : nat) (s : string)
  : option (list (json N) * string) :=
  match fuel with
  | O => None
  | S fuel =>
      match parse_value fuel s with
      | Some (v, rest) =>
          match expect "]" rest with
          | Some rest' => Some ([v], rest')
          | None =>
              match expect ", " rest with
              | Some rest' =>
                  match parse_items fuel rest' with
                  | Some (items, rest'') => Some (v :: items, rest'')
                  | None => None
                  end
              | None => None
              end
          end
      | None => None
      end
  end
with parse_members (fuel : nat) (s : string)
  : option (list (string * json N) * string) :=
  match fuel with
  | O => None
  | S fuel =>
      match s with
      | EmptyString => None
      | String c s1 =>
          if negb (Ascii.eqb c dquote) then None
          else
            match read_string s1 with
            | Some (k, s2) =>
                match expect ": " s2 with
                | Some s3 =>
                    match parse_value fuel s3 with
                    | Some (v, rest) =>
                        match expect "}" rest with
                        | Some rest' => Some ([(k, v)], rest')
                        | None =>
                            match expect ", " rest with
                            | Some rest' =>
                                match parse_members fuel rest' with
                                | Some (pairs, rest'') =>
                                    Some ((k, v) :: pairs, rest'')
                                | None => None
                                end
                            | None => None
                            end
                        end
                    | None => None
                    end
                | None => None
                end
            | None => None
            end
      end
  end.

Definition loads (s : string) : option (json N) :=
  match parse_value (S (String.length s)) s with
  | Some (v, EmptyString) => Some v
  | _ => None
  end.

Definition env : Env := {|
  num := N;
  num_of_Z := Z.to_N;
  num_truthy := fun n => negb (N.eqb n 0);
  py_round6 := fun n => n;
  float_of_num := fun n => Some n;
  float_of_bool := fun b => if b then 1%N else 0%N;
  float_of_string := N_of_str;
  float_error :=
    fun s => "could not convert string to float: '" ++ s ++ "'";
  lower := lower_letters;
  sorted_mixed := fun _ => None;
  format_other := dumps;
  json_loads := loads;
  json_dumps := dumps;
  uuid4_nth := fun n => "family-" ++ str_of_N (N.of_nat n);
  Transform := N;
  ObjectAttributes := string;
  default_attributes := "default"
|}.

(** What reading back a dumped tree means, with text [rest] after it. *)
Definition reads_back (v : json N) : Prop :=
  json_wf (E := env) v ->
  forall rest fuel,
    head_not_digit rest ->
    (String.length (dumps v) < fuel)%nat ->
    parse_value fuel (dumps v ++ rest) = Some (v, rest).

(** *** A small document to run the commands on

    One family, "Door", with two registered instances, 7 and 8. *)

#[local] Existing Instance env.

Definition values_of (w h : N) : json N :=
  JObj [("Width", JNum w); ("Height", JNum h)].

Definition door : json N :=
  JObj [("name", JStr "Door");
        ("family_type", JStr "rectangle");
        ("parameters", values_of 1%N 2%N)].

Definition instance_of (fid : string) (w h : N) : json N :=
  JObj [("family_id", JStr fid); ("values", values_of w h)].

Definition two_instances : list (string * json N) :=
  [("7", instance_of "f1" 3%N 4%N); ("8", instance_of "f1" 5%N 6%N)].

Definition registry_with (insts : list (string * json N)) : json N :=
  JObj [("families", JObj [("f1", door)]); ("instances", JObj insts)].

Definition registry : json N := registry_with two_instances.

(** An instance object placed with transform 11. *)
Definition placed (id : Guid) (locked : bool) : RhinoObject :=
  mkRhinoObject id (InstanceObject 0 11%N) "layer 0" locked false.

(** A document storing the text [text], with the given objects and
    supply of identities, and no definition yet. *)
Definition doc_storing (text : string) (objects : list RhinoObject)
  (supply : list Guid) : RhinoDoc :=
  mkRhinoDoc [(STORE_SECTION, STORE_KEY, text)] [] objects supply.

Definition world_of (d : RhinoDoc) : World := mkWorld d 0 [].

(** The object of instance 7 is gone, that of instance 8 is there. *)
Definition world_8 (locked : bool) (supply : list Guid) : World :=
  world_of (doc_storing (dumps registry) [placed 8%N locked] supply).

(** A family of a type the geometry factory does not know, holding the
    same two instances; the object of instance 7 is gone, that of
    instance 8 is there and not locked. *)
Definition disc : json N :=
  JObj [("name", JStr "Disc");
        ("family_type", JStr "circle");
        ("parameters", values_of 1%N 2%N)].

Definition disc_registry : json N :=
  JObj [("families", JObj [("f1", disc)]);
        ("instances", JObj two_instances)].

Definition world_disc : World :=
  world_of (doc_storing (dumps disc_registry) [placed 8%N false] [20%N]).



(** Only instance 7 is registered, and its object is gone. *)
Definition world_stale : World :=
  world_of (doc_storing (dumps (registry_with [("7", instance_of "f1" 3%N 4%N)]))
              [] [20%N]).

(** A stored text that is an object without the ["instances"] key, and
    whose ["families"] is a number. *)
Definition world_families_5 : World :=
  world_of (doc_storing (dumps (JObj [("families", JNum 5%N)])) [] []).

(** A stored text that is not JSON. *)
Definition world_corrupt : World := world_of (doc_storing "{" [] []).

(** *** More sample data *)

(** A second family to create. *)
Definition window : Family :=
  mkFamily "f2" "Window" "rectangle" (values_of 3%N 4%N).

(** A stored text whose ["instances"] is a number. *)
Definition world_instances_5 : World :=
  world_of (doc_storing (dumps (JObj [("instances", JNum 5%N)])) [] []).

(** A translation, as one number, and a point to insert at. *)
Definition translation (dx dy dz : N) : N := ((dx * 100 + dy) * 100 + dz)%N.

Definition spot : Point3d := mkPoint3d 1%N 2%N 3%N.

(** The registry object holding the sample data. *)
Definition door_registry : DynamicBlockRegistry := mkRegistry registry.

End Sample.

(** * Properties *)

(** ** Sorting strings *)

Lemma ascii_compare_refl (a : ascii) : Ascii.compare a a = Eq.
Proof. unfold Ascii.compare. apply N.compare_refl. Qed.

Lemma string_compare_le_trans (a b c : string) :
  String.compare a b <> Gt -> String.compare b c <> Gt ->
  String.compare a c <> Gt.
Proof.
  revert b c.
  induction a as [|x a IH]; intros [|y b] [|z c]; simpl; try congruence.
  intros Hab Hbc.
  destruct (Ascii.compare x y) eqn:Exy; try congruence;
    destruct (Ascii.compare y z) eqn:Eyz; try congruence.
  - apply Ascii.compare_eq_iff in Exy, Eyz. subst.
    rewrite ascii_compare_refl. now apply IH with b.
  - apply Ascii.compare_eq_iff in Exy. subst. rewrite Eyz. congruence.
  - apply Ascii.compare_eq_iff in Eyz. subst. rewrite Exy. congruence.
  - unfold Ascii.compare in *.
    rewrite N.compare_lt_iff in Exy, Eyz.
    assert (H : (N_of_ascii x ?= N_of_ascii z)%N = Lt)
      by (apply N.compare_lt_iff; lia).
    rewrite H. congruence.
Qed.

Lemma string_leb_trans (a b c : string) :
  String.leb a b = true -> String.leb b c = true -> String.leb a c = true.
Proof.
  unfold String.leb. intros Hab Hbc.
  assert (H : String.compare a c <> Gt).
  { apply string_compare_le_trans with b.
    - destruct (String.compare a b); congruence.
    - destruct (String.compare b c); congruence. }
  destruct (String.compare a c); congruence.
Qed.

Lemma string_leb_false (a b : string) :
  String.leb a b = false -> String.leb b a = true.
Proof.
  intros H. destruct (String.leb_total a b) as [H'|H']; congruence.
Qed.

Lemma insert_sorted_comm (x y : string) (l : list string) :
  insert_sorted x (insert_sorted y l) = insert_sorted y (insert_sorted x l).
Proof.
  induction l as [|z l IH]; simpl.
  - destruct (String.leb x y) eqn:Exy, (String.leb y x) eqn:Eyx; trivial.
    + now rewrite (String.leb_antisym _ _ Exy Eyx).
    + apply string_leb_false in Exy. congruence.
  - destruct (String.leb y z) eqn:Eyz, (String.leb x z) eqn:Exz; simpl;
      rewrite ?Eyz, ?Exz.
    + destruct (String.leb x y) eqn:Exy, (String.leb y x) eqn:Eyx; trivial.
      * now rewrite (String.leb_antisym _ _ Exy Eyx).
      * apply string_leb_false in Exy. congruence.
    + destruct (String.leb x y) eqn:Exy.
      * rewrite (string_leb_trans _ _ _ Exy Eyz) in Exz. discriminate.
      * reflexivity.
    + destruct (String.leb y x) eqn:Eyx.
      * rewrite (string_leb_trans _ _ _ Eyx Exz) in Eyz. discriminate.
      * reflexivity.
    + now rewrite IH.
Qed.

Lemma sorted_Permutation (l1 l2 : list string) :
  Permutation l1 l2 -> sorted l1 = sorted l2.
Proof.
  induction 1 as [|x l1 l2 _ IH|x y l|l1 l2 l3 _ IH1 _ IH2]; simpl.
  - reflexivity.
  - now rewrite IH.
  - apply insert_sorted_comm.
  - congruence.
Qed.

Lemma insert_sorted_In (x y : string) (l : list string) :
  In y (insert_sorted x l) <-> y = x \/ In y l.
Proof.
  induction l as [|z l IH]; simpl.
  - intuition.
  - destruct (String.leb x z); simpl; rewrite ?IH; intuition.
Qed.

Lemma sorted_In (y : string) (l : list string) : In y (sorted l) <-> In y l.
Proof.
  induction l as [|x l IH]; simpl.
  - reflexivity.
  - rewrite insert_sorted_In, IH. intuition.
Qed.

(** ** Dictionaries *)

Section DictFacts.
Context {V : Type}.
Implicit Types (d : list (string * V)) (k : string).

Lemma dict_get_In_keys d k : dict_get d k <> None <-> In k (dict_keys d).
Proof.
  induction d as [|[k' v] d IH]; simpl.
  - intuition.
  - destruct (String.eqb_spec k' k) as [->|Hne].
    + split; [now left | discriminate].
    + rewrite IH. intuition.
Qed.

Lemma dict_get_None_keys d k : dict_get d k = None <-> ~ In k (dict_keys d).
Proof.
  rewrite <- dict_get_In_keys. destruct (dict_get d k); intuition congruence.
Qed.

Lemma dict_get_In d k v : dict_get d k = Some v -> In (k, v) d.
Proof.
  induction d as [|[k' v'] d IH]; simpl; [discriminate|].
  destruct (String.eqb_spec k' k) as [->|Hne].
  - intros [= ->]. now left.
  - intros H. right. now apply IH.
Qed.

Lemma dict_get_of_In d k v : dict_wf d -> In (k, v) d -> dict_get d k = Some v.
Proof.
  unfold dict_wf.
  induction d as [|[k' v'] d IH]; simpl; [easy|].
  intros Hnd [[= -> ->]|Hin].
  - now rewrite String.eqb_refl.
  - inversion Hnd as [|? ? Hk' Hnd']; subst.
    destruct (String.eqb_spec k' k) as [->|Hne].
    + exfalso. apply Hk'. apply in_map_iff. now exists (k, v).
    + now apply IH.
Qed.

Lemma dict_keys_Permutation d1 d2 :
  dict_wf d1 -> dict_wf d2 ->
  (forall k, dict_get d1 k = dict_get d2 k) ->
  Permutation (dict_keys d1) (dict_keys d2).
Proof.
  intros H1 H2 Heq. apply NoDup_Permutation; trivial.
  intros k. rewrite <- !dict_get_In_keys, Heq. reflexivity.
Qed.

Lemma dict_get_set_same d k v : dict_get (dict_set d k v) k = Some v.
Proof.
  induction d as [|[k' v'] d IH]; simpl.
  - now rewrite String.eqb_refl.
  - destruct (String.eqb_spec k' k) as [->|Hne]; simpl.
    + now rewrite String.eqb_refl.
    + destruct (String.eqb_spec k' k); [contradiction|exact IH].
Qed.

Lemma dict_get_set_other d k k' v :
  k' <> k -> dict_get (dict_set d k v) k' = dict_get d k'.
Proof.
  intros Hne.
  induction d as [|[k0 v0] d IH]; simpl.
  - destruct (String.eqb_spec k k'); [congruence|reflexivity].
  - destruct (String.eqb_spec k0 k) as [->|Hne0]; simpl.
    + destruct (String.eqb_spec k k'); [congruence|reflexivity].
    + now rewrite IH.
Qed.

Lemma dict_get_pop_same d k : dict_get (dict_pop d k) k = None.
Proof.
  unfold dict_pop.
  induction d as [|[k' v'] d IH]; simpl; trivial.
  destruct (String.eqb_spec k' k) as [->|Hne]; simpl; trivial.
  destruct (String.eqb_spec k' k); [contradiction|exact IH].
Qed.

Lemma dict_get_pop_other d k k' :
  k' <> k -> dict_get (dict_pop d k) k' = dict_get d k'.
Proof.
  intros Hne. unfold dict_pop.
  induction d as [|[k0 v0] d IH]; simpl; trivial.
  destruct (String.eqb_spec k0 k) as [->|Hne0]; simpl.
  - destruct (String.eqb_spec k k'); [congruence|exact IH].
  - now rewrite IH.
Qed.

Lemma dict_set_present d k v :
  dict_get d k <> None -> dict_keys (dict_set d k v) = dict_keys d.
Proof.
  induction d as [|[k' v'] d IH]; simpl; [congruence|].
  destruct (String.eqb_spec k' k) as [->|Hne]; simpl; trivial.
  intros H. now rewrite IH.
Qed.

Lemma dict_set_absent d k v :
  dict_get d k = None -> dict_set d k v = (d ++ [(k, v)])%list.
Proof.
  induction d as [|[k' v'] d IH]; simpl; trivial.
  destruct (String.eqb_spec k' k) as [->|Hne]; [discriminate|].
  intros H. now rewrite IH.
Qed.

Lemma dict_set_self d k v : dict_get d k = Some v -> dict_set d k v = d.
Proof.
  induction d as [|[k' v'] d IH]; simpl; [discriminate|].
  destruct (String.eqb_spec k' k) as [->|Hne].
  - now intros [= ->].
  - intros H. now rewrite IH.
Qed.

Lemma dict_wf_set d k v : dict_wf d -> dict_wf (dict_set d k v).
Proof.
  unfold dict_wf. intros Hwf.
  destruct (dict_get d k) eqn:Hk.
  - rewrite dict_set_present; [trivial|congruence].
  - rewrite dict_set_absent by trivial.
    unfold dict_keys. rewrite map_app. simpl.
    apply NoDup_app; trivial.
    + repeat constructor. intros [].
    + intros x Hx [<-|[]]. apply dict_get_None_keys in Hk. contradiction.
Qed.

Lemma dict_wf_pop d k : dict_wf d -> dict_wf (dict_pop d k).
Proof.
  unfold dict_wf, dict_pop, dict_keys.
  induction d as [|[k' v'] d IH]; simpl; trivial.
  intros Hwf. inversion Hwf as [|? ? Hk' Hwf']; subst.
  destruct (String.eqb k' k); simpl; auto.
  constructor; auto.
  intros Hin. apply Hk'. apply in_map_iff in Hin as [[k0 v0] [<- Hin]].
  apply filter_In in Hin as [Hin _]. apply in_map_iff. now exists (k0, v0).
Qed.
End DictFacts.

Lemma res_map_Ok {A B} (f : A -> Res B) (g : A -> B) (l : list A) :
  (forall a, In a l -> f a = Ok (g a)) -> res_map f l = Ok (map g l).
Proof.
  induction l as [|a l IH]; simpl; intros H; trivial.
  rewrite (H a) by now left. simpl.
  rewrite IH by (intros; apply H; now right). reflexivity.
Qed.

(** ** Canonical definition names *)

Section NameFacts.
Context {E : Env}.
#[local] Abbreviation value := (json num).

Lemma definition_name_obj (family_name : value)
  (fields : list (string * value)) :
  definition_name family_name (JObj fields)
  = Ok ("DB_" ++ py_format family_name ++ "_"
          ++ join "_" (map (name_part fields) (sorted (dict_keys fields)))).
Proof.
  unfold definition_name. simpl.
  rewrite res_map_Ok with (g := name_part fields); trivial.
  intros k Hk. apply sorted_In, dict_get_In_keys in Hk.
  unfold name_part. destruct (dict_get fields k); [reflexivity|congruence].
Qed.

(** C3. For every family name and every two value mappings holding the
    same key-to-value pairs, whatever the order in which the pairs were
    inserted, [definition_name] returns (does not raise) and returns the
    same string for both. *)
Theorem definition_name_order_independent (family_name : value)
  (values1 values2 : list (string * value)) :
  dict_wf values1 -> dict_wf values2 ->
  (forall k, dict_get values1 k = dict_get values2 k) ->
  exists s,
    definition_name family_name (JObj values1) = Ok s /\
    definition_name family_name (JObj values2) = Ok s.
Proof.
  intros Hwf1 Hwf2 Hsame.
  rewrite !definition_name_obj.
  eexists. split; [reflexivity|].
  rewrite (sorted_Permutation (dict_keys_Permutation Hwf1 Hwf2 Hsame)).
  unfold join. do 5 f_equal. apply map_ext. intros k. unfold name_part.
  now rewrite Hsame.
Qed.
End NameFacts.

(** ** Loading and saving the registry *)

Section RegistryFacts.
Context {E : Env}.
#[local] Abbreviation value := (json num).

Lemma load_run (w : World) : _load w = (Ok (stored_registry (doc w)), w).
Proof. reflexivity. Qed.

Lemma new_registry_run (w : World) :
  new_registry w = (Ok (mkRegistry (stored_registry (doc w))), w).
Proof. reflexivity. Qed.

Lemma save_run (reg : DynamicBlockRegistry) (w : World) :
  save reg w
  = (Ok tt,
     mkWorld (Strings_SetString (doc w) STORE_SECTION STORE_KEY
                (json_dumps (data reg)))
       (uuid_count w)
       (events w
          ++ [EvSetString STORE_SECTION STORE_KEY (json_dumps (data reg))])%list).
Proof. reflexivity. Qed.

Lemma strings_lookup_store (t : list (string * string * string))
  (section key v : string) :
  strings_lookup (strings_store t section key v) section key = Some v.
Proof.
  induction t as [|[[s k] v'] t IH]; simpl.
  - now rewrite !String.eqb_refl.
  - destruct (String.eqb s section && String.eqb k key) eqn:Hm; simpl;
      rewrite Hm; trivial.
Qed.

Lemma GetValue_SetString (d : RhinoDoc) (section key v : string) :
  Strings_GetValue (Strings_SetString d section key v) section key = Some v.
Proof. apply strings_lookup_store. Qed.

(** C5. Whenever the stored text is absent, empty, or rejected by
    [json.loads], [_load] returns (it does not raise) the empty registry
    [{families: {}, instances: {}}], and leaves the world as it was. *)
Theorem load_fail_open (w : World) :
  stored_text (doc w) = None \/
  stored_text (doc w) = Some "" \/
  (exists raw, stored_text (doc w) = Some raw /\ json_loads raw = None) ->
  _load w = (Ok (JObj [("families", JObj []); ("instances", JObj [])]), w).
Proof.
  intros H. rewrite load_run. unfold stored_registry, stored_text in *.
  destruct H as [-> | [-> | (raw & -> & Hraw)]]; trivial.
  unfold decode_registry, parse_registry. rewrite Hraw.
  now destruct (String.eqb raw "").
Qed.

Lemma setdefault_get (fields : list (string * value)) (k : string)
  (dflt : value) :
  exists fields',
    py_setdefault (JObj fields) k dflt = Ok (JObj fields') /\
    forall k',
      dict_get fields' k'
      = match dict_get fields k' with
        | Some v => Some v
        | None => if String.eqb k' k then Some dflt else None
        end.
Proof.
  unfold py_setdefault, dict_has.
  destruct (dict_get fields k) eqn:Hk.
  - exists fields. split; trivial. intros k'.
    destruct (String.eqb_spec k' k) as [->|Hne].
    + now rewrite Hk.
    + now destruct (dict_get fields k').
  - eexists. split; [reflexivity|]. intros k'.
    destruct (String.eqb_spec k' k) as [->|Hne].
    + now rewrite dict_get_set_same, Hk.
    + rewrite dict_get_set_other by trivial.
      now destruct (dict_get fields k').
Qed.

Lemma parse_registry_obj (raw : string) (fields : list (string * value)) :
  json_loads raw = Some (JObj fields) ->
  exists loaded,
    parse_registry raw = Ok (JObj loaded) /\
    forall k,
      dict_get loaded k
      = match dict_get fields k with
        | Some v => Some v
        | None => if String.eqb k "families" || String.eqb k "instances"
                  then Some (JObj []) else None
        end.
Proof.
  intros Hloads. unfold parse_registry. rewrite Hloads. cbn [res_bind].
  destruct (setdefault_get fields "families" (JObj [])) as (f1 & -> & Hf1).
  cbn [res_bind].
  destruct (setdefault_get f1 "instances" (JObj [])) as (f2 & -> & Hf2).
  cbn [res_bind]. exists f2. split; trivial. intros k.
  rewrite Hf2, Hf1.
  destruct (dict_get fields k); trivial.
  now destruct (String.eqb k "families"), (String.eqb k "instances").
Qed.

(** C10. When the stored text parses to a JSON object, [_load] returns
    that object with ["families"] and ["instances"] each set to an empty
    mapping if it was missing: keys already present keep their values,
    and the loaded state always has both keys. *)
Theorem load_fills_missing_keys (w : World) (raw : string)
  (fields : list (string * value)) :
  stored_text (doc w) = Some raw -> raw <> "" ->
  json_loads raw = Some (JObj fields) ->
  exists loaded,
    _load w = (Ok (JObj loaded), w) /\
    dict_get loaded "families"
    = Some (match dict_get fields "families" with
            | Some v => v
            | None => JObj []
            end) /\
    dict_get loaded "instances"
    = Some (match dict_get fields "instances" with
            | Some v => v
            | None => JObj []
            end) /\
    forall k, k <> "families" -> k <> "instances" ->
              dict_get loaded k = dict_get fields k.
Proof.
  intros Hraw Hne Hloads. rewrite load_run.
  unfold stored_registry, stored_text in *. rewrite Hraw.
  unfold decode_registry.
  destruct (String.eqb_spec raw "") as [|_]; [contradiction|].
  destruct (parse_registry_obj _ Hloads) as (loaded & -> & Hget).
  exists loaded. split; trivial.
  repeat split.
  - rewrite Hget. now destruct (dict_get fields "families").
  - rewrite Hget. now destruct (dict_get fields "instances").
  - intros k Hk1 Hk2. rewrite Hget.
    destruct (String.eqb_spec k "families"); [contradiction|].
    destruct (String.eqb_spec k "instances"); [contradiction|].
    now destruct (dict_get fields k).
Qed.

(** Whatever the document stores, [_load] returns a mapping that has
    both keys. *)
Lemma stored_registry_has_both (d : RhinoDoc) :
  exists loaded,
    stored_registry d = JObj loaded /\
    dict_has loaded "families" = true /\
    dict_has loaded "instances" = true.
Proof.
  unfold stored_registry, decode_registry.
  destruct (Strings_GetValue d STORE_SECTION STORE_KEY) as [raw|];
    [|now eexists].
  destruct (String.eqb raw ""); [now eexists|].
  destruct (json_loads raw) as [[| | | | |fields]|] eqn:Hloads;
    try (unfold parse_registry; rewrite Hloads; now eexists).
  destruct (parse_registry_obj _ Hloads) as (loaded & -> & Hget).
  exists loaded. split; trivial. unfold dict_has. rewrite !Hget.
  split.
  - now destruct (dict_get fields "families").
  - now destruct (dict_get fields "instances").
Qed.

(** C6. With a [json] module under which dumped trees read back as
    themselves, saving a registry whose data holds the [families] and
    [instances] mappings (of serialisable values) and then loading a
    fresh registry from the same document returns the saved data, hence
    equal [families] and [instances] mappings. *)
Theorem save_load_roundtrip `{!JsonLaws} (reg : DynamicBlockRegistry)
  (w : World) (top : list (string * value)) :
  data reg = JObj top ->
  dict_has top "families" = true -> dict_has top "instances" = true ->
  json_wf (data reg) ->
  let w' := snd (save reg w) in
  new_registry w' = (Ok reg, w') /\
  families_of (data (mkRegistry (stored_registry (doc w'))))
  = families_of (data reg) /\
  instances_of (data (mkRegistry (stored_registry (doc w'))))
  = instances_of (data reg).
Proof.
  intros Hdata Hfam Hinst Hwf w'.
  assert (Hstored : stored_registry (doc w') = data reg).
  { unfold w'. rewrite save_run. simpl.
    unfold stored_registry. rewrite GetValue_SetString.
    unfold decode_registry.
    destruct (String.eqb_spec (json_dumps (data reg)) "") as [Hempty|_].
    { now apply dumps_nonempty in Hempty. }
    unfold parse_registry. rewrite loads_dumps by trivial.
    rewrite Hdata. simpl. unfold py_setdefault.
    rewrite Hfam. simpl. now rewrite Hinst. }
  rewrite new_registry_run, Hstored. destruct reg. auto.
Qed.
End RegistryFacts.

(** ** The definition cache *)

Section DefinitionFacts.
Context {E : Env}.
#[local] Abbreviation value := (json num).

Lemma log_log (w : World) (evs1 evs2 : list Event) :
  log (log w evs1) evs2 = log w (evs1 ++ evs2)%list.
Proof. unfold log. simpl. now rewrite <- app_assoc. Qed.

Lemma log_nil (w : World) : log w [] = w.
Proof. destruct w. unfold log. simpl. now rewrite app_nil_r. Qed.

Lemma find_definition_bound (t : list InstanceDefinition) (nm : string)
  (i idx : nat) :
  find_definition t nm i = Some idx -> (i <= idx < i + length t)%nat.
Proof.
  revert i. induction t as [|idef t IH]; simpl; intros i; [discriminate|].
  destruct (String.eqb (idef_Name idef) nm).
  - intros [= <-]. lia.
  - intros H. apply IH in H. lia.
Qed.

Lemma find_definition_app_new (t : list InstanceDefinition)
  (idef : InstanceDefinition) (i : nat) :
  find_definition t (idef_Name idef) i = None ->
  find_definition (t ++ [idef]) (idef_Name idef) i = Some (i + length t)%nat.
Proof.
  revert i. induction t as [|x t IH]; simpl; intros i.
  - rewrite String.eqb_refl. intros _. f_equal. lia.
  - destruct (String.eqb (idef_Name x) (idef_Name idef)); [discriminate|].
    intros H. rewrite IH by trivial. f_equal. lia.
Qed.

Lemma ensure_definition_outcome (family values : value) (w : World) :
  ensure_outcome family values w
    (fst (ensure_definition family values w))
    (snd (ensure_definition family values w)).
Proof.
  unfold ensure_definition, bind, lift.
  destruct (n <- py_getitem family "name" ;; definition_name n values)%res
    as [nm|e] eqn:Hnm.
  - unfold Find, bind, get_doc, emit, ret. simpl.
    destruct (InstanceDefinitions_Find (doc w) nm) as [index|] eqn:Hfind.
    + simpl. now apply ensure_hit.
    + destruct (py_getitem family "family_type") as [ty|e] eqn:Hty.
      * unfold build_geometry.
        destruct (py_eq_str ty "rectangle").
        -- unfold bind, lift.
           destruct (x <- py_getitem values "Width" ;; py_float x)%res
             as [wd|e] eqn:Hwd; simpl.
           ++ destruct (x <- py_getitem values "Height" ;; py_float x)%res
                as [ht|e] eqn:Hht; simpl.
              ** rewrite <- !app_assoc. cbn [app].
                 exact (@ensure_miss_built _ family values w nm wd ht
                          (mkInstanceDefinition nm
                             "Dynamic block variant" _ _ _)
                          Hnm Hfind Hwd Hht eq_refl).
              ** exact (@ensure_miss_raise _ family values w nm e Hnm Hfind).
           ++ exact (@ensure_miss_raise _ family values w nm e Hnm Hfind).
        -- simpl. exact (@ensure_miss_raise _ family values w nm _ Hnm Hfind).
      * simpl. exact (@ensure_miss_raise _ family values w nm e Hnm Hfind).
  - simpl. now apply ensure_no_name.
Qed.
(** What [ensure_definition] returns and does to the document depends
    on the document only. *)
Lemma ensure_definition_frame (family values : value) (w w' : World) :
  doc w = doc w' ->
  fst (ensure_definition family values w)
  = fst (ensure_definition family values w') /\
  doc (snd (ensure_definition family values w))
  = doc (snd (ensure_definition family values w')).
Proof.
  intros Hdoc.
  unfold ensure_definition, bind, lift.
  destruct (n <- py_getitem family "name" ;; definition_name n values)%res
    as [nm|e]; [|now simpl].
  unfold Find, bind, get_doc, emit, ret. simpl. rewrite Hdoc.
  destruct (InstanceDefinitions_Find (doc w') nm); [now simpl|].
  destruct (py_getitem family "family_type") as [ty|e]; [|now simpl].
  unfold build_geometry.
  destruct (py_eq_str ty "rectangle"); [|now simpl].
  unfold bind, lift.
  destruct (x <- py_getitem values "Width" ;; py_float x)%res;
    [|now simpl].
  destruct (x <- py_getitem values "Height" ;; py_float x)%res;
    [|now simpl].
  simpl. auto.
Qed.

(** C4. From any document, two successive calls of [ensure_definition]
    with the same family and values return the same result, add at most
    one definition to the document in total, and the second call leaves
    the document as the first left it; when the first call returned a
    handle, all the second does is look the name up (no geometry is
    built, no definition added). *)
Theorem ensure_definition_idempotent (family values : value) (w : World) :
  let r1 := fst (ensure_definition family values w) in
  let w1 := snd (ensure_definition family values w) in
  let r2 := fst (ensure_definition family values w1) in
  let w2 := snd (ensure_definition family values w1) in
  r2 = r1 /\
  doc w2 = doc w1 /\
  (length (InstanceDefinitions (doc w2))
   <= S (length (InstanceDefinitions (doc w))))%nat /\
  match r1 with
  | Ok _ => exists nm, events w2 = (events w1 ++ [EvFindDefinition nm])%list
  | Raise _ => True
  end.
Proof.
  cbv zeta.
  pose proof (ensure_definition_outcome family values w) as H1.
  destruct (ensure_definition family values w) as [r1 w1] eqn:E1.
  cbn [fst snd] in *.
  pose proof (ensure_definition_outcome family values w1) as H2.
  pose proof (@ensure_definition_frame family values w1 w) as Hframe.
  destruct (ensure_definition family values w1) as [r2 w2] eqn:E2.
  rewrite E1 in Hframe.
  cbn [fst snd] in *.
  destruct H1 as [e Hnm | nm index Hnm Hfind | nm e Hnm Hfind
                 | nm wd ht idef Hnm Hfind Hwd Hht Hidef index].
  - (* the name cannot be computed *)
    inversion H2 as [e' Hnm' | nm' ? Hnm' | nm' ? Hnm' | nm' ? ? ? Hnm'];
      try congruence.
    repeat split; try congruence; lia.
  - (* a definition of that name exists *)
    inversion H2 as [e' Hnm' | nm' index' Hnm' Hfind' | nm' ? Hnm' Hfind'
                    | nm' ? ? ? Hnm' Hfind']; try congruence;
      assert (nm' = nm) by congruence; subst nm'; simpl in Hfind';
      try congruence.
    repeat split; try congruence; simpl; try lia.
    now exists nm.
  - (* no definition, and the geometry cannot be built *)
    destruct (Hframe eq_refl) as [Hr Hd].
    repeat split; trivial.
    rewrite Hd. simpl. lia.
  - (* the definition is built and added *)
    assert (Hfind1 : InstanceDefinitions_Find
                       (doc (log (with_doc w
                          (mkRhinoDoc (Strings (doc w))
                             (InstanceDefinitions (doc w) ++ [idef])
                             (Objects (doc w)) (NextIds (doc w))))
                          [EvFindDefinition nm; EvBuildGeometry wd ht;
                           EvAddDefinition nm index])) nm
                     = Some index).
    { simpl. unfold InstanceDefinitions_Find in *. simpl.
      rewrite <- Hidef in *. now apply find_definition_app_new. }
    inversion H2 as [e' Hnm' | nm' index' Hnm' Hfind' | nm' ? Hnm' Hfind'
                    | nm' ? ? ? Hnm' Hfind']; try congruence;
      assert (nm' = nm) by congruence; subst nm'; try congruence.
    repeat split; try congruence.
    + simpl. rewrite length_app. simpl. lia.
    + now exists nm.
Qed.
End DefinitionFacts.

(** ** Replacing the placed object of an instance *)

Section ReplaceFacts.
Context {E : Env}.
#[local] Abbreviation value := (json num).

Lemma FindId_spec (d : RhinoDoc) (id : Guid) (o : RhinoObject) :
  Objects_FindId d id = Some o ->
  Id o = id /\ IsDeleted o = false /\ In o (Objects d).
Proof.
  unfold Objects_FindId. intros H. apply find_some in H as [Hin H].
  apply andb_true_iff in H as [H1 H2].
  apply N.eqb_eq in H1. apply negb_true_iff in H2. auto.
Qed.

Lemma replace_instance_geometry_outcome (instance_id : string)
  (family values : value) (w : World) :
  replace_outcome instance_id family values w
    (fst (replace_instance_geometry instance_id family values w))
    (snd (replace_instance_geometry instance_id family values w)).
Proof.
  unfold replace_instance_geometry, bind, lift.
  destruct (Guid_of_str instance_id) as [id|e] eqn:Hid;
    [|now apply replace_bad_id].
  unfold FindId, bind, get_doc, ret. cbn [fst snd doc].
  destruct (Objects_FindId (doc w) id) as [o|] eqn:Hfind;
    [|now eapply replace_not_found; eauto].
  destruct (Kind o) as [index xform|] eqn:Hkind;
    [|now eapply replace_not_instance; eauto].
  destruct (FindId_spec _ _ Hfind) as (Hido & _ & _).
  unfold Delete, bind, get_doc, put_doc, emit, ret. cbn [fst snd doc].
  unfold Objects_Delete. rewrite Hido, Hfind.
  destruct (IsLocked o) eqn:Hlock.
  - cbn. eapply replace_delete_failed; eauto.
  - cbn [negb doc uuid_count events].
    match goal with
    | |- context [ensure_definition family values ?w1] =>
        change w1 with
          (log (with_doc w (without_object (doc w) id))
             [EvDeleteObject id true])
    end.
    destruct (ensure_definition family values
                (log (with_doc w (without_object (doc w) id))
                   [EvDeleteObject id true]))
      as [[idef_index|e] w2] eqn:Hens.
    + unfold AddInstanceObject, bind, get_doc, put_doc, emit, ret.
      cbn [fst snd doc].
      destruct (Objects_AddInstanceObject (doc w2) idef_index xform
                  (Attributes o)) as [new_id d3] eqn:Hadd.
      cbn [fst snd doc uuid_count events].
      destruct (N.eqb_spec new_id Guid_Empty) as [->|Hne].
      * cbn. eapply replace_lost; eauto.
      * cbn. eapply replace_done; eauto.
    + cbn. eapply replace_no_definition; eauto.
Qed.
End ReplaceFacts.

(** ** Identities and their text *)

Lemma N_to_uint_nonnil (n : N) : N.to_uint n <> Decimal.Nil.
Proof.
  destruct n as [|p]; simpl.
  - discriminate.
  - apply DecimalPos.Unsigned.to_uint_nonnil.
Qed.

Lemma Guid_of_str_of_Guid (g : Guid) : Guid_of_str (str_of_Guid g) = Ok g.
Proof.
  unfold Guid_of_str, str_of_Guid.
  rewrite NilZero.usu by apply N_to_uint_nonnil.
  now rewrite DecimalN.Unsigned.of_to.
Qed.

Lemma str_of_Guid_inj (g g' : Guid) : str_of_Guid g = str_of_Guid g' -> g = g'.
Proof.
  intros H.
  assert (H' : Guid_of_str (str_of_Guid g) = Guid_of_str (str_of_Guid g'))
    by now rewrite H.
  rewrite !Guid_of_str_of_Guid in H'. congruence.
Qed.

Lemma str_of_Guid_nonempty (g : Guid) : str_of_Guid g <> "".
Proof.
  intros H.
  pose proof (Guid_of_str_of_Guid g) as H'. rewrite H in H'. discriminate.
Qed.

(** ** Induction on JSON trees *)

Lemma json_ind' (num : Type) (P : json num -> Prop) :
  P JNull ->
  (forall b, P (JBool b)) ->
  (forall n, P (JNum n)) ->
  (forall s, P (JStr s)) ->
  (forall items, Forall P items -> P (JArr items)) ->
  (forall fields, Forall (fun kv => P (snd kv)) fields -> P (JObj fields)) ->
  forall v, P v.
Proof.
  intros HNull HBool HNum HStr HArr HObj.
  fix IH 1. intros [| b | n | s | items | fields].
  - exact HNull.
  - apply HBool.
  - apply HNum.
  - apply HStr.
  - apply HArr. induction items as [|x items IHitems]; constructor.
    + apply IH.
    + exact IHitems.
  - apply HObj. induction fields as [|[k x] fields IHfields]; constructor.
    + apply IH.
    + exact IHfields.
Qed.

(** ** The concrete [json] module reads back what it writes *)

Module SampleFacts.
Import Sample.

Lemma length_append (a b : string) :
  String.length (a ++ b) = (String.length a + String.length b)%nat.
Proof. induction a as [|c a IH]; simpl; auto. Qed.

Lemma append_assoc (a b c : string) : (a ++ b) ++ c = a ++ (b ++ c).
Proof. induction a as [|x a IH]; simpl; congruence. Qed.

Lemma append_nil_r (a : string) : a ++ "" = a.
Proof. induction a as [|x a IH]; simpl; congruence. Qed.

Lemma read_string_escape (s rest : string) :
  read_string (escape s ++ String dquote rest) = Some (s, rest).
Proof.
  induction s as [|c s IH]; simpl.
  - reflexivity.
  - destruct (Ascii.eqb c dquote) eqn:Hq; simpl.
    + rewrite IH. reflexivity.
    + destruct (Ascii.eqb c backslash) eqn:Hb; simpl.
      * rewrite IH. reflexivity.
      * rewrite Hq, Hb, IH. reflexivity.
Qed.

Lemma read_string_quote (s rest : string) :
  exists body, quote s ++ rest = String dquote body /\
               read_string body = Some (s, rest).
Proof.
  exists (escape s ++ String dquote rest). split.
  - unfold quote. simpl. now rewrite append_assoc.
  - apply read_string_escape.
Qed.

Lemma span_digits_uint (d : Decimal.uint) (rest : string) :
  head_not_digit rest ->
  span_digits (NilEmpty.string_of_uint d ++ rest)
  = (NilEmpty.string_of_uint d, rest).
Proof.
  intros Hrest.
  induction d; simpl; try (rewrite IHd; reflexivity).
  destruct rest as [|c rest]; simpl in *; trivial.
  now rewrite Hrest.
Qed.

Lemma str_of_N_NilEmpty (n : N) :
  str_of_N n = NilEmpty.string_of_uint (N.to_uint n).
Proof.
  unfold str_of_N, NilZero.string_of_uint.
  pose proof (N_to_uint_nonnil n).
  destruct (N.to_uint n); congruence.
Qed.

Lemma span_digits_str_of_N (n : N) (rest : string) :
  head_not_digit rest ->
  span_digits (str_of_N n ++ rest) = (str_of_N n, rest).
Proof. rewrite str_of_N_NilEmpty. apply span_digits_uint. Qed.

Lemma N_of_str_of_N (n : N) : N_of_str (str_of_N n) = Some n.
Proof.
  unfold N_of_str, str_of_N.
  rewrite NilZero.usu by apply N_to_uint_nonnil.
  simpl. now rewrite DecimalN.Unsigned.of_to.
Qed.

Lemma str_of_N_head (n : N) :
  exists c s, str_of_N n = String c s /\ is_digit c = true.
Proof.
  rewrite str_of_N_NilEmpty.
  pose proof (N_to_uint_nonnil n).
  destruct (N.to_uint n); try congruence; simpl; eauto.
Qed.

Lemma is_digit_dispatch (c : ascii) :
  is_digit c = true ->
  Ascii.eqb c "n" = false /\ Ascii.eqb c "t" = false /\
  Ascii.eqb c "f" = false /\ Ascii.eqb c dquote = false /\
  Ascii.eqb c "[" = false /\ Ascii.eqb c "{" = false.
Proof.
  destruct c as [[] [] [] [] [] [] [] []]; intros H;
    try discriminate H; repeat split.
Qed.

Lemma json_wf_arr (items : list (json N)) :
  json_wf (E := env) (JArr items) <-> Forall (json_wf (E := env)) items.
Proof.
  induction items as [|x items IH]; simpl.
  - split; constructor.
  - split.
    + intros [Hx Hrest]. constructor; [exact Hx|]. now apply IH.
    + intros H. inversion H; subst. split; [assumption|]. now apply IH.
Qed.

Lemma json_wf_obj (fields : list (string * json N)) :
  json_wf (E := env) (JObj fields) <->
  NoDup (map fst fields) /\
  Forall (fun kv => json_wf (E := env) (snd kv)) fields.
Proof.
  simpl. split; intros [Hnd H]; split; trivial.
  - clear Hnd. induction fields as [|[k x] fields IH]; constructor.
    + simpl. apply H.
    + apply IH. apply H.
  - clear Hnd. induction fields as [|[k x] fields IH]; trivial.
    inversion H; subst. split; [assumption|]. now apply IH.
Qed.

Lemma dict_of_pairs_acc (pairs acc : list (string * json N)) :
  NoDup (map fst (acc ++ pairs)%list) ->
  fold_left (fun d kv => dict_set d (fst kv) (snd kv)) pairs acc
  = (acc ++ pairs)%list.
Proof.
  revert acc. induction pairs as [|[k v] pairs IH]; intros acc Hnd; simpl.
  - now rewrite app_nil_r.
  - assert (Hk : dict_get acc k = None).
    { apply dict_get_None_keys. unfold dict_keys.
      rewrite map_app in Hnd. simpl in Hnd.
      apply NoDup_remove_2 in Hnd. intros Hin. apply Hnd.
      apply in_or_app. now left. }
    rewrite dict_set_absent by exact Hk.
    rewrite IH; rewrite <- app_assoc; trivial.
Qed.

Lemma dict_of_pairs_NoDup (pairs : list (string * json N)) :
  NoDup (map fst pairs) -> dict_of_pairs pairs = pairs.
Proof. intros H. unfold dict_of_pairs. now rewrite dict_of_pairs_acc. Qed.

Lemma dumps_head (v : json N) :
  exists c s, dumps v = String c s /\
              Ascii.eqb "]" c = false /\ Ascii.eqb "}" c = false.
Proof.
  destruct v as [| [] | n | s | items | fields]; simpl;
    try (do 2 eexists; split; [reflexivity|split; reflexivity]).
  destruct (str_of_N_head n) as (c & s & -> & Hc).
  exists c, s. split; trivial.
  destruct c as [[] [] [] [] [] [] [] []]; try discriminate Hc; split;
    reflexivity.
Qed.

Lemma dumps_length_pos (v : json N) : (0 < String.length (dumps v))%nat.
Proof.
  destruct (dumps_head v) as (c & s & -> & _). simpl. lia.
Qed.

Lemma parse_items_dumps (items : list (json N)) (x : json N) :
  Forall reads_back (x :: items) ->
  Forall (json_wf (E := env)) (x :: items) ->
  forall rest fuel,
    (String.length (String.concat ", " (map dumps (x :: items))) + 1
     < fuel)%nat ->
    parse_items fuel
      (String.concat ", " (map dumps (x :: items)) ++ String "]" rest)
    = Some (x :: items, rest).
Proof.
  revert x. induction items as [|y items IH]; intros x Hread Hwf rest fuel Hfuel.
  - cbn [map String.concat] in *. destruct fuel as [|fuel]; [lia|].
    cbn [parse_items].
    inversion Hread as [|? ? Hx _]; subst.
    inversion Hwf as [|? ? Hwx _]; subst.
    rewrite (Hx Hwx (String "]" rest) fuel); [|reflexivity|lia].
    reflexivity.
  - inversion Hread as [|? ? Hx Hread']; subst.
    inversion Hwf as [|? ? Hwx Hwf']; subst.
    change (String.concat ", " (map dumps (x :: y :: items)))
      with (dumps x ++ ", " ++ String.concat ", " (map dumps (y :: items)))
      in *.
    rewrite !length_append in Hfuel. cbn [String.length] in Hfuel.
    destruct fuel as [|fuel]; [lia|].
    cbn [parse_items].
    rewrite !append_assoc.
    rewrite (Hx Hwx); [|reflexivity|lia].
    cbn [expect append Ascii.eqb Bool.eqb].
    rewrite IH; trivial. lia.
Qed.

Lemma parse_members_dumps (fields : list (string * json N))
  (kv : string * json N) :
  Forall (fun kv => reads_back (snd kv)) (kv :: fields) ->
  Forall (fun kv => json_wf (E := env) (snd kv)) (kv :: fields) ->
  forall rest fuel,
    (String.length
       (String.concat ", "
          (map (fun kv => quote (fst kv) ++ ": " ++ dumps (snd kv))
             (kv :: fields))) + 1 < fuel)%nat ->
    parse_members fuel
      (String.concat ", "
         (map (fun kv => quote (fst kv) ++ ": " ++ dumps (snd kv))
            (kv :: fields)) ++ String "}" rest)
    = Some (kv :: fields, rest).
Proof.
  revert kv.
  induction fields as [|kv' fields IH];
    intros [k v] Hread Hwf rest fuel Hfuel.
  - cbn [map String.concat fst snd] in *.
    rewrite !length_append in Hfuel.
    destruct fuel as [|fuel]; [lia|].
    inversion Hread as [|? ? Hv _]; subst.
    inversion Hwf as [|? ? Hwv _]; subst.
    cbn [fst snd] in *.
    rewrite !append_assoc.
    destruct (read_string_quote k (": " ++ dumps v ++ String "}" rest))
      as (body & -> & Hbody).
    cbn [parse_members]. replace (Ascii.eqb dquote dquote) with true
      by reflexivity.
    cbn [negb]. rewrite Hbody.
    cbn [expect append Ascii.eqb Bool.eqb].
    rewrite (Hv Hwv); [|reflexivity|lia].
    cbn [expect append Ascii.eqb Bool.eqb]. reflexivity.
  - inversion Hread as [|? ? Hv Hread']; subst.
    inversion Hwf as [|? ? Hwv Hwf']; subst.
    cbn [fst snd] in *.
    change (String.concat ", "
              (map (fun kv => quote (fst kv) ++ ": " ++ dumps (snd kv))
                 ((k, v) :: kv' :: fields)))
      with ((quote k ++ ": " ++ dumps v) ++ ", "
            ++ String.concat ", "
                 (map (fun kv => quote (fst kv) ++ ": " ++ dumps (snd kv))
                    (kv' :: fields))) in *.
    rewrite !length_append in Hfuel. cbn [String.length] in Hfuel.
    destruct fuel as [|fuel]; [lia|].
    rewrite !append_assoc.
    match goal with
    | |- parse_members _ (quote k ++ ?r) = _ =>
        destruct (read_string_quote k r) as (body & -> & Hbody)
    end.
    cbn [parse_members]. replace (Ascii.eqb dquote dquote) with true
      by reflexivity.
    cbn [negb]. rewrite Hbody.
    cbn [expect append Ascii.eqb Bool.eqb].
    rewrite (Hv Hwv); [|reflexivity|lia].
    cbn [expect append Ascii.eqb Bool.eqb].
    rewrite IH; trivial. lia.
Qed.

Lemma dumps_reads_back (v : json N) : reads_back v.
Proof.
  induction v as [| b | n | s | items IH | fields IH] using json_ind';
    intros Hwf rest fuel Hrest Hfuel;
    (destruct fuel as [|fuel]; [lia|]).
  - reflexivity.
  - destruct b; reflexivity.
  - cbn [dumps] in *.
    destruct (str_of_N_head n) as (c & s & Hs & Hc).
    destruct (is_digit_dispatch c Hc) as (H1 & H2 & H3 & H4 & H5 & H6).
    rewrite Hs. cbn [append parse_value].
    rewrite H1, H2, H3, H4, H5, H6, Hc.
    change (String c (s ++ rest)) with (String c s ++ rest).
    rewrite <- Hs, span_digits_str_of_N, N_of_str_of_N; trivial.
  - cbn [dumps].
    destruct (read_string_quote s rest) as (body & -> & Hbody).
    cbn [parse_value].
    change (Ascii.eqb dquote "n") with false.
    change (Ascii.eqb dquote "t") with false.
    change (Ascii.eqb dquote "f") with false.
    change (Ascii.eqb dquote dquote) with true.
    cbv iota. now rewrite Hbody.
  - apply json_wf_arr in Hwf.
    cbn [dumps] in *. rewrite !length_append in Hfuel.
    cbn [String.length] in Hfuel.
    destruct items as [|x items].
    + reflexivity.
    + cbn [append parse_value Ascii.eqb Bool.eqb].
      change (Ascii.eqb "[" dquote) with false. cbv iota.
      rewrite append_assoc.
      change ("]" ++ rest) with (String "]" rest).
      destruct (dumps_head x) as (c & s & Hx & Hc & _).
      assert (Hexp : forall r,
                 expect "]" (String.concat ", " (map dumps (x :: items)) ++ r)
                 = None).
      { intros r. cbn [map String.concat].
        destruct (map dumps items); rewrite Hx; cbn [append expect];
          now rewrite Hc. }
      rewrite Hexp.
      rewrite parse_items_dumps; trivial. lia.
  - apply json_wf_obj in Hwf as [Hnd Hwf].
    cbn [dumps] in *. rewrite !length_append in Hfuel.
    cbn [String.length] in Hfuel.
    destruct fields as [|kv fields].
    + reflexivity.
    + cbn [append parse_value Ascii.eqb Bool.eqb].
      change (Ascii.eqb "{" dquote) with false. cbv iota.
      rewrite append_assoc.
      change ("}" ++ rest) with (String "}" rest).
      assert (Hexp : forall r,
                 expect "}"
                   (String.concat ", "
                      (map (fun kv => quote (fst kv) ++ ": " ++ dumps (snd kv))
                         (kv :: fields)) ++ r)
                 = None).
      { intros r. cbn [map String.concat].
        destruct (map (fun kv => quote (fst kv) ++ ": " ++ dumps (snd kv))
                    fields); reflexivity. }
      rewrite Hexp.
      rewrite parse_members_dumps; trivial; [|lia].
      now rewrite dict_of_pairs_NoDup.
Qed.

Lemma loads_dumps (v : json N) :
  json_wf (E := env) v -> loads (dumps v) = Some v.
Proof.
  intros Hwf. unfold loads.
  pose proof (@dumps_reads_back v Hwf "" (S (String.length (dumps v))) I)
    as H.
  rewrite append_nil_r in H. rewrite H; [reflexivity|lia].
Qed.

Lemma dumps_nonempty (v : json N) : dumps v <> "".
Proof.
  destruct (dumps_head v) as (c & s & -> & _). discriminate.
Qed.

Lemma json_laws : JsonLaws (E := env).
Proof.
  split.
  - exact loads_dumps.
  - exact dumps_nonempty.
Qed.
End SampleFacts.

(** ** The document's object table *)

Section HostFacts.
Context {E : Env}.
#[local] Abbreviation value := (json num).

Lemma FindId_in_use (d : RhinoDoc) (id : Guid) (o : RhinoObject) :
  Objects_FindId d id = Some o -> id_in_use d id = true.
Proof.
  intros H. apply FindId_spec in H as (Hid & _ & Hin).
  unfold id_in_use. apply existsb_exists. exists o. split; trivial.
  now apply N.eqb_eq.
Qed.

Lemma Id_mark_deleted (id : Guid) (o : RhinoObject) :
  Id (mark_deleted id o) = Id o.
Proof. unfold mark_deleted. now destruct (N.eqb (Id o) id). Qed.

Lemma id_in_use_without_object (d : RhinoDoc) (id g : Guid) :
  id_in_use (without_object d id) g = id_in_use d g.
Proof.
  unfold id_in_use, without_object. simpl.
  induction (Objects d) as [|o os IH]; simpl; trivial.
  now rewrite Id_mark_deleted, IH.
Qed.

Lemma FindId_without_object_same (d : RhinoDoc) (id : Guid) :
  Objects_FindId (without_object d id) id = None.
Proof.
  unfold Objects_FindId, without_object. simpl.
  induction (Objects d) as [|o os IH]; simpl; trivial.
  unfold mark_deleted at 1 2.
  destruct (N.eqb (Id o) id) eqn:Hid; simpl; rewrite Hid; simpl; trivial.
Qed.

Lemma FindId_without_object_other (d : RhinoDoc) (id g : Guid) :
  g <> id ->
  Objects_FindId (without_object d id) g = Objects_FindId d g.
Proof.
  intros Hne. unfold Objects_FindId, without_object. simpl.
  induction (Objects d) as [|o os IH]; simpl; trivial.
  unfold mark_deleted at 1 2 3.
  destruct (N.eqb_spec (Id o) id) as [Hid|Hid]; simpl.
  - destruct (N.eqb_spec (Id o) g) as [Hg|Hg]; [congruence|]. simpl.
    exact IH.
  - destruct (N.eqb (Id o) g && negb (IsDeleted o)); trivial.
Qed.

Lemma FindId_None_app (d : RhinoDoc) (g : Guid) (os : list RhinoObject) :
  Objects_FindId d g = None ->
  find (fun o => N.eqb (Id o) g && negb (IsDeleted o)) (Objects d ++ os)
  = find (fun o => N.eqb (Id o) g && negb (IsDeleted o)) os.
Proof.
  unfold Objects_FindId.
  induction (Objects d) as [|o os' IH]; simpl; trivial.
  destruct (N.eqb (Id o) g && negb (IsDeleted o)); [discriminate|exact IH].
Qed.

Lemma id_free_FindId (d : RhinoDoc) (g : Guid) :
  id_in_use d g = false -> Objects_FindId d g = None.
Proof.
  intros H. destruct (Objects_FindId d g) eqn:Hf; trivial.
  apply FindId_in_use in Hf. congruence.
Qed.

(** What a successful [AddInstanceObject] did. *)
Lemma AddInstanceObject_created (d d' : RhinoDoc) (index : nat)
  (xform : Transform) (attr : ObjectAttributes) (g : Guid) :
  Objects_AddInstanceObject d index xform attr = (g, d') ->
  g <> Guid_Empty ->
  NextIds d = g :: NextIds d' /\
  id_in_use d g = false /\
  Strings d' = Strings d /\
  InstanceDefinitions d' = InstanceDefinitions d /\
  Objects d'
  = (Objects d
       ++ [mkRhinoObject g (InstanceObject index xform) attr false false])%list.
Proof.
  unfold Objects_AddInstanceObject.
  destruct (NextIds d) as [|g0 rest] eqn:Hnext.
  - intros [= <- <-] Hne. congruence.
  - destruct (N.eqb g0 Guid_Empty) eqn:He; simpl.
    { intros [= <- <-] Hne. congruence. }
    destruct (id_in_use d g0) eqn:Hu; simpl.
    { intros [= <- <-] Hne. congruence. }
    destruct (index <? length (InstanceDefinitions d))%nat; simpl.
    + intros [= <- <-] _. simpl. auto.
    + intros [= <- <-] Hne. congruence.
Qed.

(** What a failed [AddInstanceObject] left. *)
Lemma AddInstanceObject_failed (d d' : RhinoDoc) (index : nat)
  (xform : Transform) (attr : ObjectAttributes) :
  Objects_AddInstanceObject d index xform attr = (Guid_Empty, d') ->
  Strings d' = Strings d /\
  InstanceDefinitions d' = InstanceDefinitions d /\
  Objects d' = Objects d /\
  NextIds d' = tl (NextIds d).
Proof.
  unfold Objects_AddInstanceObject.
  destruct (NextIds d) as [|g0 rest] eqn:Hnext.
  - intros [= <-]. now rewrite Hnext.
  - destruct (N.eqb_spec g0 Guid_Empty) as [He|He]; simpl.
    { intros [= <-]. simpl. auto. }
    destruct (id_in_use d g0); simpl.
    { intros [= <-]. simpl. auto. }
    destruct (index <? length (InstanceDefinitions d))%nat; simpl.
    + intros [= H]. congruence.
    + intros [= <-]. simpl. auto.
Qed.

Lemma AddInstanceObject_failed_why (d d' : RhinoDoc) (index : nat)
  (xform : Transform) (attr : ObjectAttributes) :
  Objects_AddInstanceObject d index xform attr = (Guid_Empty, d') ->
  (index < length (InstanceDefinitions d))%nat ->
  cannot_issue d.
Proof.
  unfold Objects_AddInstanceObject, cannot_issue.
  destruct (NextIds d) as [|g0 rest]; trivial.
  destruct (N.eqb_spec g0 Guid_Empty) as [He|He]; simpl; [auto|].
  destruct (id_in_use d g0); simpl; [auto|].
  intros H Hidx. apply Nat.ltb_lt in Hidx. rewrite Hidx in H.
  simpl in H. injection H as H _. congruence.
Qed.

(** When [AddInstanceObject] succeeds. *)
Lemma AddInstanceObject_succeeds (d : RhinoDoc) (index : nat)
  (xform : Transform) (attr : ObjectAttributes) (g : Guid)
  (rest : list Guid) :
  NextIds d = g :: rest -> g <> Guid_Empty -> id_in_use d g = false ->
  (index < length (InstanceDefinitions d))%nat ->
  Objects_AddInstanceObject d index xform attr
  = (g, mkRhinoDoc (Strings d) (InstanceDefinitions d)
          (Objects d
             ++ [mkRhinoObject g (InstanceObject index xform) attr
                   false false])%list
          rest).
Proof.
  intros Hnext Hne Hfree Hidx. unfold Objects_AddInstanceObject.
  rewrite Hnext, Hfree.
  destruct (N.eqb_spec g Guid_Empty); [contradiction|].
  apply Nat.ltb_lt in Hidx. now rewrite Hidx.
Qed.

(** What [ensure_definition] leaves alone, and the index it returns. *)
Lemma ensure_definition_effects (family values : value) (w w' : World)
  (r : Res nat) :
  ensure_definition family values w = (r, w') ->
  Strings (doc w') = Strings (doc w) /\
  Objects (doc w') = Objects (doc w) /\
  NextIds (doc w') = NextIds (doc w) /\
  uuid_count w' = uuid_count w /\
  (forall index, r = Ok index ->
                 (index < length (InstanceDefinitions (doc w')))%nat) /\
  exists evs,
    events w' = (events w ++ evs)%list /\
    Forall (fun e => exists nm, definition_event nm values e) evs /\
    forall nm,
      (n <- py_getitem family "name" ;; definition_name n values)%res = Ok nm ->
      Forall (definition_event nm values) evs.
Proof.
  intros Hrun.
  pose proof (ensure_definition_outcome family values w) as H.
  rewrite Hrun in H. cbn [fst snd] in H.
  destruct H as [e Hnm | nm index Hnm Hfind | nm e Hnm Hfind
                | nm wd ht idef Hnm Hfind Hwd Hht Hidef index]; simpl;
    repeat split; trivial; try discriminate.
  - exists []. split; [now rewrite app_nil_r|]. split; constructor.
  - intros ? [= <-]. unfold InstanceDefinitions_Find in Hfind.
    apply find_definition_bound in Hfind. lia.
  - eexists. split; [reflexivity|]. split.
    + repeat constructor. now exists nm.
    + intros nm' Hnm'. assert (nm' = nm) by congruence. subst.
      repeat constructor.
  - eexists. split; [reflexivity|]. split.
    + repeat constructor. now exists nm.
    + intros nm' Hnm'. assert (nm' = nm) by congruence. subst.
      repeat constructor.
  - intros ? [= <-]. rewrite length_app. simpl. lia.
  - eexists. split; [reflexivity|]. split.
    + repeat constructor; exists nm; simpl; auto.
    + intros nm' Hnm'. assert (nm' = nm) by congruence. subst.
      repeat constructor; simpl; trivial.
Qed.
End HostFacts.

(** ** Registry operations on well-shaped data *)

Section RegistryOps.
Context {E : Env}.
#[local] Abbreviation value := (json num).

Lemma registry_ok_maps (d : value) :
  registry_ok d ->
  exists fams insts,
    has_maps d fams insts /\ dict_wf fams /\ dict_wf insts /\
    Forall family_ok fams /\ Forall instance_ok insts.
Proof.
  intros (top & fams & insts & -> & Hf & Hi & Hwf & Hwi & Hfo & Hio).
  exists fams, insts. repeat split; trivial. now exists top.
Qed.

Lemma has_maps_families (d : value) (fams insts : list (string * value)) :
  has_maps d fams insts -> py_getitem d "families" = Ok (JObj fams).
Proof. intros (top & -> & Hf & Hi). simpl. now rewrite Hf. Qed.

Lemma has_maps_instances (d : value) (fams insts : list (string * value)) :
  has_maps d fams insts -> py_getitem d "instances" = Ok (JObj insts).
Proof. intros (top & -> & Hf & Hi). simpl. now rewrite Hi. Qed.

Lemma has_maps_families_of (d : value) (fams insts : list (string * value)) :
  has_maps d fams insts -> families_of d = fams.
Proof.
  intros H. unfold families_of. now rewrite (has_maps_families H).
Qed.

Lemma has_maps_instances_of (d : value) (fams insts : list (string * value)) :
  has_maps d fams insts -> instances_of d = insts.
Proof.
  intros H. unfold instances_of. now rewrite (has_maps_instances H).
Qed.

Lemma remove_instance_run (reg : DynamicBlockRegistry) (k : string)
  (w : World) (fams insts : list (string * value)) :
  has_maps (data reg) fams insts ->
  exists reg',
    remove_instance reg k w = (Ok reg', saved w (data reg')) /\
    has_maps (data reg') fams (dict_pop insts k).
Proof.
  intros (top & Hd & Hf & Hi).
  exists (mkRegistry
            (JObj (dict_set top "instances" (JObj (dict_pop insts k))))).
  unfold remove_instance, bind, lift, pop_in. rewrite Hd. simpl.
  rewrite Hi. simpl. split; [reflexivity|].
  eexists. split; [reflexivity|]. split.
  - rewrite dict_get_set_other by discriminate. exact Hf.
  - apply dict_get_set_same.
Qed.

Lemma add_instance_run (reg : DynamicBlockRegistry) (k : string)
  (fid values : value) (w : World) (fams insts : list (string * value)) :
  has_maps (data reg) fams insts ->
  exists reg',
    add_instance reg k fid values w = (Ok reg', saved w (data reg')) /\
    has_maps (data reg') fams (dict_set insts k (instance_entry fid values)).
Proof.
  intros (top & Hd & Hf & Hi).
  exists (mkRegistry
            (JObj (dict_set top "instances"
                     (JObj (dict_set insts k (instance_entry fid values)))))).
  unfold add_instance, bind, lift, setitem_in. rewrite Hd. simpl.
  rewrite Hi. simpl. split; [reflexivity|].
  eexists. split; [reflexivity|]. split.
  - rewrite dict_get_set_other by discriminate. exact Hf.
  - apply dict_get_set_same.
Qed.

Lemma get_instance_run (reg : DynamicBlockRegistry) (k : string)
  (fams insts : list (string * value)) (info : value) :
  has_maps (data reg) fams insts ->
  dict_get insts k = Some info ->
  get_instance reg k = Ok info.
Proof.
  intros H Hk. unfold get_instance.
  rewrite (has_maps_instances H). simpl. now rewrite Hk.
Qed.

Lemma get_family_run (reg : DynamicBlockRegistry) (fid : string)
  (fams insts : list (string * value)) (family : value) :
  has_maps (data reg) fams insts ->
  dict_get fams fid = Some family ->
  get_family reg (JStr fid) = Ok family.
Proof.
  intros H Hk. unfold get_family.
  rewrite (has_maps_families H). simpl. now rewrite Hk.
Qed.

Lemma find_family_by_name_run (reg : DynamicBlockRegistry) (nm : string)
  (fams insts : list (string * value)) :
  has_maps (data reg) fams insts ->
  find_family_by_name reg nm = find_family_in fams nm.
Proof.
  intros H. unfold find_family_by_name.
  now rewrite (has_maps_families H).
Qed.

Lemma iter_instances_for_family_run (reg : DynamicBlockRegistry)
  (fid : string) (fams insts : list (string * value)) :
  has_maps (data reg) fams insts ->
  iter_instances_for_family reg fid = instances_of_family insts fid.
Proof.
  intros H. unfold iter_instances_for_family.
  now rewrite (has_maps_instances H).
Qed.

Lemma find_family_in_In (l : list (string * value)) (nm fid : string)
  (family : value) :
  find_family_in l nm = Ok (Some (fid, family)) -> In (fid, family) l.
Proof.
  induction l as [|[k f] l IH]; simpl; [discriminate|].
  destruct (py_getitem f "name") as [n|]; simpl; [|discriminate].
  destruct (py_lower n) as [ln|]; simpl; [|discriminate].
  destruct (String.eqb ln (lower nm)).
  - intros [= -> ->]. now left.
  - intros H. right. now apply IH.
Qed.

Lemma family_value_ok_name (family : value) :
  family_value_ok family ->
  exists n, buildable family n.
Proof.
  intros (fields & n & params & -> & Hn & Ht & _).
  exists n. unfold buildable. simpl. now rewrite Hn, Ht.
Qed.

Lemma find_family_in_found (l : list (string * value)) (nm fid n : string)
  (family : value) :
  Forall family_ok l ->
  In (fid, family) l ->
  py_getitem family "name" = Ok (JStr n) ->
  lower n = lower nm ->
  exists fid' family',
    find_family_in l nm = Ok (Some (fid', family')) /\
    In (fid', family') l.
Proof.
  intros Hok Hin Hname Hlow.
  induction l as [|[k f] l IH]; simpl; [contradiction|].
  inversion Hok as [|? ? [_ Hf] Hok']; subst.
  destruct (family_value_ok_name Hf) as (n' & Hn' & _).
  simpl in Hn'. rewrite Hn'. simpl.
  destruct (String.eqb (lower n') (lower nm)) eqn:Hm.
  - exists k, f. split; trivial. now left.
  - destruct Hin as [[= -> ->]|Hin].
    + rewrite Hname in Hn'. injection Hn' as ->.
      rewrite Hlow, String.eqb_refl in Hm. discriminate.
    + destruct (IH Hok' Hin) as (fid' & family' & Hfind & Hin').
      exists fid', family'. split; trivial. now right.
Qed.

Lemma instances_of_family_filter (l : list (string * value)) (fid : string) :
  Forall (fun kv => exists v, py_getitem (snd kv) "family_id" = Ok v) l ->
  instances_of_family l fid = Ok (filter (bound_to fid) l).
Proof.
  induction l as [|[k info] l IH]; simpl; trivial.
  intros H. inversion H as [|? ? [v Hv] H']; subst. simpl in Hv.
  unfold bound_to at 1. simpl. rewrite Hv. simpl.
  rewrite IH by trivial.
  now destruct (py_eq_str v fid).
Qed.

Lemma instance_ok_family_id (entry : string * value) :
  instance_ok entry ->
  exists v, py_getitem (snd entry) "family_id" = Ok v.
Proof.
  intros [_ (fields & fid & vals & -> & Hf & _)]. simpl. rewrite Hf. eauto.
Qed.

Lemma values_ok_floats (values : value) :
  values_ok values ->
  exists wd ht,
    (x <- py_getitem values "Width" ;; py_float x)%res = Ok wd /\
    (x <- py_getitem values "Height" ;; py_float x)%res = Ok ht.
Proof.
  intros (fields & wd & ht & -> & Hw & Hh & (fw & Hfw) & (fh & Hfh)).
  simpl. rewrite Hw, Hh. simpl. rewrite Hfw, Hfh. eauto.
Qed.

Lemma values_ok_name (values : value) (n : string) :
  values_ok values ->
  exists nm, definition_name (JStr n) values = Ok nm.
Proof.
  intros (fields & wd & ht & -> & _). rewrite definition_name_obj. eauto.
Qed.

(** With a buildable family and values holding both numbers,
    [ensure_definition] returns a handle. *)
Lemma ensure_definition_returns (family values : value) (n : string)
  (w : World) :
  buildable family n -> values_ok values ->
  exists index w', ensure_definition family values w = (Ok index, w').
Proof.
  intros [Hn Ht] Hv.
  destruct (values_ok_name n Hv) as (nm & Hnm).
  destruct (values_ok_floats Hv) as (wd & ht & Hwd & Hht).
  unfold ensure_definition, bind, lift. rewrite Hn. cbn [res_bind].
  rewrite Hnm.
  unfold Find, bind, get_doc, emit, ret. cbn [fst snd doc].
  destruct (InstanceDefinitions_Find (doc w) nm); [eauto|].
  rewrite Ht. unfold build_geometry. cbn [py_eq_str].
  rewrite String.eqb_refl. unfold bind, lift. rewrite Hwd, Hht.
  cbn. unfold ret. eauto.
Qed.
End RegistryOps.

(** ** Creating a family *)

Section CreateFacts.
Context {E : Env}.
#[local] Abbreviation value := (json num).

Lemma skipn_length_app {A} (l l' : list A) : skipn (length l) (l ++ l') = l'.
Proof. induction l; simpl; auto. Qed.

Lemma trace_of_events {A} (c : M A) (w : World) (evs : list Event) :
  events (snd (c w)) = (events w ++ evs)%list -> trace c w = evs.
Proof. intros H. unfold trace. rewrite H. apply skipn_length_app. Qed.

End CreateFacts.

(** ** What a replacement does *)

Section ReplaceEffects.
Context {E : Env}.
#[local] Abbreviation value := (json num).

Lemma FindId_same_objects (d d' : RhinoDoc) (g : Guid) :
  Objects d' = Objects d -> Objects_FindId d' g = Objects_FindId d g.
Proof. unfold Objects_FindId. now intros ->. Qed.

Lemma FindId_created_same (d d' : RhinoDoc) (g : Guid) (o : RhinoObject) :
  Objects d' = (Objects d ++ [o])%list ->
  Id o = g -> IsDeleted o = false ->
  id_in_use d g = false ->
  Objects_FindId d' g = Some o.
Proof.
  intros Hobj Hid Hdel Hfree. unfold Objects_FindId at 1. rewrite Hobj.
  rewrite FindId_None_app by now apply id_free_FindId.
  simpl. rewrite Hid, N.eqb_refl, Hdel. reflexivity.
Qed.

Lemma FindId_created_other (d d' : RhinoDoc) (g g0 : Guid)
  (o : RhinoObject) :
  Objects d' = (Objects d ++ [o])%list ->
  Id o = g -> g0 <> g ->
  Objects_FindId d g0 = None ->
  Objects_FindId d' g0 = None.
Proof.
  intros Hobj Hid Hne Hnone. unfold Objects_FindId at 1. rewrite Hobj.
  rewrite FindId_None_app by trivial.
  simpl. rewrite Hid.
  destruct (N.eqb_spec g g0); [congruence|reflexivity].
Qed.

Lemma FindId_without_object_None (d : RhinoDoc) (id g0 : Guid) :
  Objects_FindId d g0 = None ->
  Objects_FindId (without_object d id) g0 = None.
Proof.
  intros H. destruct (N.eq_dec g0 id) as [->|Hne].
  - apply FindId_without_object_same.
  - now rewrite FindId_without_object_other.
Qed.

(** The state reached after the old object is deleted and the
    definition is resolved, in terms of the state before. *)
Lemma after_delete_and_ensure (family values : value) (w w2 : World)
  (id : Guid) (r : Res nat) :
  ensure_definition family values
    (log (with_doc w (without_object (doc w) id)) [EvDeleteObject id true])
  = (r, w2) ->
  Strings (doc w2) = Strings (doc w) /\
  Objects (doc w2) = Objects (without_object (doc w) id) /\
  NextIds (doc w2) = NextIds (doc w) /\
  uuid_count w2 = uuid_count w /\
  (forall index, r = Ok index ->
                 (index < length (InstanceDefinitions (doc w2)))%nat) /\
  exists evs,
    events w2 = (events w ++ EvDeleteObject id true :: evs)%list /\
    Forall (fun e => exists nm, definition_event nm values e) evs /\
    forall nm,
      (n <- py_getitem family "name" ;; definition_name n values)%res = Ok nm ->
      Forall (definition_event nm values) evs.
Proof.
  intros Hens.
  destruct (ensure_definition_effects _ _ _ Hens)
    as (Hs & Ho & Hn & Hu & Hidx & evs & Hev & Hkind & Hnamed).
  simpl in *. repeat split; trivial.
  exists evs. rewrite Hev, <- app_assoc. auto.
Qed.

Lemma replace_instance_geometry_run (instance_id : string) (id : Guid)
  (family values : value) (w w' : World) (r : Res PyResult) :
  Guid_of_str instance_id = Ok id ->
  replace_instance_geometry instance_id family values w = (r, w') ->
  exists evs,
    replace_run id family values w r w' evs /\
    events w' = (events w ++ evs)%list /\
    Strings (doc w') = Strings (doc w) /\
    uuid_count w' = uuid_count w.
Proof.
  intros Hid Hrun.
  pose proof (replace_instance_geometry_outcome instance_id family values w)
    as H.
  rewrite Hrun in H. cbn [fst snd] in H.
  destruct H as [e He | id' Hid' Hfind | id' o Hid' Hfind Hkind
                | id' o index xform Hid' Hfind Hkind Hlock
                | id' o index xform e w2 Hid' Hfind Hkind Hlock Hens
                | id' o index xform idef_index w2 d3 Hid' Hfind Hkind Hlock
                    Hens Hadd
                | id' o index xform idef_index w2 new_id d3 Hid' Hfind Hkind
                    Hlock Hens Hadd Hnew];
    try congruence;
    (assert (id' = id) by congruence; subst id').
  - exists []. rewrite app_nil_r. repeat split; trivial.
    now apply run_not_found.
  - exists []. rewrite app_nil_r. repeat split; trivial.
    apply run_not_instance. now exists o.
  - exists [EvDeleteObject id false]. repeat split; trivial.
    apply run_delete_refused. now exists o, index, xform.
  - destruct (after_delete_and_ensure _ _ _ _ Hens)
      as (Hs & Ho & Hn & Hu & _ & evs & Hev & Hkinds & Hnamed).
    exists (EvDeleteObject id true :: evs). repeat split; trivial.
    apply run_no_definition with o index xform; trivial.
    intros n Hb Hv.
    destruct (ensure_definition_returns
                (log (with_doc w (without_object (doc w) id))
                   [EvDeleteObject id true]) Hb Hv) as (i & w0 & Hret).
    congruence.
  - destruct (after_delete_and_ensure _ _ _ _ Hens)
      as (Hs & Ho & Hn & Hu & Hidx & evs & Hev & Hkinds & Hnamed).
    destruct (AddInstanceObject_failed _ _ _ _ Hadd) as (Hs3 & _ & Ho3 & Hn3).
    pose proof (@AddInstanceObject_failed_why _ _ _ _ _ _ Hadd
                  (Hidx _ eq_refl)) as Hwhy.
    exists (EvDeleteObject id true
              :: evs ++ [EvAddInstanceObject idef_index Guid_Empty])%list.
    simpl. repeat split; trivial.
    + apply run_lost with o index xform; trivial; cbn [doc log with_doc];
        try congruence.
      unfold cannot_issue in *. rewrite Hn in Hwhy.
      destruct (NextIds (doc w)) as [|g0 ?]; trivial.
      rewrite <- (id_in_use_without_object (doc w) id g0).
      unfold id_in_use in *. now rewrite <- Ho.
    + rewrite Hev, <- app_assoc. reflexivity.
    + congruence.
  - destruct (after_delete_and_ensure _ _ _ _ Hens)
      as (Hs & Ho & Hn & Hu & _ & evs & Hev & Hkinds & Hnamed).
    destruct (AddInstanceObject_created _ _ _ _ Hadd Hnew)
      as (Hn3 & Hfree & Hs3 & _ & Ho3).
    exists (EvDeleteObject id true
              :: evs ++ [EvAddInstanceObject idef_index new_id])%list.
    simpl. repeat split; trivial.
    + apply run_done with o index xform; trivial; cbn [doc log with_doc].
      * rewrite <- (id_in_use_without_object (doc w) id new_id).
        unfold id_in_use in *. now rewrite <- Ho.
      * congruence.
      * congruence.
    + rewrite Hev, <- app_assoc. reflexivity.
    + congruence.
Qed.
End ReplaceEffects.

(** ** Failures of a replacement *)

Section ReplaceFailures.
Context {E : Env}.
#[local] Abbreviation value := (json num).

Lemma replace_trace (instance_id : string) (id : Guid)
  (family values : value) (w : World) :
  Guid_of_str instance_id = Ok id ->
  replace_run id family values w
    (fst (replace_instance_geometry instance_id family values w))
    (snd (replace_instance_geometry instance_id family values w))
    (trace (replace_instance_geometry instance_id family values) w).
Proof.
  intros Hid.
  destruct (replace_instance_geometry instance_id family values w)
    as [r w'] eqn:Hrun.
  destruct (@replace_instance_geometry_run _ instance_id id family values w w' r Hid Hrun)
    as (evs & Hr & Hev & _).
  unfold trace. rewrite Hrun. cbn [fst snd].
  now rewrite Hev, skipn_length_app.
Qed.

Lemma not_definition_event_add (values : value) (index : nat) (g : Guid)
  (evs : list Event) :
  Forall (fun e => exists nm, definition_event nm values e) evs ->
  ~ In (EvAddInstanceObject index g) evs.
Proof.
  intros H Hin. rewrite Forall_forall in H.
  destruct (H _ Hin) as [nm []].
Qed.

Lemma not_definition_event_delete (values : value) (g : Guid) (b : bool)
  (evs : list Event) :
  Forall (fun e => exists nm, definition_event nm values e) evs ->
  ~ In (EvDeleteObject g b) evs.
Proof.
  intros H Hin. rewrite Forall_forall in H.
  destruct (H _ Hin) as [nm []].
Qed.

(** The three failures that happen before anything is destroyed return
    [False] and leave the document as it was. *)
Lemma replace_early_failure (instance_id : string) (id : Guid)
  (family values : value) (w : World) :
  Guid_of_str instance_id = Ok id ->
  instance_not_found (doc w) id \/ not_an_instance (doc w) id
  \/ delete_refused (doc w) id ->
  fst (replace_instance_geometry instance_id family values w) = Ok PyFalse /\
  doc (snd (replace_instance_geometry instance_id family values w)) = doc w.
Proof.
  intros Hid Hearly.
  pose proof (@replace_trace instance_id id family values w Hid) as Hr.
  destruct Hr as [ | | | o index xform e w' evs Hfind Hkind Hlock
                  | o index xform idef_index w' evs Hfind Hkind Hlock
                  | o index xform idef_index new_id w' evs Hfind Hkind Hlock];
    auto;
    exfalso;
    (destruct Hearly as [Hnone | [(o' & Hfind' & Hkind')
                                 | (o' & i' & x' & Hfind' & Hkind' & Hlock')]];
     [ unfold instance_not_found in Hnone; congruence
     | assert (o' = o) by congruence; subst; congruence
     | assert (o' = o) by congruence; subst; congruence ]).
Qed.

(** C2 (as the script has it). When a call of
    [replace_instance_geometry] deleted the old placed object and the
    creation of the new one then returned the empty identity, the call
    returns [False]: the old object is gone from the document and no
    object was added.  [False] is also what the call returns when the
    instance is not found, is not an instance object, or refuses
    deletion, so the returned value does not tell the four apart. *)
Theorem replacement_lost_returns_False (instance_id : string) (id : Guid)
  (family values : value) (w : World) (index : nat) :
  let run := replace_instance_geometry instance_id family values in
  Guid_of_str instance_id = Ok id ->
  In (EvDeleteObject id true) (trace run w) ->
  In (EvAddInstanceObject index Guid_Empty) (trace run w) ->
  fst (run w) = Ok PyFalse /\
  Objects_FindId (doc (snd (run w))) id = None /\
  (forall g o, Objects_FindId (doc (snd (run w))) g = Some o ->
               Objects_FindId (doc w) g = Some o) /\
  (forall w0,
      instance_not_found (doc w0) id \/ not_an_instance (doc w0) id
      \/ delete_refused (doc w0) id ->
      fst (run w0) = Ok PyFalse).
Proof.
  intros run Hid Hdel Hadd.
  pose proof (@replace_trace instance_id id family values w Hid) as Hr.
  fold run in Hr.
  destruct Hr as [ | | | o i xform e w' evs Hfind Hkind Hlock Hobj Hnext Hk
                  | o i xform idef_index w' evs Hfind Hkind Hlock Hcannot Hobj
                      Hnext Hk
                  | o i xform idef_index new_id w' evs Hfind Hkind Hlock Hnew
                      Hfree Hnext Hobj Hk].
  - destruct Hdel.
  - destruct Hdel.
  - destruct Hdel as [[=]|[]].
  - destruct Hadd as [[=]|Hadd].
    now apply (@not_definition_event_add values _ _ evs Hk) in Hadd.
  - repeat split.
    + rewrite (@FindId_same_objects _ _ _ _ Hobj).
      apply FindId_without_object_same.
    + intros g o' Hg. rewrite (@FindId_same_objects _ _ _ _ Hobj) in Hg.
      destruct (N.eq_dec g id) as [->|Hne].
      * now rewrite FindId_without_object_same in Hg.
      * now rewrite FindId_without_object_other in Hg.
    + intros w0 Hw0. now apply (@replace_early_failure instance_id id).
  - destruct Hadd as [[=]|Hadd].
    apply in_app_or in Hadd as [Hadd|[[= _ Hempty]|[]]].
    + now apply (@not_definition_event_add values _ _ evs Hk) in Hadd.
    + congruence.
Qed.
End ReplaceFailures.

(** ** Editing an instance *)

Section EditFacts.
Context {E : Env}.
#[local] Abbreviation value := (json num).

Lemma instance_value_ok_truthy (info : value) :
  instance_value_ok info -> py_truthy info = true.
Proof.
  intros (fields & fid & vals & -> & Hf & _).
  destruct fields; [discriminate|reflexivity].
Qed.

Lemma family_value_ok_truthy (family : value) :
  family_value_ok family -> py_truthy family = true.
Proof.
  intros (fields & n & params & -> & Hn & _).
  destruct fields; [discriminate|reflexivity].
Qed.

Lemma Forall_dict_get {P : string * value -> Prop}
  (l : list (string * value)) (k : string) (v : value) :
  Forall P l -> dict_get l k = Some v -> P (k, v).
Proof.
  intros H Hk. apply dict_get_In in Hk. rewrite Forall_forall in H.
  now apply H.
Qed.

Lemma stored_text_saved (w : World) (d : value) :
  stored_text (doc (saved w d)) = Some (json_dumps d).
Proof. unfold stored_text, saved. simpl. apply GetValue_SetString. Qed.

(** In the conditions of a successful edit, the replacement creates the
    object under the next identity of the document's supply. *)
Lemma replace_succeeds (w : World) (id new_id : Guid) (o : RhinoObject)
  (index : nat) (xform : Transform) (rest : list Guid)
  (family values : value) (n : string) :
  Objects_FindId (doc w) id = Some o ->
  Kind o = InstanceObject index xform ->
  IsLocked o = false ->
  NextIds (doc w) = new_id :: rest ->
  new_id <> Guid_Empty ->
  id_in_use (doc w) new_id = false ->
  buildable family n -> values_ok values ->
  exists w' idef_index evs,
    replace_instance_geometry (str_of_Guid id) family values w
    = (Ok (PyStr (str_of_Guid new_id)), w') /\
    Strings (doc w') = Strings (doc w) /\
    uuid_count w' = uuid_count w /\
    NextIds (doc w') = rest /\
    Objects (doc w')
    = (Objects (without_object (doc w) id)
         ++ [mkRhinoObject new_id (InstanceObject idef_index xform)
               (Attributes o) false false])%list /\
    events w'
    = (events w ++ EvDeleteObject id true
         :: evs ++ [EvAddInstanceObject idef_index new_id])%list /\
    Forall (fun e => exists nm, definition_event nm values e) evs.
Proof.
  intros Hfind Hkind Hlock Hnext Hnew Hfree Hbuild Hvals.
  destruct (replace_instance_geometry (str_of_Guid id) family values w)
    as [r w'] eqn:Hrun.
  destruct (@replace_instance_geometry_run _ _ id family values w w' r
              (Guid_of_str_of_Guid id) Hrun) as (evs0 & Hr & Hev & Hs & Hu).
  destruct Hr as [Hnone | (o' & Hf' & Hk') | (o' & i' & x' & Hf' & Hk' & Hl')
                 | o' i' x' e w' evs Hf' Hk' Hl' Hobj Hnx Hkinds Hnamed Habs
                 | o' i' x' idef_index w' evs Hf' Hk' Hl' Hcannot
                 | o' i' x' idef_index new_id' w' evs Hf' Hk' Hl' Hnew' Hfree'
                     Hnx Hobj Hkinds Hnamed].
  - unfold instance_not_found in Hnone. congruence.
  - assert (o' = o) by congruence. subst. congruence.
  - assert (o' = o) by congruence. subst. congruence.
  - destruct (Habs n Hbuild Hvals).
  - exfalso. unfold cannot_issue in Hcannot. rewrite Hnext in Hcannot.
    destruct Hcannot; congruence.
  - assert (o' = o) by congruence. subst o'.
    rewrite Hnext in Hnx. injection Hnx as Hx1 Hx2. subst new_id'.
    assert (x' = xform) by congruence. subst x'.
    exists w', idef_index, evs. repeat split; auto.
Qed.

(** C1 (as the script has it). For a well-shaped stored registry
    (rectangle families, numbers within float range) holding an instance
    of a stored family whose placed object is an unlocked instance
    object of the document, in a document whose next identity is not
    empty and not in use, the edit command with both prompts answered,
    by numbers that [float] accepts once rounded, returns normally and
    replaces the object: the new identity differs from the old one, the
    old object is gone and the new one is in the document, and the
    registry the command stored has no entry under the old identity and
    binds the new identity to the same family with the values the user
    gave (rounded). *)
Theorem edit_hands_identity_over (w : World) (id new_id : Guid)
  (width height : num) (o : RhinoObject) (index : nat) (xform : Transform)
  (rest : list Guid) (info : value) (fid : string) (family v1 : value) :
  let d := stored_registry (doc w) in
  let run := cmd_edit_instance_parameters (Some id) (Some width)
               (Some height) in
  let v2 := JObj [("Width", JNum (py_round6 width));
                  ("Height", JNum (py_round6 height))] in
  registry_ok d ->
  in_float_range (py_round6 width) ->
  in_float_range (py_round6 height) ->
  dict_get (instances_of d) (str_of_Guid id) = Some info ->
  py_getitem info "family_id" = Ok (JStr fid) ->
  py_getitem info "values" = Ok v1 ->
  dict_get (families_of d) fid = Some family ->
  Objects_FindId (doc w) id = Some o ->
  Kind o = InstanceObject index xform ->
  IsLocked o = false ->
  NextIds (doc w) = new_id :: rest ->
  new_id <> Guid_Empty ->
  id_in_use (doc w) new_id = false ->
  fst (run w) = Ok tt /\
  new_id <> id /\
  Objects_FindId (doc (snd (run w))) id = None /\
  (exists idef_index,
      Objects_FindId (doc (snd (run w))) new_id
      = Some (mkRhinoObject new_id (InstanceObject idef_index xform)
                (Attributes o) false false)) /\
  exists d',
    stored_text (doc (snd (run w))) = Some (json_dumps d') /\
    families_of d' = families_of d /\
    dict_get (instances_of d') (str_of_Guid id) = None /\
    dict_get (instances_of d') (str_of_Guid new_id)
    = Some (instance_entry (JStr fid) v2).
Proof.
  intros d run v2. subst d.
  intros Hok Hwr Hhr Hinst Hfid Hv1 Hfam Hfind Hkind Hlock Hnext Hnew Hfree.
  destruct (registry_ok_maps Hok)
    as (fams & insts & Hmaps & _ & _ & Hfo & Hio).
  rewrite (has_maps_instances_of Hmaps) in Hinst.
  rewrite (has_maps_families_of Hmaps) in *.
  pose proof (@Forall_dict_get _ _ _ _ Hio Hinst) as [_ Hinfo].
  pose proof (@Forall_dict_get _ _ _ _ Hfo Hfam) as [_ Hfamily].
  cbn [snd] in Hinfo, Hfamily.
  destruct (family_value_ok_name Hfamily) as (n & Hbuild).
  assert (Hv2 : values_ok v2).
  { exists [("Width", JNum (py_round6 width));
            ("Height", JNum (py_round6 height))],
      (py_round6 width), (py_round6 height). repeat split; trivial. }
  assert (Hfloats : exists wd ht,
             (x <- py_getitem v1 "Width" ;; py_float x)%res = Ok wd /\
             (x <- py_getitem v1 "Height" ;; py_float x)%res = Ok ht).
  { destruct Hinfo as (fields & fid' & vals & -> & _ & Hvals & Hvok).
    simpl in Hv1. rewrite Hvals in Hv1. injection Hv1 as <-.
    now apply values_ok_floats. }
  destruct Hfloats as (wd & ht & Hwd & Hht).
  destruct (@replace_succeeds w id new_id o index xform rest family v2 n
              Hfind Hkind Hlock Hnext Hnew Hfree Hbuild Hv2)
    as (w1 & idef_index & evs & Hrep & Hs1 & Hu1 & Hn1 & Ho1 & Hev1 & _).
  assert (Hne : new_id <> id).
  { intros ->. apply FindId_in_use in Hfind. congruence. }
  destruct (@remove_instance_run _ (mkRegistry (stored_registry (doc w))) (str_of_Guid id) w1
              fams insts Hmaps) as (reg1 & Hrem & Hmaps1).
  destruct (@add_instance_run _ reg1 (str_of_Guid new_id) (JStr fid) v2
              (saved w1 (data reg1)) fams _ Hmaps1) as (reg2 & Hadd & Hmaps2).
  assert (Hrun : run w
                 = (Ok tt,
                    log (saved (saved w1 (data reg1)) (data reg2))
                      [EvRedraw])).
  { unfold run, cmd_edit_instance_parameters.
    unfold bind at 1. rewrite new_registry_run.
    unfold bind at 1, lift at 1.
    rewrite (@get_instance_run _ (mkRegistry (stored_registry (doc w))) _ fams insts info Hmaps Hinst).
    rewrite (instance_value_ok_truthy Hinfo). cbn [negb].
    unfold bind at 1, lift at 1. rewrite Hfid. cbn [res_bind].
    rewrite (@get_family_run _ (mkRegistry (stored_registry (doc w))) fid fams insts family Hmaps Hfam).
    rewrite (family_value_ok_truthy Hfamily). cbn [negb].
    unfold bind at 1, lift at 1. rewrite Hv1.
    unfold bind at 1, lift at 1. rewrite Hwd.
    unfold bind at 1, lift at 1. rewrite Hht.
    unfold bind at 1. fold v2. rewrite Hrep.
    destruct (String.eqb_spec (str_of_Guid new_id) "") as [Hempty|_].
    { now apply str_of_Guid_nonempty in Hempty. }
    unfold bind at 1. rewrite Hrem.
    unfold bind at 1, lift at 1.
    unfold bind at 1. rewrite Hadd.
    reflexivity. }
  rewrite Hrun. cbn [fst snd doc log].
  repeat split; trivial.
  - unfold Objects_FindId, saved, Strings_SetString. cbn [doc Objects].
    rewrite Ho1.
    rewrite FindId_None_app by apply FindId_without_object_same.
    simpl. destruct (N.eqb_spec new_id id); [contradiction|reflexivity].
  - exists idef_index.
    apply FindId_created_same with (without_object (doc w) id); trivial.
    now rewrite id_in_use_without_object.
  - exists (data reg2). split; [apply stored_text_saved|].
    rewrite (has_maps_families_of Hmaps2), (has_maps_instances_of Hmaps2).
    split; [reflexivity|]. split.
    + rewrite dict_get_set_other, dict_get_pop_same; trivial.
      intros Heq. apply str_of_Guid_inj in Heq. congruence.
    + apply dict_get_set_same.
Qed.
End EditFacts.

(** ** Synchronising the instances of a family *)

Section SyncFacts.
Context {E : Env}.
#[local] Abbreviation value := (json num).

Lemma writes_app (evs1 evs2 : list Event) :
  writes (evs1 ++ evs2) = (writes evs1 + writes evs2)%nat.
Proof. unfold writes. now rewrite filter_app, length_app. Qed.

Lemma writes_definition_events (values : value) (evs : list Event) :
  Forall (fun e => exists nm, definition_event nm values e) evs ->
  writes evs = 0%nat.
Proof.
  induction 1 as [|e evs [nm He] _ IH]; trivial.
  destruct e; try contradiction; exact IH.
Qed.

Lemma replace_run_writes (id : Guid) (family values : value) (w w' : World)
  (r : Res PyResult) (evs : list Event) :
  replace_run id family values w r w' evs -> writes evs = 0%nat.
Proof.
  intros H; destruct H; trivial;
    change (writes (_ :: ?l)) with (writes l);
    rewrite ?writes_app;
    match goal with
    | Hk : Forall (fun e => exists nm, _) ?l |- _ =>
        rewrite (@writes_definition_events values l Hk)
    end; reflexivity.
Qed.

(** An instance whose object is gone is pruned: one registry write,
    nothing else. *)
Lemma sync_one_prune (fid : string) (family : value)
  (reg : DynamicBlockRegistry) (g : Guid) (info : value) (w : World)
  (fams insts : list (string * value)) :
  has_maps (data reg) fams insts ->
  Objects_FindId (doc w) g = None ->
  exists reg',
    sync_one fid family reg (str_of_Guid g, info) w
    = (Ok reg', saved w (data reg')) /\
    has_maps (data reg') fams (dict_pop insts (str_of_Guid g)).
Proof.
  intros Hmaps Hnone.
  destruct (@remove_instance_run _ reg (str_of_Guid g) w fams insts Hmaps)
    as (reg' & Hrem & Hmaps').
  exists reg'. split; trivial.
  unfold sync_one. unfold bind at 1, lift at 1.
  rewrite Guid_of_str_of_Guid.
  unfold bind at 1, FindId, bind, get_doc, ret. cbn [fst snd].
  now rewrite Hnone.
Qed.

Lemma definition_events_replace (id : Guid) (supply : list Guid)
  (nm : string) (values : value) (evs : list Event) :
  Forall (definition_event nm values) evs ->
  Forall (replace_event id supply nm values) evs.
Proof.
  apply Forall_impl. intros e He. destruct e; simpl in *; tauto.
Qed.

Lemma buildable_name (family values : value) (n : string) :
  buildable family n ->
  (n0 <- py_getitem family "name" ;; definition_name n0 values)%res
  = definition_name (JStr n) values.
Proof. intros [-> _]. reflexivity. Qed.

(** An instance whose object is in the document is replaced; the
    registry changes only when a new identity came out. *)
Lemma sync_one_live (fid : string) (family : value) (n : string)
  (reg : DynamicBlockRegistry) (g : Guid) (info vals : value)
  (o : RhinoObject) (w : World) (fams insts : list (string * value)) :
  has_maps (data reg) fams insts ->
  Objects_FindId (doc w) g = Some o ->
  py_getitem info "values" = Ok vals ->
  values_ok vals ->
  buildable family n ->
  exists reg' w' insts' evs,
    sync_one fid family reg (str_of_Guid g, info) w = (Ok reg', w') /\
    has_maps (data reg') fams insts' /\
    events w' = (events w ++ evs)%list /\
    (exists used, NextIds (doc w) = (used ++ NextIds (doc w'))%list) /\
    (forall g0, Objects_FindId (doc w) g0 = None ->
                ~ In g0 (NextIds (doc w)) ->
                Objects_FindId (doc w') g0 = None) /\
    (forall nm, definition_name (JStr n) vals = Ok nm ->
                Forall (replace_event g (NextIds (doc w)) nm vals) evs) /\
    (forall i x, Kind o = InstanceObject i x ->
                 In (EvDeleteObject g (negb (IsLocked o))) evs) /\
    ((reg' = reg /\ insts' = insts /\
      Strings (doc w') = Strings (doc w) /\ writes evs = 0%nat)
     \/
     (exists new_id,
         new_id <> Guid_Empty /\ In new_id (NextIds (doc w)) /\
         insts' = dict_set (dict_pop insts (str_of_Guid g))
                    (str_of_Guid new_id) (instance_entry (JStr fid) vals) /\
         stored_text (doc w') = Some (json_dumps (data reg')) /\
         writes evs = 2%nat)).
Proof.
  intros Hmaps Hfind Hvals Hvok Hbuild.
  destruct (replace_instance_geometry (str_of_Guid g) family vals w)
    as [r w1] eqn:Hrep.
  destruct (@replace_instance_geometry_run _ _ g family vals w w1 r
              (Guid_of_str_of_Guid g) Hrep) as (evs0 & Hr & Hev & Hs & Hu).
  assert (Hstep : sync_one fid family reg (str_of_Guid g, info) w
                  = match r with
                    | Ok (PyStr s) =>
                        if negb (String.eqb s "")
                           && negb (String.eqb s (str_of_Guid g))
                        then
                          (reg1 <- remove_instance reg (str_of_Guid g) ;;
                           values <- lift (py_getitem info "values") ;;
                           add_instance reg1 s (JStr fid) values)%cmd w1
                        else (Ok reg, w1)
                    | Ok PyFalse => (Ok reg, w1)
                    | Raise e => (Raise e, w1)
                    end).
  { unfold sync_one. unfold bind at 1, lift at 1.
    rewrite Guid_of_str_of_Guid.
    unfold bind at 1, FindId, bind, get_doc, ret. cbn [fst snd].
    rewrite Hfind.
    unfold lift at 1. rewrite Hvals, Hrep.
    destruct r as [[|s]|e]; trivial.
    now destruct (negb (String.eqb s "")
                  && negb (String.eqb s (str_of_Guid g))). }
  rewrite Hstep. clear Hstep.
  destruct Hr as [Hnone | (o' & Hf' & Hk') | (o' & i' & x' & Hf' & Hk' & Hl')
                 | o' i' x' e w1 evs Hf' Hk' Hl' Hobj Hnx Hkinds Hnamed Habs
                 | o' i' x' idef_index w1 evs Hf' Hk' Hl' Hcannot Hobj Hnx
                     Hkinds Hnamed
                 | o' i' x' idef_index new_id w1 evs Hf' Hk' Hl' Hnew Hfree
                     Hnx Hobj Hkinds Hnamed];
    try rewrite (buildable_name vals Hbuild) in Hnamed.
  - unfold instance_not_found in Hnone. congruence.
  - (* not an instance object *)
    assert (o' = o) by congruence. subst o'.
    exists reg, w, insts, []. rewrite app_nil_r.
    repeat split; trivial.
    + now exists [].
    + intros i x Hk. congruence.
    + now left.
  - (* deletion refused *)
    assert (o' = o) by congruence. subst o'.
    exists reg, (log w [EvDeleteObject g false]), insts,
      [EvDeleteObject g false].
    repeat split; trivial.
    + now exists [].
    + intros nm _. repeat constructor.
    + intros i x _. rewrite Hl'. now left.
    + now left.
  - destruct (Habs n Hbuild Hvok).
  - (* the old object is deleted, nothing is created *)
    assert (o' = o) by congruence. subst o'.
    exists reg, w1, insts,
      (EvDeleteObject g true
         :: evs ++ [EvAddInstanceObject idef_index Guid_Empty])%list.
    repeat split; trivial.
    + rewrite Hnx. destruct (NextIds (doc w)) as [|g0 l].
      * now exists [].
      * now exists [g0].
    + intros g0 Hg0 _. rewrite (@FindId_same_objects _ _ _ _ Hobj).
      now apply FindId_without_object_None.
    + intros nm Hnm. constructor; [reflexivity|].
      apply Forall_app. split.
      * apply definition_events_replace. now apply Hnamed.
      * constructor; [now left|constructor].
    + intros i x _. rewrite Hl'. now left.
    + left. repeat split; trivial.
      change (writes (_ :: ?l)) with (writes l).
      rewrite writes_app, (@writes_definition_events vals evs Hkinds). reflexivity.
  - (* the object is replaced under a new identity *)
    assert (o' = o) by congruence. subst o'.
    assert (Hne : new_id <> g).
    { intros ->. apply FindId_in_use in Hfind. congruence. }
    destruct (String.eqb_spec (str_of_Guid new_id) "") as [Hempty|_].
    { now apply str_of_Guid_nonempty in Hempty. }
    destruct (String.eqb_spec (str_of_Guid new_id) (str_of_Guid g))
      as [Hsame|_].
    { apply str_of_Guid_inj in Hsame. contradiction. }
    cbn [negb andb].
    destruct (@remove_instance_run _ reg (str_of_Guid g) w1 fams insts Hmaps)
      as (reg1 & Hrem & Hmaps1).
    destruct (@add_instance_run _ reg1 (str_of_Guid new_id) (JStr fid) vals
                (saved w1 (data reg1)) fams _ Hmaps1)
      as (reg2 & Hadd & Hmaps2).
    unfold bind at 1. rewrite Hrem.
    unfold bind at 1, lift at 1. rewrite Hvals. rewrite Hadd.
    exists reg2, (saved (saved w1 (data reg1)) (data reg2)),
      (dict_set (dict_pop insts (str_of_Guid g)) (str_of_Guid new_id)
         (instance_entry (JStr fid) vals)),
      ((EvDeleteObject g true
          :: evs ++ [EvAddInstanceObject idef_index new_id])
         ++ [EvSetString STORE_SECTION STORE_KEY (json_dumps (data reg1));
             EvSetString STORE_SECTION STORE_KEY (json_dumps (data reg2))])%list.
    split; [reflexivity|]. split; [exact Hmaps2|].
    repeat split.
    + unfold saved. cbn [events]. rewrite Hev, <- !app_assoc. reflexivity.
    + exists [new_id]. unfold saved. cbn [doc NextIds Strings_SetString].
      exact Hnx.
    + intros g0 Hg0 Hfresh.
      assert (g0 <> new_id).
      { intros ->. apply Hfresh. rewrite Hnx. now left. }
      unfold saved, Objects_FindId, Strings_SetString. cbn [doc Objects].
      fold (Objects_FindId (doc w1) g0).
      apply FindId_created_other
        with (d := without_object (doc w) g) (g := new_id)
             (o := mkRhinoObject new_id (InstanceObject idef_index x')
                     (Attributes o) false false); trivial.
      now apply FindId_without_object_None.
    + intros nm Hnm. apply Forall_app. split.
      * constructor; [reflexivity|].
        apply Forall_app. split.
        -- apply definition_events_replace. now apply Hnamed.
        -- constructor; [|constructor].
           right. rewrite Hnx. now left.
      * repeat constructor.
    + intros i x _. rewrite Hl'. now left.
    + right. exists new_id. repeat split; trivial.
      * rewrite Hnx. now left.
      * apply stored_text_saved.
      * rewrite writes_app.
        change (writes (EvDeleteObject g true :: ?l)) with (writes l).
        rewrite writes_app, (@writes_definition_events vals evs Hkinds). reflexivity.
Qed.

Lemma texts_of_texts (strs : list string) :
  texts_of (map JStr strs) = Some strs.
Proof.
  induction strs as [|s strs IH]; simpl; trivial. now rewrite IH.
Qed.

Lemma family_names_sorted (fams : list (string * value)) :
  Forall family_ok fams ->
  exists names,
    (fs <- py_values (JObj fams) ;;
     ns <- res_map (fun f => py_getitem f "name") fs ;;
     py_sorted ns)%res = Ok names.
Proof.
  intros Hok. cbn [py_values res_bind].
  assert (H : exists strs,
             res_map (fun f : value => py_getitem f "name") (dict_values fams)
             = Ok (map JStr strs)).
  { induction Hok as [|[k f] fams [_ Hf] _ (strs & IH)].
    - now exists [].
    - destruct (family_value_ok_name Hf) as (n & Hn & _).
      exists (n :: strs). simpl in *. rewrite Hn. cbn [res_bind].
      now rewrite IH. }
  destruct H as (strs & ->). cbn [res_bind]. unfold py_sorted.
  rewrite texts_of_texts. eauto.
Qed.

Lemma family_value_ok_defaults (family : value) (a b : num) :
  family_value_ok family ->
  exists wd ht family' n,
    (p <- py_getitem family "parameters" ;;
     x <- py_getitem p "Width" ;; py_float x)%res = Ok wd /\
    (p <- py_getitem family "parameters" ;;
     x <- py_getitem p "Height" ;; py_float x)%res = Ok ht /\
    (f <- setitem_in family "parameters" "Width" (JNum a) ;;
     setitem_in f "parameters" "Height" (JNum b))%res = Ok family' /\
    buildable family n /\ buildable family' n.
Proof.
  intros (fields & n & params & -> & Hn & Ht & Hp
          & (pf & wd & ht & -> & Hw & Hh & (fw & Hfw) & (fh & Hfh))).
  exists fw, fh.
  eexists. exists n.
  unfold setitem_in, buildable. simpl. rewrite Hp. simpl.
  rewrite Hw, Hh. simpl. rewrite Hfw, Hfh.
  rewrite dict_get_set_same. simpl.
  repeat split; try reflexivity.
  - now rewrite Hn.
  - now rewrite Ht.
  - cbn [py_getitem]. rewrite !dict_get_set_other by discriminate.
    now rewrite Hn.
  - cbn [py_getitem]. rewrite !dict_get_set_other by discriminate.
    now rewrite Ht.
Qed.

(** The command up to its batch phase. *)
Lemma cmd_sync_reaches_batch (w : World) (nm : string)
  (default_w default_h : num) (fid : string) (family : value) :
  registry_ok (stored_registry (doc w)) ->
  find_family_by_name (mkRegistry (stored_registry (doc w))) nm
  = Ok (Some (fid, family)) ->
  nm <> "" ->
  exists family' d' fams fams' insts n,
    cmd_sync_family_instances (Some nm) (Some default_w) (Some default_h) w
    = (updates <- lift (iter_instances_for_family (mkRegistry d') fid) ;;
       reg <- sync_all fid family' (mkRegistry d') updates ;;
       save reg ;;;
       Redraw ;;;
       MessageBox ("Family '" ++ nm ++ "' synchronized."))%cmd w /\
    has_maps (stored_registry (doc w)) fams insts /\
    has_maps d' fams' insts /\
    dict_wf insts /\ Forall instance_ok insts /\
    buildable family n /\ buildable family' n.
Proof.
  intros Hok Hfound Hnm.
  destruct (registry_ok_maps Hok)
    as (fams & insts & Hmaps & _ & Hwi & Hfo & Hio).
  rewrite (@find_family_by_name_run _ (mkRegistry _) nm fams insts Hmaps)
    in Hfound.
  pose proof (find_family_in_In _ _ Hfound) as Hin.
  assert (Hfamily : family_value_ok family).
  { rewrite Forall_forall in Hfo. now destruct (Hfo _ Hin). }
  destruct (family_names_sorted Hfo) as (names & Hnames).
  destruct (@family_value_ok_defaults family (py_round6 default_w)
              (py_round6 default_h) Hfamily)
    as (wd & ht & family' & n & Hwd & Hht & Hset & Hb & Hb').
  destruct Hmaps as (top & Htop & Hf & Hi).
  exists family', (JObj (dict_set top "families"
                           (JObj (dict_set fams fid family')))),
    fams, (dict_set fams fid family'), insts, n.
  split; [|repeat split; trivial].
  - unfold cmd_sync_family_instances.
    unfold bind at 1. rewrite new_registry_run.
    unfold bind at 1, lift at 1. cbn [data]. rewrite Htop.
    cbn [py_get_default]. rewrite Hf.
    destruct fams as [|kv fams']; [contradiction|].
    cbn [py_truthy negb].
    unfold bind at 1, lift at 1. rewrite Hnames.
    destruct (String.eqb_spec nm "") as [|_]; [contradiction|].
    unfold bind at 1, lift at 1.
    rewrite <- Htop.
    rewrite (@find_family_by_name_run _ (mkRegistry _) nm (kv :: fams')
               insts (ex_intro _ top (conj Htop (conj Hf Hi)))), Hfound.
    rewrite (family_value_ok_truthy Hfamily). cbn [negb].
    unfold bind at 1, lift at 1. rewrite Hwd.
    unfold bind at 1, lift at 1. rewrite Hht.
    unfold bind at 1, lift at 1. rewrite Hset.
    unfold bind at 1, lift at 1. cbn [data]. rewrite Htop.
    unfold setitem_in. cbn [py_getitem]. rewrite Hf. cbn [res_bind py_setitem].
    reflexivity.
  - now exists top.
  - eexists. split; [reflexivity|]. split.
    + apply dict_get_set_same.
    + rewrite dict_get_set_other by discriminate. exact Hi.
  - apply Hb.
  - apply Hb.
  - apply Hb'.
  - apply Hb'.
Qed.

(** Any well-shaped instance is processed without raising, with at most
    two registry writes. *)
Lemma sync_one_any (fid : string) (family : value) (n : string)
  (reg : DynamicBlockRegistry) (update : string * value) (w : World)
  (fams insts : list (string * value)) :
  has_maps (data reg) fams insts ->
  buildable family n ->
  instance_ok update ->
  exists reg' w' insts' evs,
    sync_one fid family reg update w = (Ok reg', w') /\
    has_maps (data reg') fams insts' /\
    events w' = (events w ++ evs)%list /\
    (writes evs <= 2)%nat.
Proof.
  intros Hmaps Hbuild [(g & Hk) (fields & fid' & vals & Hinfo & _ & Hv & Hvok)].
  destruct update as [k info]. cbn [fst snd] in *. subst k info.
  destruct (Objects_FindId (doc w) g) as [o|] eqn:Hfind.
  - destruct (@sync_one_live fid family n reg g (JObj fields) vals o w fams
                insts Hmaps Hfind) as
      (reg' & w' & insts' & evs & Hrun & Hmaps' & Hev & _ & _ & _ & _ & Hcase);
      trivial.
    { cbn [py_getitem]. now rewrite Hv. }
    exists reg', w', insts', evs. repeat split; trivial.
    destruct Hcase as [(_ & _ & _ & ->) | (new_id & _ & _ & _ & _ & ->)]; lia.
  - destruct (@sync_one_prune fid family reg g (JObj fields) w fams insts
                Hmaps Hfind) as (reg' & Hrun & Hmaps').
    exists reg', (saved w (data reg')), (dict_pop insts (str_of_Guid g)),
      [EvSetString STORE_SECTION STORE_KEY (json_dumps (data reg'))].
    repeat split; trivial. cbn. lia.
Qed.

Lemma sync_all_any (fid : string) (family : value) (n : string)
  (updates : list (string * value)) :
  forall (reg : DynamicBlockRegistry) (w : World)
         (fams insts : list (string * value)),
    has_maps (data reg) fams insts ->
    buildable family n ->
    Forall instance_ok updates ->
    exists reg' w' insts' evs,
      sync_all fid family reg updates w = (Ok reg', w') /\
      has_maps (data reg') fams insts' /\
      events w' = (events w ++ evs)%list /\
      (writes evs <= 2 * length updates)%nat.
Proof.
  induction updates as [|update updates IH];
    intros reg w fams insts Hmaps Hbuild Hok.
  - exists reg, w, insts, []. rewrite app_nil_r. repeat split; trivial.
  - inversion Hok as [|? ? Hupdate Hok']; subst.
    destruct (@sync_one_any fid family n reg update w fams insts
                Hmaps Hbuild Hupdate)
      as (reg1 & w1 & insts1 & evs1 & Hrun1 & Hmaps1 & Hev1 & Hw1).
    destruct (IH reg1 w1 fams insts1 Hmaps1 Hbuild Hok')
      as (reg2 & w2 & insts2 & evs2 & Hrun2 & Hmaps2 & Hev2 & Hw2).
    exists reg2, w2, insts2, (evs1 ++ evs2)%list.
    repeat split; trivial.
    + cbn [sync_all]. unfold bind. now rewrite Hrun1.
    + rewrite Hev2, Hev1, app_assoc. reflexivity.
    + rewrite writes_app. cbn [length]. lia.
Qed.

Lemma instances_of_family_returns (l : list (string * value)) (fid : string) :
  Forall instance_ok l ->
  instances_of_family l fid = Ok (filter (bound_to fid) l).
Proof.
  intros H. apply instances_of_family_filter.
  revert H. apply Forall_impl. intros kv. apply instance_ok_family_id.
Qed.

(** C9 (as the script has it). From a well-shaped stored registry
    (rectangle families, numbers within float range), a run of the
    synchronisation command that reaches its batch phase (a stored
    family chosen by name, both defaults given) returns normally; the
    last thing it does to the document is one write of the registry,
    after all per-instance processing, followed by the redraw and the
    closing message.  The per-instance processing writes the registry too (each
    [remove_instance] and [add_instance] saves), up to twice per
    instance of the family; with no instance to process the registry is
    written exactly once. *)
Theorem sync_writes_registry (w : World) (nm : string)
  (default_w default_h : num) (fid : string) (family : value) :
  let run := cmd_sync_family_instances (Some nm) (Some default_w)
               (Some default_h) in
  registry_ok (stored_registry (doc w)) ->
  find_family_by_name (mkRegistry (stored_registry (doc w))) nm
  = Ok (Some (fid, family)) ->
  nm <> "" ->
  exists updates evs d',
    iter_instances_for_family (mkRegistry (stored_registry (doc w))) fid
    = Ok updates /\
    fst (run w) = Ok tt /\
    trace run w
    = (evs ++ [EvSetString STORE_SECTION STORE_KEY (json_dumps d');
               EvRedraw;
               EvMessageBox ("Family '" ++ nm ++ "' synchronized.")])%list /\
    stored_text (doc (snd (run w))) = Some (json_dumps d') /\
    (writes evs <= 2 * length updates)%nat /\
    writes (trace run w) = S (writes evs) /\
    (updates = [] -> writes (trace run w) = 1%nat).
Proof.
  intros run Hok Hfound Hnm.
  destruct (@cmd_sync_reaches_batch w nm default_w default_h fid family
              Hok Hfound Hnm)
    as (family' & d0 & fams & fams' & insts & n & Hrun & Hmaps & Hmaps0
        & Hwi & Hio & Hb & Hb').
  pose proof (instances_of_family_returns fid Hio) as Hiter.
  set (updates := filter (bound_to fid) insts) in *.
  assert (Hupd : Forall instance_ok updates).
  { rewrite Forall_forall in *. intros x Hx. apply Hio.
    unfold updates in Hx. now apply filter_In in Hx. }
  destruct (@sync_all_any fid family' n updates (mkRegistry d0) w fams' insts
              Hmaps0 Hb' Hupd)
    as (reg' & w' & insts' & evs & Hall & Hmaps' & Hev & Hwrites).
  assert (Hfinal : run w
                   = (Ok tt,
                      log (log (saved w' (data reg')) [EvRedraw])
                        [EvMessageBox
                           ("Family '" ++ nm ++ "' synchronized.")])).
  { unfold run. rewrite Hrun.
    unfold bind at 1, lift at 1.
    rewrite (@iter_instances_for_family_run _ (mkRegistry d0) fid fams' insts
               Hmaps0), Hiter.
    unfold bind at 1. fold updates. rewrite Hall. reflexivity. }
  assert (Htrace : trace run w
                   = (evs ++ [EvSetString STORE_SECTION STORE_KEY
                                (json_dumps (data reg'));
                              EvRedraw;
                              EvMessageBox
                                ("Family '" ++ nm ++ "' synchronized.")])%list).
  { apply trace_of_events. rewrite Hfinal. cbn [snd log saved events].
    rewrite Hev, <- !app_assoc. reflexivity. }
  exists updates, evs, (data reg').
  rewrite (@iter_instances_for_family_run _ (mkRegistry _) fid fams insts
             Hmaps), Hiter.
  rewrite Htrace, Hfinal.
  repeat split; trivial.
  - cbn [snd log doc]. apply stored_text_saved.
  - rewrite writes_app. cbn. lia.
  - intros Hnone. rewrite Hnone in Hwrites. rewrite writes_app. cbn in *. lia.
Qed.

(** *** Two instances, one of them gone *)

Lemma replace_event_survivor (gone live : Guid) (supply : list Guid)
  (nm : string) (vals : value) (e : Event) :
  gone <> live -> ~ In gone supply ->
  replace_event live supply nm vals e ->
  survivor_event gone nm vals e.
Proof.
  intros Hne Hfresh He. unfold survivor_event.
  destruct e; simpl in *; try tauto.
  - split; trivial. congruence.
  - split; trivial. intros [-> Hempty]. destruct He; [contradiction|auto].
Qed.

Lemma filter_dict_pop (f : string * value -> bool)
  (l : list (string * value)) (k : string) :
  filter f (dict_pop l k) = dict_pop (filter f l) k.
Proof.
  unfold dict_pop. induction l as [|kv l IH]; simpl; trivial.
  destruct (negb (String.eqb (fst kv) k)) eqn:Hk, (f kv) eqn:Hf; simpl;
    rewrite ?Hk, ?Hf, IH; reflexivity.
Qed.

Lemma dict_pop_app (l l' : list (string * value)) (k : string) :
  dict_pop (l ++ l') k = (dict_pop l k ++ dict_pop l' k)%list.
Proof. apply filter_app. Qed.

Lemma dict_get_pop_None (l : list (string * value)) (k k' : string) :
  dict_get l k' = None -> dict_get (dict_pop l k) k' = None.
Proof.
  intros H. destruct (String.eqb_spec k' k) as [->|Hne].
  - apply dict_get_pop_same.
  - now rewrite dict_get_pop_other.
Qed.

Lemma Forall_dict_pop (P : string * value -> Prop)
  (l : list (string * value)) (k : string) :
  Forall P l -> Forall P (dict_pop l k).
Proof.
  intros H. rewrite Forall_forall in *. intros x Hx.
  apply filter_In in Hx. now apply H.
Qed.

Lemma Forall_dict_set (P : string * value -> Prop)
  (l : list (string * value)) (k : string) (v : value) :
  (forall k', P (k', v)) -> Forall P l -> Forall P (dict_set l k v).
Proof.
  intros Hv. induction 1 as [|[k0 v0] l Hx Hl IH]; simpl.
  - repeat constructor. apply Hv.
  - destruct (String.eqb k0 k); constructor; trivial.
Qed.

Lemma has_family_id_entry (k : string) (fid vals : value) :
  has_family_id (k, instance_entry fid vals).
Proof. exists fid. reflexivity. Qed.

Lemma bound_to_entry (k fid : string) (vals : value) :
  bound_to fid (k, instance_entry (JStr fid) vals) = true.
Proof. unfold bound_to. simpl. apply String.eqb_refl. Qed.

(** The instances of the family in each registry the batch can end
    with, when the family had the two instances [kg] (gone) and [kl]. *)
Lemma survivor_kept (fid : string) (insts : list (string * value))
  (kg kl : string) (ig il : value) :
  (filter (bound_to fid) insts = [(kg, ig); (kl, il)] \/
   filter (bound_to fid) insts = [(kl, il); (kg, ig)]) ->
  kg <> kl ->
  dict_get (dict_pop insts kg) kg = None /\
  filter (bound_to fid) (dict_pop insts kg) = [(kl, il)].
Proof.
  intros Htwo Hgl.
  assert (Elg : String.eqb kl kg = false)
    by (apply String.eqb_neq; congruence).
  split; [apply dict_get_pop_same|].
  rewrite filter_dict_pop.
  destruct Htwo as [-> | ->]; unfold dict_pop; simpl;
    rewrite ?String.eqb_refl, ?Elg; reflexivity.
Qed.

Lemma survivor_handed_over (fid : string) (insts : list (string * value))
  (kg kl kn : string) (ig il vals : value) :
  (filter (bound_to fid) insts = [(kg, ig); (kl, il)] \/
   filter (bound_to fid) insts = [(kl, il); (kg, ig)]) ->
  kg <> kl -> kn <> kg -> kn <> kl ->
  dict_get insts kn = None ->
  let entry := instance_entry (JStr fid) vals in
  let one (l : list (string * value)) :=
    dict_get l kg = None /\
    filter (bound_to fid) l = [(kn, entry)] in
  one (dict_set (dict_pop (dict_pop insts kg) kl) kn entry) /\
  one (dict_pop (dict_set (dict_pop insts kl) kn entry) kg).
Proof.
  intros Htwo Hgl Hng Hnl Hfresh entry one. subst entry.
  set (entry := instance_entry (JStr fid) vals) in *.
  assert (Egl : String.eqb kg kl = false) by now apply String.eqb_neq.
  assert (Elg : String.eqb kl kg = false)
    by (apply String.eqb_neq; congruence).
  assert (Eng : String.eqb kn kg = false) by now apply String.eqb_neq.
  assert (Hpop_gl : dict_pop (dict_pop (filter (bound_to fid) insts) kg) kl
                    = []).
  { destruct Htwo as [-> | ->]; unfold dict_pop; simpl;
      rewrite ?String.eqb_refl, ?Elg; simpl;
      rewrite ?String.eqb_refl; reflexivity. }
  assert (Hpop_lg : dict_pop (dict_pop (filter (bound_to fid) insts) kl) kg
                    = []).
  { destruct Htwo as [-> | ->]; unfold dict_pop; simpl;
      rewrite ?String.eqb_refl, ?Egl; simpl;
      rewrite ?String.eqb_refl; reflexivity. }
  assert (Hset1 : dict_set (dict_pop (dict_pop insts kg) kl) kn entry
                  = (dict_pop (dict_pop insts kg) kl ++ [(kn, entry)])%list).
  { apply dict_set_absent. now do 2 apply dict_get_pop_None. }
  assert (Hset2 : dict_set (dict_pop insts kl) kn entry
                  = (dict_pop insts kl ++ [(kn, entry)])%list).
  { apply dict_set_absent. now apply dict_get_pop_None. }
  assert (Hkeep : dict_pop [(kn, entry)] kg = [(kn, entry)]).
  { unfold dict_pop. simpl. now rewrite Eng. }
  repeat split.
  - rewrite dict_get_set_other by congruence.
    rewrite dict_get_pop_other by congruence. apply dict_get_pop_same.
  - rewrite Hset1, filter_app, !filter_dict_pop, Hpop_gl.
    cbn [app filter]. unfold entry. now rewrite bound_to_entry.
  - apply dict_get_pop_same.
  - rewrite Hset2, dict_pop_app, Hkeep, filter_app, !filter_dict_pop, Hpop_lg.
    cbn [app filter]. unfold entry. now rewrite bound_to_entry.
Qed.

Lemma survivor_event_plain (gone : Guid) (nm : string) (vals : value)
  (e : Event) :
  match e with
  | EvSetString _ _ _ | EvRedraw | EvMessageBox _ => True
  | _ => False
  end ->
  survivor_event gone nm vals e.
Proof. destruct e; simpl; intros []; split; auto. Qed.

End SyncFacts.

(** * Further properties of the script *)

(** ** The registry's operations, each against the others *)

Section RegistryLaws.
Context {E : Env}.
#[local] Abbreviation value := (json num).

Lemma dict_pop_absent {V} (d : list (string * V)) (k : string) :
  dict_get d k = None -> dict_pop d k = d.
Proof.
  induction d as [|[k' v] d IH]; simpl; trivial.
  destruct (String.eqb k' k); [discriminate|].
  intros H. simpl. now rewrite IH.
Qed.

Lemma dict_pop_set_absent {V} (d : list (string * V)) (k : string) (v : V) :
  dict_get d k = None -> dict_pop (dict_set d k v) k = d.
Proof.
  induction d as [|[k' v'] d IH]; simpl.
  - now rewrite String.eqb_refl.
  - destruct (String.eqb k' k) eqn:Hk; [discriminate|].
    intros H. simpl. rewrite Hk. simpl. now rewrite IH.
Qed.

Lemma add_family_run (reg : DynamicBlockRegistry) (family : Family)
  (w : World) (fams insts : list (string * value)) :
  has_maps (data reg) fams insts ->
  exists reg',
    add_family reg family w = (Ok reg', saved w (data reg')) /\
    has_maps (data reg')
      (dict_set fams (family_id family)
         (JObj [("name", JStr (name family));
                ("family_type", JStr (family_type family));
                ("parameters", parameters family)]))
      insts.
Proof.
  intros (top & Hd & Hf & Hi).
  eexists (mkRegistry (JObj (dict_set top "families" (JObj _)))).
  unfold add_family, bind, lift, setitem_in. rewrite Hd. simpl.
  rewrite Hf. simpl. split; [reflexivity|].
  eexists. split; [reflexivity|]. split.
  - apply dict_get_set_same.
  - rewrite dict_get_set_other by discriminate. exact Hi.
Qed.

Lemma get_family_maps (reg : DynamicBlockRegistry) (fid : string)
  (fams insts : list (string * value)) :
  has_maps (data reg) fams insts ->
  get_family reg (JStr fid)
  = Ok (match dict_get fams fid with Some f => f | None => JNull end).
Proof.
  intros H. unfold get_family. rewrite (has_maps_families H). simpl.
  now destruct (dict_get fams fid).
Qed.

Lemma get_instance_maps (reg : DynamicBlockRegistry) (k : string)
  (fams insts : list (string * value)) :
  has_maps (data reg) fams insts ->
  get_instance reg k
  = Ok (match dict_get insts k with Some i => i | None => JNull end).
Proof.
  intros H. unfold get_instance. rewrite (has_maps_instances H). simpl.
  now destruct (dict_get insts k).
Qed.

(** X1. On a registry holding both mappings, [add_family] stores the
    family's record under its id and writes the registry through to the
    document: [get_family] then returns that record for the id and what
    it returned before for every other id, the instances are untouched,
    and the document's registry text is the dump of the new data. *)
Theorem add_family_then_get_family (reg : DynamicBlockRegistry)
  (family : Family) (w : World) (fams insts : list (string * value)) :
  has_maps (data reg) fams insts ->
  exists reg',
    fst (add_family reg family w) = Ok reg' /\
    get_family reg' (JStr (family_id family))
    = Ok (JObj [("name", JStr (name family));
                ("family_type", JStr (family_type family));
                ("parameters", parameters family)]) /\
    (forall fid, fid <> family_id family ->
                 get_family reg' (JStr fid) = get_family reg (JStr fid)) /\
    instances_of (data reg') = insts /\
    stored_text (doc (snd (add_family reg family w)))
    = Some (json_dumps (data reg')) /\
    trace (add_family reg family) w
    = [EvSetString STORE_SECTION STORE_KEY (json_dumps (data reg'))].
Proof.
  intros Hmaps.
  destruct (@add_family_run reg family w fams insts Hmaps)
    as (reg' & Hrun & Hmaps').
  exists reg'. rewrite Hrun. cbn [fst snd].
  rewrite (@get_family_maps reg' _ _ _ Hmaps'), dict_get_set_same.
  repeat split; trivial.
  - intros fid Hne.
    rewrite (@get_family_maps reg' _ _ _ Hmaps'),
      (@get_family_maps reg _ _ _ Hmaps).
    rewrite dict_get_set_other by congruence. reflexivity.
  - apply (has_maps_instances_of Hmaps').
  - apply stored_text_saved.
  - apply trace_of_events. rewrite Hrun. reflexivity.
Qed.

(** X2. On a registry holding both mappings, [add_instance] binds the id
    to [{family_id, values}] and writes through: [get_instance] returns
    the new entry for that id and is unchanged for every other id, the
    families are untouched, and the document's registry text is the dump
    of the new data. *)
Theorem add_instance_then_get_instance (reg : DynamicBlockRegistry)
  (k : string) (fid values : value) (w : World)
  (fams insts : list (string * value)) :
  has_maps (data reg) fams insts ->
  exists reg',
    fst (add_instance reg k fid values w) = Ok reg' /\
    get_instance reg' k
    = Ok (JObj [("family_id", fid); ("values", values)]) /\
    (forall k', k' <> k -> get_instance reg' k' = get_instance reg k') /\
    families_of (data reg') = fams /\
    stored_text (doc (snd (add_instance reg k fid values w)))
    = Some (json_dumps (data reg')) /\
    trace (add_instance reg k fid values) w
    = [EvSetString STORE_SECTION STORE_KEY (json_dumps (data reg'))].
Proof.
  intros Hmaps.
  destruct (@add_instance_run _ reg k fid values w fams insts Hmaps)
    as (reg' & Hrun & Hmaps').
  exists reg'. rewrite Hrun. cbn [fst snd].
  rewrite (@get_instance_maps reg' _ _ _ Hmaps'), dict_get_set_same.
  repeat split; trivial.
  - intros k' Hne.
    rewrite (@get_instance_maps reg' _ _ _ Hmaps'),
      (@get_instance_maps reg _ _ _ Hmaps).
    rewrite dict_get_set_other by congruence. reflexivity.
  - apply (has_maps_families_of Hmaps').
  - apply stored_text_saved.
  - apply trace_of_events. rewrite Hrun. reflexivity.
Qed.

(** X3. On a registry holding both mappings, [remove_instance] never
    raises, whether or not the id is registered: afterwards
    [get_instance] returns [None] for the id and is unchanged for every
    other id, and the registry is written to the document even when the
    id was not registered and the data did not change. *)
Theorem remove_instance_then_get_instance (reg : DynamicBlockRegistry)
  (k : string) (w : World) (fams insts : list (string * value)) :
  has_maps (data reg) fams insts ->
  exists reg',
    fst (remove_instance reg k w) = Ok reg' /\
    get_instance reg' k = Ok JNull /\
    (forall k', k' <> k -> get_instance reg' k' = get_instance reg k') /\
    families_of (data reg') = fams /\
    (dict_get insts k = None -> instances_of (data reg') = insts) /\
    trace (remove_instance reg k) w
    = [EvSetString STORE_SECTION STORE_KEY (json_dumps (data reg'))].
Proof.
  intros Hmaps.
  destruct (@remove_instance_run _ reg k w fams insts Hmaps)
    as (reg' & Hrun & Hmaps').
  exists reg'. rewrite Hrun. cbn [fst snd].
  rewrite (@get_instance_maps reg' _ _ _ Hmaps'), dict_get_pop_same.
  repeat split; trivial.
  - intros k' Hne.
    rewrite (@get_instance_maps reg' _ _ _ Hmaps'),
      (@get_instance_maps reg _ _ _ Hmaps).
    rewrite dict_get_pop_other by congruence. reflexivity.
  - apply (has_maps_families_of Hmaps').
  - intros Habs. rewrite (has_maps_instances_of Hmaps').
    now apply dict_pop_absent.
  - apply trace_of_events. rewrite Hrun. reflexivity.
Qed.

(** X4. Registering an id that was not registered and then removing it
    gives back the instances mapping the registry started with, and the
    two operations write the registry twice. *)
Theorem add_then_remove_instance (reg : DynamicBlockRegistry) (k : string)
  (fid values : value) (w : World) (fams insts : list (string * value)) :
  has_maps (data reg) fams insts ->
  dict_get insts k = None ->
  let run := (reg1 <- add_instance reg k fid values ;;
              remove_instance reg1 k)%cmd in
  exists reg',
    fst (run w) = Ok reg' /\
    instances_of (data reg') = insts /\
    families_of (data reg') = fams /\
    writes (trace run w) = 2%nat.
Proof.
  intros Hmaps Habs run.
  destruct (@add_instance_run _ reg k fid values w fams insts Hmaps)
    as (reg1 & Hrun1 & Hmaps1).
  destruct (@remove_instance_run _ reg1 k (saved w (data reg1)) _ _ Hmaps1)
    as (reg2 & Hrun2 & Hmaps2).
  assert (Hrun : run w = (Ok reg2, saved (saved w (data reg1)) (data reg2))).
  { unfold run, bind. now rewrite Hrun1. }
  exists reg2. rewrite Hrun. cbn [fst snd].
  rewrite (has_maps_instances_of Hmaps2), (has_maps_families_of Hmaps2).
  repeat split; trivial.
  - now apply dict_pop_set_absent.
  - erewrite trace_of_events.
    2:{ rewrite Hrun. cbn [snd saved events]. rewrite <- app_assoc.
        reflexivity. }
    reflexivity.
Qed.

End RegistryLaws.

(** ** Looking families and instances up *)

Section LookupLaws.
Context {E : Env}.
#[local] Abbreviation value := (json num).

Lemma find_family_in_first (fams : list (string * value)) (nm fid : string)
  (family : value) :
  Forall has_name fams ->
  find_family_in fams nm = Ok (Some (fid, family)) <->
  exists before after,
    fams = (before ++ (fid, family) :: after)%list /\
    name_matches nm (fid, family) /\
    Forall (fun entry => ~ name_matches nm entry) before.
Proof.
  induction fams as [|[k f] fams IH]; intros Hnames.
  - split; [discriminate|].
    intros (before & after & Heq & _). now destruct before.
  - inversion Hnames as [|? ? (n & Hn) Hnames']; subst. cbn [snd] in Hn.
    cbn [find_family_in]. rewrite Hn. cbn [res_bind py_lower].
    destruct (String.eqb_spec (lower n) (lower nm)) as [Hm|Hm].
    + split.
      * intros [= -> ->]. exists [], fams. repeat split; trivial.
        now exists n.
      * intros (before & after & Heq & _ & Hbefore).
        destruct before as [|b before]; cbn [app] in Heq.
        -- now injection Heq as -> -> _.
        -- injection Heq as <- _. inversion Hbefore as [|? ? Hb _]; subst.
           destruct Hb. now exists n.
    + rewrite (IH Hnames'). split.
      * intros (before & after & -> & Hmatch & Hbefore).
        exists ((k, f) :: before), after. repeat split; trivial.
        constructor; trivial.
        intros (n' & Hn' & Hlow). cbn [snd] in Hn'. congruence.
      * intros (before & after & Heq & Hmatch & Hbefore).
        destruct before as [|b before]; cbn [app] in Heq.
        -- injection Heq as <- <- _.
           destruct Hmatch as (n' & Hn' & Hlow). cbn [snd] in Hn'.
           congruence.
        -- injection Heq as <- ->. inversion Hbefore; subst.
           now exists before, after.
Qed.

Lemma find_family_in_none (fams : list (string * value)) (nm : string) :
  Forall has_name fams ->
  find_family_in fams nm = Ok None <->
  Forall (fun entry => ~ name_matches nm entry) fams.
Proof.
  induction fams as [|[k f] fams IH]; intros Hnames.
  - split; trivial.
  - inversion Hnames as [|? ? (n & Hn) Hnames']; subst. cbn [snd] in Hn.
    cbn [find_family_in]. rewrite Hn. cbn [res_bind py_lower].
    destruct (String.eqb_spec (lower n) (lower nm)) as [Hm|Hm].
    + split; [discriminate|].
      intros H. inversion H as [|? ? Hb _]; subst. destruct Hb. now exists n.
    + rewrite (IH Hnames'). split.
      * intros H. constructor; trivial.
        intros (n' & Hn' & Hlow). cbn [snd] in Hn'. congruence.
      * intros H. now inversion H.
Qed.

Lemma find_family_in_total (fams : list (string * value)) (nm : string) :
  Forall has_name fams -> exists r, find_family_in fams nm = Ok r.
Proof.
  induction 1 as [|[k f] fams (n & Hn) _ (r & IH)]; [now eexists|].
  cbn [snd] in Hn. cbn [find_family_in]. rewrite Hn.
  cbn [res_bind py_lower]. destruct (String.eqb (lower n) (lower nm)); eauto.
Qed.

(** X5. On a registry holding both mappings, when every stored family
    has a text as its name, [find_family_by_name] never raises and
    returns the first family, in the registry's order, whose name equals
    the requested one up to letter case (both lowered by [str.lower]): it returns a family exactly when that family matches
    and no family stored before it does, and it returns [(None, None)]
    exactly when no stored family matches. *)
Theorem find_family_by_name_first_match (reg : DynamicBlockRegistry)
  (nm : string) (fams insts : list (string * value)) :
  has_maps (data reg) fams insts ->
  Forall has_name fams ->
  (exists r, find_family_by_name reg nm = Ok r) /\
  (forall fid family,
      find_family_by_name reg nm = Ok (Some (fid, family)) <->
      exists before after,
        fams = (before ++ (fid, family) :: after)%list /\
        name_matches nm (fid, family) /\
        Forall (fun entry => ~ name_matches nm entry) before) /\
  (find_family_by_name reg nm = Ok None <->
   Forall (fun entry => ~ name_matches nm entry) fams).
Proof.
  intros Hmaps Hnames.
  rewrite (@find_family_by_name_run _ reg nm fams insts Hmaps).
  split; [|split].
  - now apply find_family_in_total.
  - intros fid family. now apply find_family_in_first.
  - now apply find_family_in_none.
Qed.

Lemma instances_of_family_raises (insts : list (string * value))
  (fid : string) :
  Exists (fun entry => forall v, py_getitem (snd entry) "family_id" <> Ok v)
    insts ->
  exists e, instances_of_family insts fid = Raise e.
Proof.
  induction insts as [|[k info] insts IH]; intros H.
  - inversion H.
  - cbn [instances_of_family].
    destruct (py_getitem info "family_id") as [v|e] eqn:Hv;
      cbn [res_bind]; [|eauto].
    inversion H as [? ? Hhead|? ? Htail]; subst.
    + cbn [snd] in Hhead. now destruct (Hhead v).
    + destruct (IH Htail) as (e & ->).
      destruct (py_eq_str v fid); cbn [res_bind]; eauto.
Qed.

(** X6. [list(iter_instances_for_family(F))] is the registry's instance
    entries whose [family_id] equals [F], in the registry's order, when
    every entry has a [family_id]; one entry without it makes the
    listing raise, whichever family is asked for. *)
Theorem iter_instances_for_family_selects (reg : DynamicBlockRegistry)
  (fid : string) (fams insts : list (string * value)) :
  has_maps (data reg) fams insts ->
  (Forall has_family_id insts ->
   iter_instances_for_family reg fid = Ok (filter (bound_to fid) insts)) /\
  (Exists (fun entry => forall v, py_getitem (snd entry) "family_id" <> Ok v)
     insts ->
   exists e, iter_instances_for_family reg fid = Raise e).
Proof.
  intros Hmaps.
  rewrite (@iter_instances_for_family_run _ reg fid fams insts Hmaps).
  split.
  - apply instances_of_family_filter.
  - apply instances_of_family_raises.
Qed.

(** X7. Loading only fills in missing keys, so a stored text whose
    ["families"] is not a mapping is loaded as it is; the create command
    then raises [AttributeError] when it looks the name up, and neither
    writes the document nor shows a message. *)
Theorem create_family_raises_without_families_mapping (w : World)
  (nm : string) (default_w default_h : num) (v : value) :
  py_getitem (stored_registry (doc w)) "families" = Ok v ->
  (forall fams, v <> JObj fams) ->
  nm <> "" ->
  cmd_create_rectangle_family (Some nm) (Some default_w) (Some default_h) w
  = (Raise AttributeError, w).
Proof.
  intros Hv Hshape Hnm.
  unfold cmd_create_rectangle_family.
  destruct (String.eqb_spec nm "") as [|_]; [contradiction|].
  unfold bind at 1. rewrite new_registry_run.
  unfold bind at 1, lift at 1, find_family_by_name. cbn [data].
  rewrite Hv. cbn [res_bind].
  destruct v as [| | | | |fams]; try reflexivity.
  now destruct (Hshape fams).
Qed.

(** X8. Likewise a stored text whose ["instances"] is not a mapping
    makes the edit command raise [AttributeError] as soon as an object
    is picked, before any prompt and with the document untouched. *)
Theorem edit_raises_without_instances_mapping (w : World) (id : Guid)
  (width height : option num) (v : value) :
  py_getitem (stored_registry (doc w)) "instances" = Ok v ->
  (forall insts, v <> JObj insts) ->
  cmd_edit_instance_parameters (Some id) width height w
  = (Raise AttributeError, w).
Proof.
  intros Hv Hshape.
  unfold cmd_edit_instance_parameters.
  unfold bind at 1. rewrite new_registry_run.
  unfold bind at 1, lift at 1, get_instance. cbn [data].
  rewrite Hv. cbn [res_bind].
  destruct v as [| | | | |insts]; try reflexivity.
  now destruct (Hshape insts).
Qed.

End LookupLaws.

(** ** Definition names and the definition cache *)

Section DefinitionLaws.
Context {E : Env}.
#[local] Abbreviation value := (json num).

(** X9. For values holding exactly the keys [Width] and [Height], in
    either insertion order, the definition name is
    [DB_<family>_Height=<h>_Width=<w>]: the pairs are listed by sorted
    key, so the height comes first. *)
Theorem definition_name_rectangle (family_name wv hv : value)
  (fields : list (string * value)) :
  Permutation (dict_keys fields) ["Width"; "Height"] ->
  dict_get fields "Width" = Some wv ->
  dict_get fields "Height" = Some hv ->
  definition_name family_name (JObj fields)
  = Ok ("DB_" ++ py_format family_name ++ "_Height=" ++ py_format hv
          ++ "_Width=" ++ py_format wv).
Proof.
  intros Hkeys Hw Hh. rewrite definition_name_obj.
  rewrite (sorted_Permutation Hkeys).
  change (sorted ["Width"; "Height"]) with ["Height"; "Width"].
  cbn [map join String.concat]. unfold name_part. rewrite Hw, Hh.
  reflexivity.
Qed.

Lemma find_definition_app_old (t more : list InstanceDefinition)
  (nm : string) (i idx : nat) :
  find_definition t nm i = Some idx ->
  find_definition (t ++ more) nm i = Some idx.
Proof.
  revert i. induction t as [|x t IH]; simpl; intros i; [discriminate|].
  destruct (String.eqb (idef_Name x) nm); trivial. apply IH.
Qed.

Lemma ensure_definition_miss (family values : value) (w : World)
  (nm : string) (width height : num) :
  (n <- py_getitem family "name" ;; definition_name n values)%res = Ok nm ->
  py_getitem family "family_type" = Ok (JStr "rectangle") ->
  (x <- py_getitem values "Width" ;; py_float x)%res = Ok width ->
  (x <- py_getitem values "Height" ;; py_float x)%res = Ok height ->
  InstanceDefinitions_Find (doc w) nm = None ->
  let index := length (InstanceDefinitions (doc w)) in
  ensure_definition family values w
  = (Ok index,
     log (with_doc w
            (mkRhinoDoc (Strings (doc w))
               (InstanceDefinitions (doc w)
                  ++ [mkInstanceDefinition nm "Dynamic block variant"
                        (mkPoint3d (num_of_Z 0) (num_of_Z 0) (num_of_Z 0))
                        [rectangle width height] [default_attributes]])
               (Objects (doc w)) (NextIds (doc w))))
       [EvFindDefinition nm; EvBuildGeometry width height;
        EvAddDefinition nm index]).
Proof.
  intros Hnm Hty Hwd Hht Hfind index.
  unfold ensure_definition, bind, lift. rewrite Hnm.
  unfold Find, bind, get_doc, emit, ret. cbn [fst snd doc].
  rewrite Hfind, Hty.
  unfold build_geometry. cbn [py_eq_str]. rewrite String.eqb_refl.
  unfold bind, lift. rewrite Hwd, Hht.
  unfold make_rectangle_geometry, Add, bind, emit, ret, get_doc, put_doc,
    InstanceDefinitions_Add, log, with_doc.
  cbn [fst snd doc events uuid_count map]. rewrite <- !app_assoc.
  reflexivity.
Qed.

(** X10. When the document has no definition of the name,
    [ensure_definition] for a rectangle family adds exactly one
    definition at the end of the table and returns its index: it bears
    the definition name, the description ["Dynamic block variant"], the
    origin as base point, one closed polyline through [(0,0,0)],
    [(w,0,0)], [(w,h,0)], [(0,h,0)] and back, with [w] and [h] the
    floats of the values, and one default attribute record; strings,
    objects and identity supply are untouched. *)
Theorem ensure_definition_builds_rectangle (family values : value)
  (w : World) (nm : string) (width height : num) :
  (n <- py_getitem family "name" ;; definition_name n values)%res = Ok nm ->
  py_getitem family "family_type" = Ok (JStr "rectangle") ->
  (x <- py_getitem values "Width" ;; py_float x)%res = Ok width ->
  (x <- py_getitem values "Height" ;; py_float x)%res = Ok height ->
  InstanceDefinitions_Find (doc w) nm = None ->
  let w' := snd (ensure_definition family values w) in
  fst (ensure_definition family values w)
  = Ok (length (InstanceDefinitions (doc w))) /\
  InstanceDefinitions (doc w')
  = (InstanceDefinitions (doc w)
       ++ [mkInstanceDefinition nm "Dynamic block variant"
             (mkPoint3d (num_of_Z 0) (num_of_Z 0) (num_of_Z 0))
             [rectangle width height] [default_attributes]])%list /\
  Strings (doc w') = Strings (doc w) /\
  Objects (doc w') = Objects (doc w) /\
  NextIds (doc w') = NextIds (doc w) /\
  trace (ensure_definition family values) w
  = [EvFindDefinition nm; EvBuildGeometry width height;
     EvAddDefinition nm (length (InstanceDefinitions (doc w)))].
Proof.
  intros Hnm Hty Hwd Hht Hfind w'. unfold w'.
  unfold trace.
  rewrite (ensure_definition_miss _ _ _ Hnm Hty Hwd Hht Hfind).
  cbn [fst snd log with_doc doc events]. rewrite skipn_length_app.
  repeat split.
Qed.

Lemma ensure_definition_found (family values : value) (w w' : World)
  (index : nat) :
  ensure_definition family values w = (Ok index, w') ->
  exists nm,
    (n <- py_getitem family "name" ;; definition_name n values)%res = Ok nm /\
    InstanceDefinitions_Find (doc w') nm = Some index /\
    forall nm' i, InstanceDefinitions_Find (doc w) nm' = Some i ->
                  InstanceDefinitions_Find (doc w') nm' = Some i.
Proof.
  intros Hrun.
  pose proof (ensure_definition_outcome family values w) as H.
  rewrite Hrun in H. cbn [fst snd] in H.
  inversion H as [| nm idx Hnm Hfind | | nm wd ht idef Hnm Hfind Hwd Hht Hname];
    subst.
  - exists nm. repeat split; trivial.
  - exists (idef_Name idef).
    cbn [log with_doc doc]. unfold InstanceDefinitions_Find in *.
    cbn [InstanceDefinitions].
    repeat split; trivial.
    + now apply (find_definition_app_new _ _ 0).
    + intros nm' i. apply find_definition_app_old.
Qed.

(** X11. Whenever [ensure_definition] returns an index, the document
    afterwards finds the definition name at that index; every definition
    the document found by name before is still found at the same index,
    and strings, objects and identity supply are untouched. *)
Theorem ensure_definition_ensures (family values : value) (w : World)
  (index : nat) :
  fst (ensure_definition family values w) = Ok index ->
  let w' := snd (ensure_definition family values w) in
  (exists nm,
      (n <- py_getitem family "name" ;; definition_name n values)%res
      = Ok nm /\
      InstanceDefinitions_Find (doc w') nm = Some index) /\
  (forall nm' i, InstanceDefinitions_Find (doc w) nm' = Some i ->
                 InstanceDefinitions_Find (doc w') nm' = Some i) /\
  Strings (doc w') = Strings (doc w) /\
  Objects (doc w') = Objects (doc w) /\
  NextIds (doc w') = NextIds (doc w).
Proof.
  intros Hres w'. unfold w'. clear w'.
  destruct (ensure_definition family values w) as [r w1] eqn:Hrun.
  cbn [fst snd] in *. subst r.
  destruct (ensure_definition_found _ _ _ Hrun) as (nm & Hnm & Hfound & Hold).
  destruct (ensure_definition_effects _ _ _ Hrun) as (Hs & Ho & Hn & _).
  repeat split; trivial. now exists nm.
Qed.

(** X12. For a family whose type is not ["rectangle"],
    [ensure_definition] still returns the cached definition when the
    document has one of that name; otherwise it raises [ValueError]
    ["Unsupported family type: <type>"] after the lookup, having built
    no geometry and added no definition. *)
Theorem ensure_definition_unsupported_type (family values ty : value)
  (w : World) (nm : string) :
  (n <- py_getitem family "name" ;; definition_name n values)%res = Ok nm ->
  py_getitem family "family_type" = Ok ty ->
  py_eq_str ty "rectangle" = false ->
  ensure_definition family values w
  = (match InstanceDefinitions_Find (doc w) nm with
     | Some index => Ok index
     | None =>
         Raise (ValueError ("Unsupported family type: " ++ py_format ty))
     end,
     log w [EvFindDefinition nm]).
Proof.
  intros Hnm Hty Hne.
  unfold ensure_definition, bind, lift. rewrite Hnm.
  unfold Find, bind, get_doc, emit, ret. cbn [fst snd doc].
  destruct (InstanceDefinitions_Find (doc w) nm); [reflexivity|].
  rewrite Hty. unfold build_geometry. rewrite Hne. reflexivity.
Qed.

End DefinitionLaws.

(** ** What a replacement leaves behind *)

Section ReplaceLaws.
Context {E : Env}.
#[local] Abbreviation value := (json num).

Lemma FindId_app_found (d d' : RhinoDoc) (g : Guid) (o : RhinoObject)
  (more : list RhinoObject) :
  Objects d' = (Objects d ++ more)%list ->
  Objects_FindId d g = Some o ->
  Objects_FindId d' g = Some o.
Proof.
  unfold Objects_FindId. intros ->.
  induction (Objects d) as [|x os IH]; simpl; [discriminate|].
  destruct (N.eqb (Id x) g && negb (IsDeleted x)); trivial.
Qed.

Lemma replace_run_others (id : Guid) (family values : value) (w w' : World)
  (r : Res PyResult) (evs : list Event) (g : Guid) (o : RhinoObject) :
  replace_run id family values w r w' evs ->
  g <> id ->
  Objects_FindId (doc w) g = Some o ->
  Objects_FindId (doc w') g = Some o.
Proof.
  intros H Hne Hfind.
  destruct H as [ | | | o0 i x e w' evs _ _ _ Hobj
                | o0 i x idef w' evs _ _ _ _ Hobj
                | o0 i x idef new_id w' evs _ _ _ _ _ _ Hobj]; trivial.
  - rewrite (@FindId_same_objects _ _ _ _ Hobj).
    now rewrite FindId_without_object_other.
  - rewrite (@FindId_same_objects _ _ _ _ Hobj).
    now rewrite FindId_without_object_other.
  - eapply FindId_app_found; [exact Hobj|].
    now rewrite FindId_without_object_other.
Qed.

(** X13. [replace_instance_geometry] never writes the registry and
    never touches another object: whatever it returns or raises, the
    document's strings are as before, no event of the call is a write,
    and every object found under an identity other than the one given is
    still found unchanged. *)
Theorem replace_instance_geometry_frame (instance_id : string)
  (family values : value) (w : World) :
  let run := replace_instance_geometry instance_id family values in
  Strings (doc (snd (run w))) = Strings (doc w) /\
  writes (trace run w) = 0%nat /\
  forall g o, Guid_of_str instance_id <> Ok g ->
              Objects_FindId (doc w) g = Some o ->
              Objects_FindId (doc (snd (run w))) g = Some o.
Proof.
  intros run. unfold run.
  destruct (Guid_of_str instance_id) as [id|e] eqn:Hid.
  - pose proof (@replace_trace _ instance_id id family values w Hid) as Hr.
    destruct (replace_instance_geometry instance_id family values w)
      as [r w'] eqn:Hrun.
    destruct (@replace_instance_geometry_run _ instance_id id family values
                w w' r Hid Hrun) as (evs & _ & _ & Hs & _).
    cbn [fst snd] in *. repeat split; trivial.
    + apply (replace_run_writes Hr).
    + intros g o Hne. apply (replace_run_others Hr). congruence.
  - unfold trace, replace_instance_geometry, bind, lift. rewrite Hid.
    cbn [fst snd]. rewrite <- (app_nil_r (events w)) at 2.
    rewrite skipn_length_app. repeat split; trivial.
Qed.

(** X14. Whenever [replace_instance_geometry] raises on a well-formed
    identity, it has already deleted the old object: the object was an
    unlocked instance object of the document and is no longer found, the
    deletion is the first event of the call, and no object was created.
    This never happens for a family of type ["rectangle"] with a text
    name and values whose [Width] and [Height] are numbers within float
    range. *)
Theorem replace_raises_after_delete (instance_id : string) (id : Guid)
  (family values : value) (w : World) (e : exn) :
  let run := replace_instance_geometry instance_id family values in
  Guid_of_str instance_id = Ok id ->
  fst (run w) = Raise e ->
  (exists o index xform,
      Objects_FindId (doc w) id = Some o /\
      Kind o = InstanceObject index xform /\ IsLocked o = false) /\
  Objects_FindId (doc (snd (run w))) id = None /\
  (exists evs, trace run w = EvDeleteObject id true :: evs /\
               forall i g, ~ In (EvAddInstanceObject i g) evs) /\
  NextIds (doc (snd (run w))) = NextIds (doc w) /\
  (forall n, buildable family n -> values_ok values -> False).
Proof.
  intros run Hid Hraise. unfold run in *.
  pose proof (@replace_trace _ instance_id id family values w Hid) as Hr.
  rewrite Hraise in Hr.
  inversion Hr as [ | | | o i x e' w' evs Hfind Hkind Hlock Hobj Hnext Hk
                      Hnamed Hbad | | ]; subst.
  repeat split; trivial.
  - now exists o, i, x.
  - rewrite (@FindId_same_objects _ _ _ _ Hobj).
    apply FindId_without_object_same.
  - exists evs. split; trivial.
    intros i0 g Hin. rewrite Forall_forall in Hk.
    destruct (Hk _ Hin) as (nm & Hdef). exact Hdef.
Qed.

(** X15. Whenever [replace_instance_geometry] returns a text, it is the
    text of a new identity, never empty and never that of the old one:
    the old object, an instance object, is no longer found, and the new
    identity is that of an unlocked instance object carrying the old
    object's transform and attributes. *)
Theorem replace_returns_new_identity (instance_id : string) (id : Guid)
  (family values : value) (w : World) (s : string) :
  let run := replace_instance_geometry instance_id family values in
  Guid_of_str instance_id = Ok id ->
  fst (run w) = Ok (PyStr s) ->
  exists o index xform idef_index new_id,
    s = str_of_Guid new_id /\ s <> "" /\
    new_id <> Guid_Empty /\ new_id <> id /\
    Objects_FindId (doc w) id = Some o /\
    Kind o = InstanceObject index xform /\
    Objects_FindId (doc (snd (run w))) id = None /\
    Objects_FindId (doc (snd (run w))) new_id
    = Some (mkRhinoObject new_id (InstanceObject idef_index xform)
              (Attributes o) false false).
Proof.
  intros run Hid Hres. unfold run in *.
  pose proof (@replace_trace _ instance_id id family values w Hid) as Hr.
  rewrite Hres in Hr.
  inversion Hr as [ | | | | | o i x idef new_id w' evs Hfind Hkind Hlock Hnew
                                Hfree Hnext Hobj Hk Hnamed Hs]; subst.
  assert (Hne : new_id <> id).
  { intros ->. apply FindId_in_use in Hfind. congruence. }
  exists o, i, x, idef, new_id.
  repeat split; trivial.
  - apply str_of_Guid_nonempty.
  - unfold Objects_FindId at 1. rewrite Hobj.
    rewrite FindId_None_app by apply FindId_without_object_same.
    simpl. destruct (N.eqb_spec new_id id); [congruence|reflexivity].
  - eapply FindId_created_same; [exact Hobj|reflexivity|reflexivity|].
    now rewrite id_in_use_without_object.
Qed.

(** X16. [False] from [replace_instance_geometry] has two meanings that
    only the document tells apart: either nothing changed (the object
    was not found, was not an instance object, or refused deletion), or
    the object, found as an unlocked instance object, was deleted and
    the document could not issue an identity for its successor. *)
Theorem replace_False_two_meanings (instance_id : string) (id : Guid)
  (family values : value) (w : World) :
  let run := replace_instance_geometry instance_id family values in
  Guid_of_str instance_id = Ok id ->
  fst (run w) = Ok PyFalse ->
  (doc (snd (run w)) = doc w /\
   (instance_not_found (doc w) id \/ not_an_instance (doc w) id
    \/ delete_refused (doc w) id))
  \/
  ((exists o index xform,
       Objects_FindId (doc w) id = Some o /\
       Kind o = InstanceObject index xform /\ IsLocked o = false) /\
   cannot_issue (doc w) /\
   Objects_FindId (doc (snd (run w))) id = None /\
   NextIds (doc (snd (run w))) = tl (NextIds (doc w))).
Proof.
  intros run Hid Hres. unfold run in *. clear run.
  destruct (replace_instance_geometry instance_id family values w)
    as [r w'] eqn:Hrun.
  destruct (@replace_instance_geometry_run _ instance_id id family values
              w w' r Hid Hrun) as (evs & Hr & _).
  cbn [fst snd] in *. subst r.
  inversion Hr as [ Hnone | Hother | Hrefused | |
                    o i x idef w1 evs1 Hfind Hkind Hlock Hcannot Hobj Hnext | ];
    subst.
  - left. auto.
  - left. auto.
  - left. auto.
  - right. repeat split; trivial.
    + now exists o, i, x.
    + rewrite (@FindId_same_objects _ _ _ _ Hobj).
      apply FindId_without_object_same.
Qed.

End ReplaceLaws.

(** ** The create and edit commands *)

Section CommandLaws.
Context {E : Env}.
#[local] Abbreviation value := (json num).

Lemma family_ok_has_name (fams : list (string * value)) :
  Forall family_ok fams -> Forall has_name fams.
Proof.
  apply Forall_impl. intros entry [_ (fields & n & params & Hv & Hn & _)].
  exists n. rewrite Hv. cbn [py_getitem]. now rewrite Hn.
Qed.


(** X17. When the stored registry holds both mappings, every stored
    family has a text name and none has the requested, non-empty name up
    to letter case (both lowered by [str.lower]), the create command
    stores a new family under the next
    [uuid4] text, with the name as typed, type ["rectangle"] and the two
    defaults exactly as given (they are not rounded), writes the
    registry once and reports the creation; every other family and all
    instances are kept. *)
Theorem create_family_adds_family (w : World) (nm : string)
  (default_w default_h : num) (fams insts : list (string * value)) :
  let d := stored_registry (doc w) in
  let run := cmd_create_rectangle_family (Some nm) (Some default_w)
               (Some default_h) in
  let fid := uuid4_nth (uuid_count w) in
  has_maps d fams insts ->
  Forall has_name fams ->
  Forall (fun entry => ~ name_matches nm entry) fams ->
  nm <> "" ->
  exists d',
    fst (run w) = Ok tt /\
    stored_text (doc (snd (run w))) = Some (json_dumps d') /\
    get_family (mkRegistry d') (JStr fid)
    = Ok (JObj [("name", JStr nm);
                ("family_type", JStr "rectangle");
                ("parameters", JObj [("Width", JNum default_w);
                                     ("Height", JNum default_h)])]) /\
    (forall fid', fid' <> fid ->
                  get_family (mkRegistry d') (JStr fid')
                  = get_family (mkRegistry d) (JStr fid')) /\
    instances_of d' = insts /\
    trace run w
    = [EvSetString STORE_SECTION STORE_KEY (json_dumps d');
       EvMessageBox ("Created family '" ++ nm ++ "'")].
Proof.
  intros d run fid Hmaps Hnames Hnone Hnm. subst d.
  assert (Hfind : find_family_by_name
                    (mkRegistry (stored_registry (doc w))) nm = Ok None).
  { rewrite (@find_family_by_name_run _ (mkRegistry _) nm fams insts Hmaps).
    now apply find_family_in_none. }
  set (family := mkFamily fid nm "rectangle"
                   (JObj [("Width", JNum default_w);
                          ("Height", JNum default_h)])).
  set (w1 := mkWorld (doc w) (S (uuid_count w)) (events w)).
  destruct (@add_family_run _ (mkRegistry (stored_registry (doc w))) family
              w1 fams insts Hmaps) as (reg' & Hadd & Hmaps').
  assert (Hrun : run w
                 = (Ok tt,
                    log (saved w1 (data reg'))
                      [EvMessageBox ("Created family '" ++ nm ++ "'")])).
  { unfold run, cmd_create_rectangle_family.
    destruct (String.eqb_spec nm "") as [|_]; [contradiction|].
    unfold bind at 1. rewrite new_registry_run.
    unfold bind at 1, lift at 1. rewrite Hfind.
    unfold bind at 1, uuid4. fold fid. fold w1. fold family.
    unfold bind at 1. rewrite Hadd. reflexivity. }
  exists (data reg'). rewrite Hrun. cbn [fst snd doc log].
  split; [reflexivity|]. split; [apply stored_text_saved|].
  rewrite (@get_family_maps _ (mkRegistry (data reg')) fid _ _ Hmaps').
  cbn [family_id name family_type parameters family].
  rewrite dict_get_set_same.
  split; [reflexivity|]. split; [|split].
  - intros fid' Hne.
    rewrite (@get_family_maps _ (mkRegistry (data reg')) fid' _ _ Hmaps').
    rewrite (@get_family_maps _ (mkRegistry _) fid' _ _ Hmaps).
    rewrite dict_get_set_other
      by (intros Heq; apply Hne; exact Heq).
    reflexivity.
  - apply (has_maps_instances_of Hmaps').
  - apply trace_of_events. rewrite Hrun. cbn [snd log saved events w1].
    rewrite <- app_assoc. reflexivity.
Qed.

(** X18. The edit command refuses, with a message and nothing else, an
    object that the registry does not know (["Selected instance is not
    managed by Dynamic Blocks."]) and an instance whose family is no
    longer stored (["Family metadata missing."]): in both cases no
    prompt value is used and the document is exactly as before. *)
Theorem edit_refuses_unknown_instance_or_family (w : World) (id : Guid)
  (width height : option num) (fams insts : list (string * value)) :
  let run := cmd_edit_instance_parameters (Some id) width height in
  has_maps (stored_registry (doc w)) fams insts ->
  (dict_get insts (str_of_Guid id) = None ->
   run w
   = (Ok tt,
      log w [EvMessageBox
               "Selected instance is not managed by Dynamic Blocks."])) /\
  (forall info fid,
      dict_get insts (str_of_Guid id) = Some info ->
      py_truthy info = true ->
      py_getitem info "family_id" = Ok (JStr fid) ->
      dict_get fams fid = None ->
      run w = (Ok tt, log w [EvMessageBox "Family metadata missing."])).
Proof.
  intros run Hmaps. unfold run. clear run.
  split.
  - intros Hnone. unfold cmd_edit_instance_parameters.
    unfold bind at 1. rewrite new_registry_run.
    unfold bind at 1, lift at 1.
    rewrite (@get_instance_maps _ (mkRegistry _) (str_of_Guid id) fams insts
               Hmaps), Hnone.
    reflexivity.
  - intros info fid Hinfo Htruthy Hfid Hnone.
    unfold cmd_edit_instance_parameters.
    unfold bind at 1. rewrite new_registry_run.
    unfold bind at 1, lift at 1.
    rewrite (@get_instance_maps _ (mkRegistry _) (str_of_Guid id) fams insts
               Hmaps), Hinfo.
    rewrite Htruthy. cbn [negb].
    unfold bind at 1, lift at 1. rewrite Hfid. cbn [res_bind].
    rewrite (@get_family_maps _ (mkRegistry _) fid fams insts Hmaps), Hnone.
    reflexivity.
Qed.

Lemma replace_loses_object (w : World) (id : Guid) (o : RhinoObject)
  (index : nat) (xform : Transform) (family values : value) (n : string) :
  Objects_FindId (doc w) id = Some o ->
  Kind o = InstanceObject index xform ->
  IsLocked o = false ->
  cannot_issue (doc w) ->
  buildable family n -> values_ok values ->
  exists w',
    replace_instance_geometry (str_of_Guid id) family values w
    = (Ok PyFalse, w') /\
    Strings (doc w') = Strings (doc w) /\
    Objects_FindId (doc w') id = None /\
    (forall g, Objects_FindId (doc w) g = None ->
               Objects_FindId (doc w') g = None) /\
    exists evs, events w' = (events w ++ evs)%list /\ writes evs = 0%nat.
Proof.
  intros Hfind Hkind Hlock Hcannot Hbuild Hvals.
  destruct (replace_instance_geometry (str_of_Guid id) family values w)
    as [r w'] eqn:Hrun.
  destruct (@replace_instance_geometry_run _ _ id family values w w' r
              (Guid_of_str_of_Guid id) Hrun) as (evs & Hr & Hev & Hs & _).
  pose proof (replace_run_writes Hr) as Hwrites.
  inversion Hr as [ Hnone | (o' & Hfind' & Hkind')
                  | (o' & i' & x' & Hfind' & Hkind' & Hlock')
                  | o' i' x' e w1 evs1 _ _ _ _ _ _ _ Hbad
                  | o' i' x' idef w1 evs1 Hfind' Hkind' Hlock' _ Hobj
                  | o' i' x' idef new_id w1 evs1 _ _ _ Hnew Hfree Hnext];
    subst.
  - unfold instance_not_found in Hnone. congruence.
  - assert (o' = o) by congruence. subst. congruence.
  - assert (o' = o) by congruence. subst. congruence.
  - now destruct (Hbad n).
  - exists w'. repeat split; trivial.
    + rewrite (@FindId_same_objects _ _ _ _ Hobj).
      apply FindId_without_object_same.
    + intros g Hg. rewrite (@FindId_same_objects _ _ _ _ Hobj).
      now apply FindId_without_object_None.
    + eauto.
  - unfold cannot_issue in Hcannot. rewrite Hnext in Hcannot.
    destruct Hcannot; congruence.
Qed.

(** X19. The stored registry is well shaped and holds the picked
    instance and its family, the picked object is an instance object,
    and both prompts are answered by numbers that [float] accepts once
    rounded.  When the host refuses to delete the object (it is locked),
    or deletes it and then cannot issue an identity for its successor,
    the edit command reports ["Failed to update
    instance"] and returns without writing the registry: the stored
    registry still binds the old identity, although in the second case
    its object is gone from the document and none took its place. *)
Theorem edit_failure_keeps_stale_entry (w : World) (id : Guid)
  (width height : num) (o : RhinoObject) (index : nat) (xform : Transform)
  (info : value) (fid : string) (family : value) :
  let d := stored_registry (doc w) in
  let run := cmd_edit_instance_parameters (Some id) (Some width)
               (Some height) in
  registry_ok d ->
  in_float_range (py_round6 width) ->
  in_float_range (py_round6 height) ->
  dict_get (instances_of d) (str_of_Guid id) = Some info ->
  py_getitem info "family_id" = Ok (JStr fid) ->
  dict_get (families_of d) fid = Some family ->
  Objects_FindId (doc w) id = Some o ->
  Kind o = InstanceObject index xform ->
  IsLocked o = true \/ (IsLocked o = false /\ cannot_issue (doc w)) ->
  fst (run w) = Ok tt /\
  Strings (doc (snd (run w))) = Strings (doc w) /\
  dict_get (instances_of (stored_registry (doc (snd (run w)))))
    (str_of_Guid id) = Some info /\
  writes (trace run w) = 0%nat /\
  (exists evs,
      trace run w = (evs ++ [EvMessageBox "Failed to update instance"])%list) /\
  (IsLocked o = true -> doc (snd (run w)) = doc w) /\
  (IsLocked o = false -> Objects_FindId (doc (snd (run w))) id = None).
Proof.
  intros d run. subst d.
  intros Hok Hfw Hfh Hinst Hfid Hfam Hfind Hkind Hcase.
  destruct (registry_ok_maps Hok)
    as (fams & insts & Hmaps & _ & _ & Hfo & Hio).
  rewrite (has_maps_instances_of Hmaps) in Hinst.
  rewrite (has_maps_families_of Hmaps) in *.
  pose proof (@Forall_dict_get _ _ _ _ _ Hio Hinst) as [_ Hinfo].
  pose proof (@Forall_dict_get _ _ _ _ _ Hfo Hfam) as [_ Hfamily].
  cbn [snd] in Hinfo, Hfamily.
  destruct (family_value_ok_name Hfamily) as (n & Hbuild).
  set (v2 := JObj [("Width", JNum (py_round6 width));
                   ("Height", JNum (py_round6 height))]).
  assert (Hv2 : values_ok v2).
  { exists [("Width", JNum (py_round6 width));
            ("Height", JNum (py_round6 height))],
      (py_round6 width), (py_round6 height). repeat split; trivial. }
  assert (Hcur : exists v1 wd ht,
             py_getitem info "values" = Ok v1 /\
             (x <- py_getitem v1 "Width" ;; py_float x)%res = Ok wd /\
             (x <- py_getitem v1 "Height" ;; py_float x)%res = Ok ht).
  { destruct Hinfo as (fields & fid' & vals & -> & _ & Hvals & Hvok).
    destruct (values_ok_floats Hvok) as (wd & ht & Hwd & Hht).
    exists vals, wd, ht. cbn [py_getitem]. now rewrite Hvals. }
  destruct Hcur as (v1 & wd & ht & Hv1 & Hwd & Hht).
  assert (Hrep : exists w1 evs,
             replace_instance_geometry (str_of_Guid id) family v2 w
             = (Ok PyFalse, w1) /\
             Strings (doc w1) = Strings (doc w) /\
             events w1 = (events w ++ evs)%list /\ writes evs = 0%nat /\
             (IsLocked o = true -> doc w1 = doc w) /\
             (IsLocked o = false -> Objects_FindId (doc w1) id = None)).
  { destruct Hcase as [Hlock | [Hlock Hcannot]].
    - destruct (@replace_early_failure _ (str_of_Guid id) id family v2 w
                  (Guid_of_str_of_Guid id)) as [Hres Hdoc].
      { right. right. now exists o, index, xform. }
      destruct (replace_instance_geometry (str_of_Guid id) family v2 w)
        as [r w1] eqn:Hrun.
      destruct (@replace_instance_geometry_run _ _ id family v2 w w1 r
                  (Guid_of_str_of_Guid id) Hrun) as (evs & Hr & Hev & Hs & _).
      cbn [fst snd] in *. subst r.
      exists w1, evs. repeat split; trivial.
      + apply (replace_run_writes Hr).
      + congruence.
    - destruct (@replace_loses_object w id o index xform family v2 n Hfind Hkind
                  Hlock Hcannot Hbuild Hv2)
        as (w1 & Hrun & Hs & Hgone & _ & evs & Hev & Hwr).
      exists w1, evs. repeat split; trivial. congruence. }
  destruct Hrep as (w1 & evs & Hrep & Hs & Hev & Hwr & Hlocked & Hgone).
  assert (Hrun : run w
                 = (Ok tt, log w1 [EvMessageBox "Failed to update instance"])).
  { unfold run, cmd_edit_instance_parameters.
    unfold bind at 1. rewrite new_registry_run.
    unfold bind at 1, lift at 1.
    rewrite (@get_instance_run _ (mkRegistry (stored_registry (doc w))) _
               fams insts info Hmaps Hinst).
    rewrite (instance_value_ok_truthy Hinfo). cbn [negb].
    unfold bind at 1, lift at 1. rewrite Hfid. cbn [res_bind].
    rewrite (@get_family_run _ (mkRegistry (stored_registry (doc w))) fid
               fams insts family Hmaps Hfam).
    rewrite (family_value_ok_truthy Hfamily). cbn [negb].
    unfold bind at 1, lift at 1. rewrite Hv1.
    unfold bind at 1, lift at 1. rewrite Hwd.
    unfold bind at 1, lift at 1. rewrite Hht.
    unfold bind at 1. fold v2. rewrite Hrep. reflexivity. }
  assert (Htrace : trace run w
                   = (evs ++ [EvMessageBox "Failed to update instance"])%list).
  { apply trace_of_events. rewrite Hrun. cbn [snd log events].
    rewrite Hev, <- app_assoc. reflexivity. }
  rewrite Hrun, Htrace. cbn [fst snd doc log].
  repeat split; trivial.
  - assert (Hsame : stored_registry (doc w1) = stored_registry (doc w)).
    { unfold stored_registry, Strings_GetValue. now rewrite Hs. }
    now rewrite Hsame, (has_maps_instances_of Hmaps).
  - rewrite writes_app, Hwr. reflexivity.
  - eauto.
Qed.

End CommandLaws.

(** ** The synchronisation command *)

Section SyncLaws.
Context {E : Env}.
#[local] Abbreviation value := (json num).

(** One turn of the loop, by what it does to the instances mapping. *)
Lemma sync_one_shape (fid : string) (family : value) (n : string)
  (reg : DynamicBlockRegistry) (update : string * value) (w : World)
  (fams insts : list (string * value)) :
  has_maps (data reg) fams insts ->
  buildable family n ->
  instance_ok update ->
  exists reg' w' insts',
    sync_one fid family reg update w = (Ok reg', w') /\
    has_maps (data reg') fams insts' /\
    (exists used, NextIds (doc w) = (used ++ NextIds (doc w'))%list) /\
    (insts' = insts \/
     insts' = dict_pop insts (fst update) \/
     exists new_id vals,
       In new_id (NextIds (doc w)) /\ values_ok vals /\
       insts' = dict_set (dict_pop insts (fst update)) (str_of_Guid new_id)
                  (instance_entry (JStr fid) vals)).
Proof.
  intros Hmaps Hbuild [(g & Hk) (fields & fid' & vals & Hinfo & _ & Hv & Hvok)].
  destruct update as [k info]. cbn [fst snd] in *. subst k info.
  destruct (Objects_FindId (doc w) g) as [o|] eqn:Hfind.
  - destruct (@sync_one_live _ fid family n reg g (JObj fields) vals o w fams
                insts Hmaps Hfind) as
      (reg' & w' & insts' & evs & Hrun & Hmaps' & _ & Hnext & _ & _ & _
       & Hcase);
      trivial.
    { cbn [py_getitem]. now rewrite Hv. }
    exists reg', w', insts'. repeat split; trivial.
    destruct Hcase as [(_ & -> & _) | (new_id & _ & Hin & -> & _)]; [auto|].
    right. right. now exists new_id, vals.
  - destruct (@sync_one_prune _ fid family reg g (JObj fields) w fams insts
                Hmaps Hfind) as (reg' & Hrun & Hmaps').
    exists reg', (saved w (data reg')), (dict_pop insts (str_of_Guid g)).
    repeat split; trivial; [now exists []|auto].
Qed.

Lemma Forall_dict_set_key (P : string * value -> Prop)
  (l : list (string * value)) (k : string) (v : value) :
  P (k, v) -> Forall P l -> Forall P (dict_set l k v).
Proof.
  intros Hv. induction 1 as [|[k0 v0] l Hx Hl IH]; simpl.
  - now repeat constructor.
  - destruct (String.eqb_spec k0 k) as [->|_]; constructor; trivial.
Qed.

Lemma instance_entry_ok (g : Guid) (fid : string) (vals : value) :
  values_ok vals ->
  instance_ok (str_of_Guid g, instance_entry (JStr fid) vals).
Proof.
  intros Hv. split; [now exists g|].
  now exists [("family_id", JStr fid); ("values", vals)], fid, vals.
Qed.

(** The whole loop: the registry keeps its shape, and an entry that is
    neither processed nor overwritten by a new identity is kept. *)
Lemma sync_all_shape (fid : string) (family : value) (n : string)
  (updates : list (string * value)) :
  forall (reg : DynamicBlockRegistry) (w : World)
         (fams insts : list (string * value)),
    has_maps (data reg) fams insts ->
    buildable family n ->
    Forall instance_ok updates ->
    dict_wf insts -> Forall instance_ok insts ->
    exists reg' w' insts',
      sync_all fid family reg updates w = (Ok reg', w') /\
      has_maps (data reg') fams insts' /\
      dict_wf insts' /\ Forall instance_ok insts' /\
      forall k info,
        dict_get insts k = Some info ->
        ~ In k (map fst updates) ->
        (forall g, In g (NextIds (doc w)) -> k <> str_of_Guid g) ->
        dict_get insts' k = Some info.
Proof.
  induction updates as [|update updates IH];
    intros reg w fams insts Hmaps Hbuild Hok Hwf Hio.
  - exists reg, w, insts. repeat split; trivial.
  - inversion Hok as [|? ? Hupdate Hok']; subst.
    destruct (@sync_one_shape fid family n reg update w fams insts
                Hmaps Hbuild Hupdate)
      as (reg1 & w1 & insts1 & Hrun1 & Hmaps1 & (used & Hnext) & Hcase).
    assert (Hshape : dict_wf insts1 /\ Forall instance_ok insts1 /\
                     forall k, k <> fst update ->
                               (forall g, In g (NextIds (doc w)) ->
                                          k <> str_of_Guid g) ->
                               dict_get insts1 k = dict_get insts k).
    { destruct Hcase as [-> | [-> | (new_id & vals & Hin & Hv & ->)]].
      - auto.
      - repeat split.
        + now apply dict_wf_pop.
        + now apply Forall_dict_pop.
        + intros k Hne _. now apply dict_get_pop_other.
      - repeat split.
        + now apply dict_wf_set, dict_wf_pop.
        + apply Forall_dict_set_key.
          * now apply instance_entry_ok.
          * now apply Forall_dict_pop.
        + intros k Hne Hfresh.
          rewrite dict_get_set_other.
          * now apply dict_get_pop_other.
          * intros Heq. now apply (Hfresh new_id). }
    destruct Hshape as (Hwf1 & Hio1 & Hkeep1).
    destruct (IH reg1 w1 fams insts1 Hmaps1 Hbuild Hok' Hwf1 Hio1)
      as (reg2 & w2 & insts2 & Hrun2 & Hmaps2 & Hwf2 & Hio2 & Hkeep2).
    exists reg2, w2, insts2. repeat split; trivial.
    + cbn [sync_all]. unfold bind. now rewrite Hrun1.
    + intros k info Hk Hnot Hfresh. cbn [map] in Hnot.
      apply Hkeep2.
      * rewrite Hkeep1; trivial. intros Heq. apply Hnot. now left.
      * intros Hin. apply Hnot. now right.
      * intros g Hg. apply Hfresh. rewrite Hnext. apply in_or_app. now right.
Qed.


Lemma family_defaults_set (family : value) (a b : num) :
  family_value_ok family ->
  in_float_range a -> in_float_range b ->
  exists family',
    (f <- setitem_in family "parameters" "Width" (JNum a) ;;
     setitem_in f "parameters" "Height" (JNum b))%res = Ok family' /\
    family_value_ok family' /\
    py_getitem family' "name" = py_getitem family "name" /\
    py_getitem family' "family_type" = py_getitem family "family_type" /\
    (p <- py_getitem family' "parameters" ;; py_getitem p "Width")%res
    = Ok (JNum a) /\
    (p <- py_getitem family' "parameters" ;; py_getitem p "Height")%res
    = Ok (JNum b).
Proof.
  intros (fields & n & params & -> & Hn & Ht & Hp
          & (pf & wd & ht & -> & Hw & Hh & _)) Ha Hb.
  set (pf' := dict_set (dict_set pf "Width" (JNum a)) "Height" (JNum b)).
  exists (JObj (dict_set (dict_set fields "parameters"
                            (JObj (dict_set pf "Width" (JNum a))))
                  "parameters" (JObj pf'))).
  assert (Hw' : dict_get pf' "Width" = Some (JNum a)).
  { unfold pf'. rewrite dict_get_set_other by discriminate.
    apply dict_get_set_same. }
  assert (Hh' : dict_get pf' "Height" = Some (JNum b)).
  { unfold pf'. apply dict_get_set_same. }
  split; [|split; [|split; [|split; [|split]]]].
  - unfold setitem_in. cbn [py_getitem res_bind py_setitem]. rewrite Hp.
    cbn [res_bind py_setitem py_getitem].
    rewrite dict_get_set_same. reflexivity.
  - eexists _, n, (JObj pf'). split; [reflexivity|].
    rewrite !dict_get_set_other by discriminate.
    rewrite dict_get_set_same.
    repeat split; trivial. exists pf', a, b. repeat split; trivial.
  - cbn [py_getitem]. now rewrite !dict_get_set_other by discriminate.
  - cbn [py_getitem]. now rewrite !dict_get_set_other by discriminate.
  - cbn [py_getitem]. rewrite dict_get_set_same. cbn [res_bind py_getitem].
    now rewrite Hw'.
  - cbn [py_getitem]. rewrite dict_get_set_same. cbn [res_bind py_getitem].
    now rewrite Hh'.
Qed.

(** The command up to its batch phase, with what it changed so far. *)
Lemma cmd_sync_batch (w : World) (nm : string)
  (default_w default_h : num) (fid : string) (family : value)
  (fams insts : list (string * value)) :
  has_maps (stored_registry (doc w)) fams insts ->
  Forall family_ok fams ->
  find_family_by_name (mkRegistry (stored_registry (doc w))) nm
  = Ok (Some (fid, family)) ->
  nm <> "" ->
  exists family' d',
    cmd_sync_family_instances (Some nm) (Some default_w) (Some default_h) w
    = (updates <- lift (iter_instances_for_family (mkRegistry d') fid) ;;
       reg <- sync_all fid family' (mkRegistry d') updates ;;
       save reg ;;;
       Redraw ;;;
       MessageBox ("Family '" ++ nm ++ "' synchronized."))%cmd w /\
    has_maps d' (dict_set fams fid family') insts /\
    In (fid, family) fams /\
    (f <- setitem_in family "parameters" "Width"
            (JNum (py_round6 default_w)) ;;
     setitem_in f "parameters" "Height" (JNum (py_round6 default_h)))%res
    = Ok family'.
Proof.
  intros Hmaps Hfo Hfound Hnm.
  rewrite (@find_family_by_name_run _ (mkRegistry _) nm fams insts Hmaps)
    in Hfound.
  pose proof (find_family_in_In _ _ Hfound) as Hin.
  assert (Hfamily : family_value_ok family).
  { rewrite Forall_forall in Hfo. now destruct (Hfo _ Hin). }
  destruct (family_names_sorted Hfo) as (names & Hnames).
  destruct (@family_value_ok_defaults _ family (py_round6 default_w)
              (py_round6 default_h) Hfamily)
    as (wd & ht & family' & n & Hwd & Hht & Hset & Hb & Hb').
  destruct Hmaps as (top & Htop & Hf & Hi).
  exists family', (JObj (dict_set top "families"
                           (JObj (dict_set fams fid family')))).
  split; [|repeat split; trivial].
  - unfold cmd_sync_family_instances.
    unfold bind at 1. rewrite new_registry_run.
    unfold bind at 1, lift at 1. cbn [data]. rewrite Htop.
    cbn [py_get_default]. rewrite Hf.
    destruct fams as [|kv fams']; [contradiction|].
    cbn [py_truthy negb].
    unfold bind at 1, lift at 1. rewrite Hnames.
    destruct (String.eqb_spec nm "") as [|_]; [contradiction|].
    unfold bind at 1, lift at 1.
    rewrite <- Htop.
    rewrite (@find_family_by_name_run _ (mkRegistry _) nm (kv :: fams')
               insts (ex_intro _ top (conj Htop (conj Hf Hi)))), Hfound.
    rewrite (family_value_ok_truthy Hfamily). cbn [negb].
    unfold bind at 1, lift at 1. rewrite Hwd.
    unfold bind at 1, lift at 1. rewrite Hht.
    unfold bind at 1, lift at 1. rewrite Hset.
    unfold bind at 1, lift at 1. cbn [data]. rewrite Htop.
    unfold setitem_in. cbn [py_getitem]. rewrite Hf. cbn [res_bind py_setitem].
    reflexivity.
  - eexists. split; [reflexivity|]. split.
    + apply dict_get_set_same.
    + rewrite dict_get_set_other by discriminate. exact Hi.
Qed.

(** X20. From a well-shaped stored registry, a synchronisation that
    reaches its batch phase (a stored family chosen by name, both
    defaults given, numbers that [float] accepts once rounded) returns
    normally and stores the two new defaults, rounded to six decimals,
    in the chosen family's parameters, keeping the family's name and type and every other
    family as they were; the registry it stores is again well shaped,
    whatever happened to the instances' objects. *)
Theorem sync_stores_rounded_defaults (w : World) (nm : string)
  (default_w default_h : num) (fid : string) (family : value) :
  let d := stored_registry (doc w) in
  let run := cmd_sync_family_instances (Some nm) (Some default_w)
               (Some default_h) in
  registry_ok d ->
  in_float_range (py_round6 default_w) ->
  in_float_range (py_round6 default_h) ->
  find_family_by_name (mkRegistry d) nm = Ok (Some (fid, family)) ->
  nm <> "" ->
  exists d' family',
    fst (run w) = Ok tt /\
    stored_text (doc (snd (run w))) = Some (json_dumps d') /\
    registry_ok d' /\
    dict_get (families_of d') fid = Some family' /\
    py_getitem family' "name" = py_getitem family "name" /\
    py_getitem family' "family_type" = py_getitem family "family_type" /\
    (p <- py_getitem family' "parameters" ;; py_getitem p "Width")%res
    = Ok (JNum (py_round6 default_w)) /\
    (p <- py_getitem family' "parameters" ;; py_getitem p "Height")%res
    = Ok (JNum (py_round6 default_h)) /\
    forall fid', fid' <> fid ->
                 dict_get (families_of d') fid'
                 = dict_get (families_of d) fid'.
Proof.
  intros d run. subst d. intros Hok Hfw Hfh Hfound Hnm.
  destruct (registry_ok_maps Hok)
    as (fams & insts & Hmaps & Hwf & Hwi & Hfo & Hio).
  destruct (@cmd_sync_batch w nm default_w default_h fid family fams insts
              Hmaps Hfo Hfound Hnm)
    as (family' & d0 & Hrun & Hmaps0 & Hin & Hset).
  assert (Hfamily : family_ok (fid, family)).
  { rewrite Forall_forall in Hfo. now apply Hfo. }
  destruct Hfamily as [Hfid Hfamily]. cbn [fst snd] in Hfid, Hfamily.
  destruct (@family_defaults_set family (py_round6 default_w)
              (py_round6 default_h) Hfamily Hfw Hfh)
    as (family'' & Hset' & Hfamily' & Hname & Htype & Hw & Hh).
  assert (family'' = family') by congruence. subst family''.
  destruct (family_value_ok_name Hfamily') as (n & Hbuild).
  pose proof (@instances_of_family_returns _ insts fid Hio) as Hiter.
  assert (Hupd : Forall instance_ok (filter (bound_to fid) insts)).
  { rewrite Forall_forall in *. intros x Hx. apply filter_In in Hx.
    now apply Hio. }
  destruct (@sync_all_shape fid family' n (filter (bound_to fid) insts)
              (mkRegistry d0) w (dict_set fams fid family') insts
              Hmaps0 Hbuild Hupd Hwi Hio)
    as (reg' & w' & insts' & Hall & Hmaps' & Hwi' & Hio' & _).
  assert (Hrun' : run w
                  = (Ok tt,
                     log (saved w' (data reg'))
                       [EvRedraw;
                        EvMessageBox ("Family '" ++ nm ++ "' synchronized.")])).
  { unfold run. rewrite Hrun.
    unfold bind at 1, lift at 1.
    rewrite (@iter_instances_for_family_run _ (mkRegistry d0) fid _ _ Hmaps0).
    rewrite Hiter.
    unfold bind at 1. rewrite Hall.
    unfold bind at 1. rewrite save_run.
    unfold Redraw, MessageBox, bind, emit, log, saved.
    cbn [fst snd doc events uuid_count]. rewrite <- !app_assoc.
    reflexivity. }
  exists (data reg'), family'. rewrite Hrun'. cbn [fst snd doc log].
  rewrite (has_maps_families_of Hmaps'), (has_maps_families_of Hmaps).
  split; [reflexivity|]. split; [apply stored_text_saved|].
  split; [|split; [apply dict_get_set_same|]].
  - destruct Hmaps' as (top' & Hd' & Hf' & Hi').
    exists top', (dict_set fams fid family'), insts'.
    repeat split; trivial.
    + now apply dict_wf_set.
    + apply Forall_dict_set_key; trivial. now split.
  - repeat split; trivial.
    intros fid' Hne. now apply dict_get_set_other.
Qed.

(** X21. From a well-shaped stored registry, when the document does not
    issue an identity that the registry already holds, a synchronisation
    that reaches its batch phase (a stored family chosen by name, both
    defaults given) returns normally and leaves every instance entry of
    the other families exactly as it was. *)
Theorem sync_keeps_other_families_instances (w : World) (nm : string)
  (default_w default_h : num) (fid : string) (family : value) :
  let d := stored_registry (doc w) in
  let run := cmd_sync_family_instances (Some nm) (Some default_w)
               (Some default_h) in
  registry_ok d ->
  find_family_by_name (mkRegistry d) nm = Ok (Some (fid, family)) ->
  nm <> "" ->
  (forall g, In g (NextIds (doc w)) ->
             dict_get (instances_of d) (str_of_Guid g) = None) ->
  exists d',
    fst (run w) = Ok tt /\
    stored_text (doc (snd (run w))) = Some (json_dumps d') /\
    forall k info,
      dict_get (instances_of d) k = Some info ->
      bound_to fid (k, info) = false ->
      dict_get (instances_of d') k = Some info.
Proof.
  intros d run. subst d. intros Hok Hfound Hnm Hfresh.
  destruct (registry_ok_maps Hok)
    as (fams & insts & Hmaps & Hwf & Hwi & Hfo & Hio).
  rewrite (has_maps_instances_of Hmaps) in Hfresh.
  destruct (@cmd_sync_batch w nm default_w default_h fid family fams insts
              Hmaps Hfo Hfound Hnm)
    as (family' & d0 & Hrun & Hmaps0 & Hin & Hset).
  assert (Hfamily : family_ok (fid, family)).
  { rewrite Forall_forall in Hfo. now apply Hfo. }
  destruct Hfamily as [Hfid Hfamily]. cbn [fst snd] in Hfid, Hfamily.
  destruct (@family_value_ok_defaults _ family (py_round6 default_w)
              (py_round6 default_h) Hfamily)
    as (_ & _ & family'' & n & _ & _ & Hset' & _ & Hbuild).
  assert (family'' = family') by congruence. subst family''.
  pose proof (@instances_of_family_returns _ insts fid Hio) as Hiter.
  assert (Hupd : Forall instance_ok (filter (bound_to fid) insts)).
  { rewrite Forall_forall in *. intros x Hx. apply filter_In in Hx.
    now apply Hio. }
  destruct (@sync_all_shape fid family' n (filter (bound_to fid) insts)
              (mkRegistry d0) w (dict_set fams fid family') insts
              Hmaps0 Hbuild Hupd Hwi Hio)
    as (reg' & w' & insts' & Hall & Hmaps' & _ & _ & Hkeep).
  assert (Hrun' : run w
                  = (Ok tt,
                     log (saved w' (data reg'))
                       [EvRedraw;
                        EvMessageBox ("Family '" ++ nm ++ "' synchronized.")])).
  { unfold run. rewrite Hrun.
    unfold bind at 1, lift at 1.
    rewrite (@iter_instances_for_family_run _ (mkRegistry d0) fid _ _ Hmaps0).
    rewrite Hiter.
    unfold bind at 1. rewrite Hall.
    unfold bind at 1. rewrite save_run.
    unfold Redraw, MessageBox, bind, emit, log, saved.
    cbn [fst snd doc events uuid_count]. rewrite <- !app_assoc.
    reflexivity. }
  exists (data reg'). rewrite Hrun'. cbn [fst snd doc log].
  rewrite (has_maps_instances_of Hmaps'), (has_maps_instances_of Hmaps).
  split; [reflexivity|]. split; [apply stored_text_saved|].
  intros k info Hk Hother. apply Hkeep; trivial.
  - intros Hink. apply in_map_iff in Hink as ([k' info'] & Hk' & Hin').
    cbn [fst] in Hk'. subst k'. apply filter_In in Hin' as [Hin' Hbound].
    assert (info' = info).
    { apply dict_get_of_In in Hin'; [congruence|exact Hwi]. }
    subst info'. congruence.
  - intros g Hg Heq. subst k. rewrite (Hfresh g Hg) in Hk. discriminate.
Qed.

End SyncLaws.

(** ** Prompts, cancelled or not, and the insert command *)

Section PromptLaws.
Context {E : Env}.
#[local] Abbreviation value := (json num).
Variable Translation : num -> num -> num -> Transform.

(** X22. With an empty families mapping, as in a document that never
    stored a registry, the synchronisation and insert commands only show
    their message (["No families available."], ["No families found.
    Create one first."]) whatever the answers would be: nothing is
    written and the document is unchanged. *)
Theorem no_families_only_a_message (w : World) (name_answer : option string)
  (a b : option num) (pt : option Point3d)
  (insts : list (string * value)) :
  has_maps (stored_registry (doc w)) [] insts ->
  cmd_sync_family_instances name_answer a b w
  = (Ok tt, log w [EvMessageBox "No families available."]) /\
  cmd_insert_instance Translation name_answer a b pt w
  = (Ok tt, log w [EvMessageBox "No families found. Create one first."]).
Proof.
  intros (top & Htop & Hf & Hi). split.
  - unfold cmd_sync_family_instances.
    unfold bind at 1. rewrite new_registry_run.
    unfold bind at 1, lift at 1. cbn [data]. rewrite Htop.
    cbn [py_get_default]. rewrite Hf. reflexivity.
  - unfold cmd_insert_instance.
    unfold bind at 1. rewrite new_registry_run.
    unfold bind at 1, lift at 1. cbn [data]. rewrite Htop.
    cbn [py_get_default]. rewrite Hf. reflexivity.
Qed.

Lemma family_ok_truthy_floats (fams : list (string * value)) (fid : string)
  (family : value) :
  Forall family_ok fams -> In (fid, family) fams ->
  py_truthy family = true /\
  exists wd ht,
    (p <- py_getitem family "parameters" ;;
     x <- py_getitem p "Width" ;; py_float x)%res = Ok wd /\
    (p <- py_getitem family "parameters" ;;
     x <- py_getitem p "Height" ;; py_float x)%res = Ok ht.
Proof.
  intros Hfo Hin. rewrite Forall_forall in Hfo.
  destruct (Hfo _ Hin) as [_ Hfamily]. cbn [snd] in Hfamily.
  split; [now apply family_value_ok_truthy|].
  destruct (@family_value_ok_defaults _ family (num_of_Z 0) (num_of_Z 0)
              Hfamily) as (wd & ht & _ & _ & Hwd & Hht & _).
  now exists wd, ht.
Qed.

(** X23. On a well-shaped stored registry with at least one family,
    whichever prompt of the synchronisation command is cancelled, and
    also when the chosen name matches no family, the command returns
    with no effect at all: no event, no write, the same document; the family's defaults are only changed once both
    numbers were given. *)
Theorem sync_cancel_has_no_effect (w : World) (name_answer : option string)
  (default_w default_h : option num) :
  let d := stored_registry (doc w) in
  registry_ok d ->
  families_of d <> [] ->
  name_answer = None \/ name_answer = Some "" \/
  (exists nm, name_answer = Some nm /\
              find_family_by_name (mkRegistry d) nm = Ok None) \/
  default_w = None \/ default_h = None ->
  cmd_sync_family_instances name_answer default_w default_h w = (Ok tt, w).
Proof.
  intros d. subst d. intros Hok Hnonempty Hcancel.
  destruct (registry_ok_maps Hok)
    as (fams & insts & Hmaps & _ & _ & Hfo & _).
  rewrite (has_maps_families_of Hmaps) in Hnonempty.
  destruct (family_names_sorted Hfo) as (names & Hnames).
  pose proof Hmaps as (top & Htop & Hf & Hi).
  unfold cmd_sync_family_instances.
  unfold bind at 1. rewrite new_registry_run.
  unfold bind at 1, lift at 1. cbn [data]. rewrite Htop.
  cbn [py_get_default]. rewrite Hf.
  destruct fams as [|kv fams']; [contradiction|].
  cbn [py_truthy negb].
  unfold bind at 1, lift at 1. rewrite Hnames.
  destruct name_answer as [nm|]; [|reflexivity].
  destruct (String.eqb_spec nm "") as [->|Hnm]; [reflexivity|].
  unfold bind at 1, lift at 1. rewrite <- Htop.
  destruct (@find_family_in_total _ (kv :: fams') nm
              (family_ok_has_name Hfo)) as (r & Hr).
  rewrite (@find_family_by_name_run _ (mkRegistry _) nm (kv :: fams') insts
             Hmaps) in *.
  rewrite Hr in *.
  destruct r as [[fid family]|]; [|reflexivity].
  destruct (@family_ok_truthy_floats (kv :: fams') fid family Hfo
              (find_family_in_In _ _ Hr))
    as (Htruthy & wd & ht & Hwd & Hht).
  rewrite Htruthy. cbn [negb].
  unfold bind at 1, lift at 1. rewrite Hwd.
  destruct default_w as [dw|]; [|reflexivity].
  unfold bind at 1, lift at 1. rewrite Hht.
  destruct default_h as [dh|]; [|reflexivity].
  exfalso.
  destruct Hcancel as [H|[H|[(nm' & H & Hnone)|[H|H]]]];
    try discriminate; [congruence|].
  injection H as <-.
  rewrite (@find_family_by_name_run _ (mkRegistry _) nm (kv :: fams') insts
             Hmaps) in Hnone.
  congruence.
Qed.

(** X24. On a well-shaped stored registry with at least one family,
    whichever prompt of the insert command is cancelled (name, width,
    height or insertion point), and also when the chosen name matches no
    family, the command returns with no effect at all: until the point
    is given nothing is looked up in the definition table, nothing is
    created and nothing is written. *)
Theorem insert_cancel_has_no_effect (w : World) (name_answer : option string)
  (width height : option num) (pt : option Point3d) :
  let d := stored_registry (doc w) in
  registry_ok d ->
  families_of d <> [] ->
  name_answer = None \/ name_answer = Some "" \/
  (exists nm, name_answer = Some nm /\
              find_family_by_name (mkRegistry d) nm = Ok None) \/
  width = None \/ height = None \/ pt = None ->
  cmd_insert_instance Translation name_answer width height pt w = (Ok tt, w).
Proof.
  intros d. subst d. intros Hok Hnonempty Hcancel.
  destruct (registry_ok_maps Hok)
    as (fams & insts & Hmaps & _ & _ & Hfo & _).
  rewrite (has_maps_families_of Hmaps) in Hnonempty.
  destruct (family_names_sorted Hfo) as (names & Hnames).
  pose proof Hmaps as (top & Htop & Hf & Hi).
  unfold cmd_insert_instance.
  unfold bind at 1. rewrite new_registry_run.
  unfold bind at 1, lift at 1. cbn [data]. rewrite Htop.
  cbn [py_get_default]. rewrite Hf.
  destruct fams as [|kv fams']; [contradiction|].
  cbn [py_truthy negb].
  unfold bind at 1, lift at 1. rewrite Hnames.
  destruct name_answer as [nm|]; [|reflexivity].
  destruct (String.eqb_spec nm "") as [->|Hnm]; [reflexivity|].
  unfold bind at 1, lift at 1. rewrite <- Htop.
  destruct (@find_family_in_total _ (kv :: fams') nm
              (family_ok_has_name Hfo)) as (r & Hr).
  rewrite (@find_family_by_name_run _ (mkRegistry _) nm (kv :: fams') insts
             Hmaps) in *.
  rewrite Hr in *.
  destruct r as [[fid family]|]; [|reflexivity].
  destruct (@family_ok_truthy_floats (kv :: fams') fid family Hfo
              (find_family_in_In _ _ Hr))
    as (Htruthy & wd & ht & Hwd & Hht).
  rewrite Htruthy. cbn [negb].
  unfold bind at 1, lift at 1. rewrite Hwd.
  destruct width as [wv|]; [|reflexivity].
  unfold bind at 1, lift at 1. rewrite Hht.
  destruct height as [hv|]; [|reflexivity].
  destruct pt as [p|]; [|reflexivity].
  exfalso.
  destruct Hcancel as [H|[H|[(nm' & H & Hnone)|[H|[H|H]]]]];
    try discriminate; [congruence|].
  injection H as <-.
  rewrite (@find_family_by_name_run _ (mkRegistry _) nm (kv :: fams') insts
             Hmaps) in Hnone.
  congruence.
Qed.

(** X25. On a well-shaped stored registry, cancelling the pick, or
    either number prompt for a registered instance of a stored family,
    makes the edit command return with no effect at all: the object is only deleted once both numbers were
    given. *)
Theorem edit_cancel_has_no_effect (w : World) (pick : option Guid)
  (width height : option num) :
  let d := stored_registry (doc w) in
  registry_ok d ->
  (forall id, pick = Some id ->
     exists info fid family,
       dict_get (instances_of d) (str_of_Guid id) = Some info /\
       py_getitem info "family_id" = Ok (JStr fid) /\
       dict_get (families_of d) fid = Some family) ->
  pick = None \/ width = None \/ height = None ->
  cmd_edit_instance_parameters pick width height w = (Ok tt, w).
Proof.
  intros d. subst d. intros Hok Hpick Hcancel.
  unfold cmd_edit_instance_parameters.
  unfold bind at 1. rewrite new_registry_run.
  destruct pick as [id|]; [|reflexivity].
  destruct (Hpick id eq_refl) as (info & fid & family & Hinst & Hfid & Hfam).
  destruct (registry_ok_maps Hok)
    as (fams & insts & Hmaps & _ & _ & Hfo & Hio).
  rewrite (has_maps_instances_of Hmaps) in Hinst.
  rewrite (has_maps_families_of Hmaps) in Hfam.
  pose proof (@Forall_dict_get _ _ _ _ _ Hio Hinst) as [_ Hinfo].
  pose proof (@Forall_dict_get _ _ _ _ _ Hfo Hfam) as [_ Hfamily].
  cbn [snd] in Hinfo, Hfamily.
  assert (Hcur : exists v1 wd ht,
             py_getitem info "values" = Ok v1 /\
             (x <- py_getitem v1 "Width" ;; py_float x)%res = Ok wd /\
             (x <- py_getitem v1 "Height" ;; py_float x)%res = Ok ht).
  { destruct Hinfo as (fields & fid' & vals & -> & _ & Hvals & Hvok).
    destruct (values_ok_floats Hvok) as (wd & ht & Hwd & Hht).
    exists vals, wd, ht. cbn [py_getitem]. now rewrite Hvals. }
  destruct Hcur as (v1 & wd & ht & Hv1 & Hwd & Hht).
  unfold bind at 1, lift at 1.
  rewrite (@get_instance_run _ (mkRegistry (stored_registry (doc w))) _
             fams insts info Hmaps Hinst).
  rewrite (instance_value_ok_truthy Hinfo). cbn [negb].
  unfold bind at 1, lift at 1. rewrite Hfid. cbn [res_bind].
  rewrite (@get_family_run _ (mkRegistry (stored_registry (doc w))) fid
             fams insts family Hmaps Hfam).
  rewrite (family_value_ok_truthy Hfamily). cbn [negb].
  unfold bind at 1, lift at 1. rewrite Hv1.
  unfold bind at 1, lift at 1. rewrite Hwd.
  destruct width as [wv|]; [|reflexivity].
  unfold bind at 1, lift at 1. rewrite Hht.
  destruct height as [hv|]; [|reflexivity].
  exfalso. destruct Hcancel as [H|[H|H]]; discriminate.
Qed.

End PromptLaws.

(** ** Placing an instance *)

Section InsertLaws.
Context {E : Env}.
#[local] Abbreviation value := (json num).
Variable Translation : num -> num -> num -> Transform.

Lemma id_in_use_same_objects (d d' : RhinoDoc) (g : Guid) :
  Objects d' = Objects d -> id_in_use d' g = id_in_use d g.
Proof. unfold id_in_use. now intros ->. Qed.

Lemma AddInstanceObject_cannot_issue (d : RhinoDoc) (index : nat)
  (xform : Transform) (attr : ObjectAttributes) :
  cannot_issue d ->
  fst (Objects_AddInstanceObject d index xform attr) = Guid_Empty.
Proof.
  unfold cannot_issue, Objects_AddInstanceObject.
  destruct (NextIds d) as [|g rest]; trivial.
  intros [-> | ->]; cbn [N.eqb Guid_Empty orb]; trivial.
  now rewrite orb_true_r.
Qed.

(** The insert command up to the creation of the object. *)
Lemma cmd_insert_reaches_creation (w : World) (nm : string)
  (width height : num) (pt : Point3d) (fid : string) (family : value)
  (fams insts : list (string * value)) :
  let values := JObj [("Width", JNum (py_round6 width));
                      ("Height", JNum (py_round6 height))] in
  has_maps (stored_registry (doc w)) fams insts ->
  Forall family_ok fams ->
  in_float_range (py_round6 width) ->
  in_float_range (py_round6 height) ->
  find_family_by_name (mkRegistry (stored_registry (doc w))) nm
  = Ok (Some (fid, family)) ->
  nm <> "" ->
  exists idef_index w1 evs nm_def,
    ensure_definition family values w = (Ok idef_index, w1) /\
    cmd_insert_instance Translation (Some nm) (Some width) (Some height)
      (Some pt) w
    = (obj_id <- AddInstanceObject idef_index
                   (Translation (PX pt) (PY pt) (PZ pt)) default_attributes ;;
       if N.eqb obj_id Guid_Empty then
         MessageBox "Failed to create instance"
       else
         add_instance (mkRegistry (stored_registry (doc w)))
           (str_of_Guid obj_id) (JStr fid) values ;;;
         Redraw)%cmd w1 /\
    Strings (doc w1) = Strings (doc w) /\
    Objects (doc w1) = Objects (doc w) /\
    NextIds (doc w1) = NextIds (doc w) /\
    (idef_index < length (InstanceDefinitions (doc w1)))%nat /\
    events w1 = (events w ++ evs)%list /\ writes evs = 0%nat /\
    (n <- py_getitem family "name" ;; definition_name n values)%res
    = Ok nm_def /\
    InstanceDefinitions_Find (doc w1) nm_def = Some idef_index /\
    (forall nm' i, InstanceDefinitions_Find (doc w) nm' = Some i ->
                   InstanceDefinitions_Find (doc w1) nm' = Some i).
Proof.
  intros values Hmaps Hfo Hfw Hfh Hfound Hnm.
  pose proof Hfound as Hfound'.
  rewrite (@find_family_by_name_run _ (mkRegistry _) nm fams insts Hmaps)
    in Hfound'.
  pose proof (find_family_in_In _ _ Hfound') as Hin.
  assert (Hfamily : family_value_ok family).
  { rewrite Forall_forall in Hfo. now destruct (Hfo _ Hin). }
  destruct (family_names_sorted Hfo) as (names & Hnames).
  destruct (@family_value_ok_defaults _ family (num_of_Z 0) (num_of_Z 0)
              Hfamily) as (wd & ht & _ & n & Hwd & Hht & _ & Hbuild & _).
  assert (Hvalues : values_ok values).
  { exists [("Width", JNum (py_round6 width));
            ("Height", JNum (py_round6 height))],
      (py_round6 width), (py_round6 height). repeat split; trivial. }
  destruct (@ensure_definition_returns _ family values n w Hbuild Hvalues)
    as (idef_index & w1 & Hens).
  destruct (ensure_definition_effects _ _ _ Hens)
    as (Hs & Ho & Hn & _ & Hidx & evs & Hev & Hkinds & _).
  destruct (ensure_definition_found _ _ _ Hens)
    as (nm_def & Hnm_def & Hfind_def & Hold).
  exists idef_index, w1, evs, nm_def.
  split; [exact Hens|]. split.
  - pose proof Hmaps as (top & Htop & Hf & Hi).
    unfold cmd_insert_instance.
    unfold bind at 1. rewrite new_registry_run.
    unfold bind at 1, lift at 1. cbn [data]. rewrite Htop.
    cbn [py_get_default]. rewrite Hf.
    destruct fams as [|kv fams']; [contradiction|].
    cbn [py_truthy negb].
    unfold bind at 1, lift at 1. rewrite Hnames.
    destruct (String.eqb_spec nm "") as [|_]; [contradiction|].
    unfold bind at 1, lift at 1. rewrite <- Htop. rewrite Hfound.
    rewrite (family_value_ok_truthy Hfamily). cbn [negb].
    unfold bind at 1, lift at 1. rewrite Hwd.
    unfold bind at 1, lift at 1. rewrite Hht.
    unfold bind at 1. fold values. rewrite Hens. reflexivity.
  - repeat split; trivial.
    + now apply Hidx.
    + eapply writes_definition_events. exact Hkinds.
Qed.

(** X26. For a well-shaped stored registry, a stored family chosen by
    name, a width and a height that [float] accepts once rounded, and a
    document that issues a fresh identity, the insert command places one
    instance object at the translation to the picked point, with the
    document's default attributes and the definition named from the
    rounded values, and binds its identity in the registry to the family
    and those values; families, other instance entries and the objects
    already in the document are untouched, and the registry is written
    once. *)
Theorem insert_places_instance (w : World) (nm : string)
  (width height : num) (pt : Point3d) (fid : string) (family : value)
  (new_id : Guid) (rest : list Guid) :
  let d := stored_registry (doc w) in
  let run := cmd_insert_instance Translation (Some nm) (Some width)
               (Some height) (Some pt) in
  let values := JObj [("Width", JNum (py_round6 width));
                      ("Height", JNum (py_round6 height))] in
  registry_ok d ->
  in_float_range (py_round6 width) ->
  in_float_range (py_round6 height) ->
  find_family_by_name (mkRegistry d) nm = Ok (Some (fid, family)) ->
  nm <> "" ->
  NextIds (doc w) = new_id :: rest ->
  new_id <> Guid_Empty ->
  id_in_use (doc w) new_id = false ->
  exists d' idef_index nm_def,
    fst (run w) = Ok tt /\
    Objects_FindId (doc (snd (run w))) new_id
    = Some (mkRhinoObject new_id
              (InstanceObject idef_index
                 (Translation (PX pt) (PY pt) (PZ pt)))
              default_attributes false false) /\
    (n <- py_getitem family "name" ;; definition_name n values)%res
    = Ok nm_def /\
    InstanceDefinitions_Find (doc (snd (run w))) nm_def = Some idef_index /\
    (forall g o, Objects_FindId (doc w) g = Some o ->
                 Objects_FindId (doc (snd (run w))) g = Some o) /\
    stored_text (doc (snd (run w))) = Some (json_dumps d') /\
    families_of d' = families_of d /\
    dict_get (instances_of d') (str_of_Guid new_id)
    = Some (instance_entry (JStr fid) values) /\
    (forall k, k <> str_of_Guid new_id ->
               dict_get (instances_of d') k = dict_get (instances_of d) k) /\
    writes (trace run w) = 1%nat.
Proof.
  intros d run values. subst d.
  intros Hok Hfw Hfh Hfound Hnm Hnext Hnew Hfree.
  destruct (registry_ok_maps Hok)
    as (fams & insts & Hmaps & _ & _ & Hfo & _).
  destruct (@cmd_insert_reaches_creation w nm width height pt fid family
              fams insts Hmaps Hfo Hfw Hfh Hfound Hnm)
    as (idef_index & w1 & evs & nm_def & Hens & Hrun & Hs & Ho & Hn & Hidx
        & Hev & Hwr & Hnm_def & Hfind_def & _).
  fold values in Hens, Hrun, Hnm_def.
  set (xform := Translation (PX pt) (PY pt) (PZ pt)) in *.
  set (created := mkRhinoObject new_id (InstanceObject idef_index xform)
                    default_attributes false false).
  set (d2 := mkRhinoDoc (Strings (doc w1)) (InstanceDefinitions (doc w1))
               (Objects (doc w1) ++ [created])%list rest).
  assert (Hadd : Objects_AddInstanceObject (doc w1) idef_index xform
                   default_attributes = (new_id, d2)).
  { apply AddInstanceObject_succeeds; trivial.
    - now rewrite Hn.
    - now rewrite (@id_in_use_same_objects _ _ _ Ho). }
  set (w2 := mkWorld d2 (uuid_count w1)
               (events w1 ++ [EvAddInstanceObject idef_index new_id])%list).
  destruct (@add_instance_run _ (mkRegistry (stored_registry (doc w)))
              (str_of_Guid new_id) (JStr fid) values w2 fams insts Hmaps)
    as (reg' & Hreg & Hmaps').
  assert (Hrun' : run w = (Ok tt, log (saved w2 (data reg')) [EvRedraw])).
  { unfold run. rewrite Hrun.
    unfold bind at 1, AddInstanceObject, bind, get_doc, put_doc, emit, ret.
    cbn [fst snd doc events uuid_count]. rewrite Hadd.
    cbn [fst snd doc events uuid_count].
    destruct (N.eqb_spec new_id Guid_Empty) as [|_]; [contradiction|].
    fold w2. rewrite Hreg. reflexivity. }
  exists (data reg'), idef_index, nm_def.
  rewrite (@trace_of_events _ _ run w
             (evs ++ [EvAddInstanceObject idef_index new_id;
                      EvSetString STORE_SECTION STORE_KEY
                        (json_dumps (data reg'));
                      EvRedraw])%list).
  2:{ rewrite Hrun'. cbn [snd log saved events w2]. rewrite Hev.
      rewrite <- !app_assoc. reflexivity. }
  rewrite Hrun'. cbn [fst snd doc log saved].
  rewrite (has_maps_families_of Hmaps'), (has_maps_instances_of Hmaps'),
    (has_maps_families_of Hmaps), (has_maps_instances_of Hmaps).
  split; [reflexivity|]. split.
  { unfold Objects_FindId, Strings_SetString. cbn [doc Objects w2 d2].
    rewrite FindId_None_app.
    - cbn [find created Id IsDeleted]. now rewrite N.eqb_refl.
    - apply id_free_FindId. now rewrite (@id_in_use_same_objects _ _ _ Ho). }
  split; [exact Hnm_def|]. split; [exact Hfind_def|]. split.
  { intros g o Hg.
    apply FindId_app_found with (d := doc w1) (more := [created]);
      [reflexivity|].
    now rewrite (@FindId_same_objects _ _ _ _ Ho). }
  split; [apply GetValue_SetString|]. split; [reflexivity|]. split.
  { apply dict_get_set_same. }
  split.
  { intros k Hne. now apply dict_get_set_other. }
  rewrite writes_app, Hwr. reflexivity.
Qed.

(** X27. For a well-shaped stored registry, a stored family chosen by
    name, and a width and a height that [float] accepts once rounded:
    when the document cannot issue an identity, the insert command
    reports ["Failed to create instance"] and returns without writing
    the registry and without any new object; the definition it resolved
    for the values stays in the document's table all the same. *)
Theorem insert_failure_leaves_definition (w : World) (nm : string)
  (width height : num) (pt : Point3d) (fid : string) (family : value) :
  let d := stored_registry (doc w) in
  let run := cmd_insert_instance Translation (Some nm) (Some width)
               (Some height) (Some pt) in
  let values := JObj [("Width", JNum (py_round6 width));
                      ("Height", JNum (py_round6 height))] in
  registry_ok d ->
  in_float_range (py_round6 width) ->
  in_float_range (py_round6 height) ->
  find_family_by_name (mkRegistry d) nm = Ok (Some (fid, family)) ->
  nm <> "" ->
  cannot_issue (doc w) ->
  exists idef_index nm_def evs,
    fst (run w) = Ok tt /\
    Strings (doc (snd (run w))) = Strings (doc w) /\
    Objects (doc (snd (run w))) = Objects (doc w) /\
    (n <- py_getitem family "name" ;; definition_name n values)%res
    = Ok nm_def /\
    InstanceDefinitions_Find (doc (snd (run w))) nm_def = Some idef_index /\
    trace run w
    = (evs ++ [EvAddInstanceObject idef_index Guid_Empty;
               EvMessageBox "Failed to create instance"])%list /\
    writes (trace run w) = 0%nat.
Proof.
  intros d run values. subst d.
  intros Hok Hfw Hfh Hfound Hnm Hcannot.
  destruct (registry_ok_maps Hok)
    as (fams & insts & Hmaps & _ & _ & Hfo & _).
  destruct (@cmd_insert_reaches_creation w nm width height pt fid family
              fams insts Hmaps Hfo Hfw Hfh Hfound Hnm)
    as (idef_index & w1 & evs & nm_def & Hens & Hrun & Hs & Ho & Hn & Hidx
        & Hev & Hwr & Hnm_def & Hfind_def & _).
  fold values in Hens, Hrun, Hnm_def.
  set (xform := Translation (PX pt) (PY pt) (PZ pt)) in *.
  assert (Hcannot1 : cannot_issue (doc w1)).
  { unfold cannot_issue in *. rewrite Hn.
    destruct (NextIds (doc w)) as [|g l]; trivial.
    now rewrite (@id_in_use_same_objects _ _ _ Ho). }
  destruct (Objects_AddInstanceObject (doc w1) idef_index xform
              default_attributes) as [g d2] eqn:Hadd.
  pose proof (@AddInstanceObject_cannot_issue (doc w1) idef_index xform
                default_attributes Hcannot1) as Hg.
  rewrite Hadd in Hg. cbn [fst] in Hg. subst g.
  destruct (AddInstanceObject_failed _ _ _ _ Hadd) as (Hs2 & Hd2 & Ho2 & _).
  assert (Hrun' : run w
                  = (Ok tt,
                     mkWorld d2 (uuid_count w1)
                       (events w1
                          ++ [EvAddInstanceObject idef_index Guid_Empty;
                              EvMessageBox "Failed to create instance"])%list)).
  { unfold run. rewrite Hrun.
    unfold bind at 1, AddInstanceObject, bind, get_doc, put_doc, emit, ret.
    cbn [fst snd doc events uuid_count]. rewrite Hadd.
    cbn [fst snd doc events uuid_count N.eqb Guid_Empty].
    unfold MessageBox, emit. cbn [doc events uuid_count].
    rewrite <- app_assoc. reflexivity. }
  exists idef_index, nm_def, evs.
  rewrite (@trace_of_events _ _ run w
             (evs ++ [EvAddInstanceObject idef_index Guid_Empty;
                      EvMessageBox "Failed to create instance"])%list).
  2:{ rewrite Hrun'. cbn [snd events]. rewrite Hev.
      rewrite <- !app_assoc. reflexivity. }
  rewrite Hrun'. cbn [fst snd doc].
  repeat split; trivial.
  - congruence.
  - congruence.
  - unfold InstanceDefinitions_Find in *. now rewrite Hd2.
  - rewrite writes_app, Hwr. reflexivity.
Qed.

End InsertLaws.

(** ** Family names stay unique *)

Section NameUniqueness.
Context {E : Env}.
#[local] Abbreviation value := (json num).

Lemma name_key_matches (nm : string) (entry : string * value) :
  has_name entry -> name_key entry = lower nm <-> name_matches nm entry.
Proof.
  intros (n & Hn). unfold name_key, name_matches. rewrite Hn. split.
  - intros H. now exists n.
  - intros (n' & [= <-] & H). exact H.
Qed.

Lemma names_unique_set (fams : list (string * value)) (fid : string)
  (family : value) :
  NoDup (map name_key fams) ->
  ~ In (name_key (fid, family)) (map name_key fams) ->
  NoDup (map name_key (dict_set fams fid family)).
Proof.
  induction fams as [|[k f] fams IH]; intros Hnd Hnew.
  - repeat constructor. intros [].
  - cbn [dict_set]. cbn [map] in Hnd, Hnew.
    inversion Hnd as [|? ? Hhead Htail]; subst.
    destruct (String.eqb k fid).
    + cbn [map]. constructor; trivial.
      intros Hin. apply Hnew. right.
      replace (name_key (k, family)) with (name_key (fid, family)) in Hin
        by reflexivity.
      exact Hin.
    + cbn [map]. constructor.
      * intros Hin.
        assert (Hsub : forall x, In x (map name_key (dict_set fams fid family))
                                 -> In x (map name_key fams)
                                    \/ x = name_key (fid, family)).
        { clear. induction fams as [|[k' f'] fams IH]; cbn [dict_set map].
          - intros x [<-|[]]. now right.
          - destruct (String.eqb k' fid); cbn [map]; intros x [<-|Hx].
            + now right.
            + left. now right.
            + left. now left.
            + destruct (IH x Hx); [left; now right|now right]. }
        destruct (Hsub _ Hin) as [Hold|Heq]; [contradiction|].
        apply Hnew. left. now symmetry.
      * apply IH; trivial. intros Hin. apply Hnew. now right.
Qed.

(** X28. The create command keeps the registry well shaped and its
    family names unique up to letter case (no two equal once lowered by
    [str.lower]): from a well-shaped stored registry with unique names,
    when the next [uuid4] text is not empty and the defaults given are
    numbers within float range, whatever is answered at the prompts, the
    command returns normally and either leaves the document as it was or
    stores a registry that is again well shaped with unique names. *)
Theorem create_family_keeps_names_unique (w : World)
  (name_answer : option string) (default_w default_h : option num) :
  let d := stored_registry (doc w) in
  let run := cmd_create_rectangle_family name_answer default_w default_h in
  registry_ok d ->
  names_unique (families_of d) ->
  uuid4_nth (uuid_count w) <> "" ->
  (forall x, default_w = Some x -> in_float_range x) ->
  (forall x, default_h = Some x -> in_float_range x) ->
  fst (run w) = Ok tt /\
  (doc (snd (run w)) = doc w \/
   exists d',
     stored_text (doc (snd (run w))) = Some (json_dumps d') /\
     registry_ok d' /\ names_unique (families_of d')).
Proof.
  intros d run. subst d. intros Hok Huniq Huuid Hfw Hfh.
  destruct (registry_ok_maps Hok)
    as (fams & insts & Hmaps & Hwf & Hwi & Hfo & Hio).
  rewrite (has_maps_families_of Hmaps) in Huniq.
  pose proof (family_ok_has_name Hfo) as Hnames.
  unfold run, cmd_create_rectangle_family.
  destruct name_answer as [nm|]; [|now split; [|left]].
  destruct (String.eqb_spec nm "") as [->|Hnm]; [now split; [|left]|].
  destruct default_w as [dw|]; [|now split; [|left]].
  destruct default_h as [dh|]; [|now split; [|left]].
  destruct (find_family_in_total nm Hnames) as (r & Hr).
  destruct r as [[fid family]|].
  - (* a family of that name exists *)
    assert (Hfid : fid <> "").
    { apply find_family_in_In in Hr. rewrite Forall_forall in Hfo.
      now destruct (Hfo _ Hr). }
    assert (Hrun : cmd_create_rectangle_family (Some nm) (Some dw) (Some dh) w
                   = (Ok tt,
                      log w [EvMessageBox
                               ("Family '" ++ nm ++ "' already exists")])).
    { unfold cmd_create_rectangle_family.
      destruct (String.eqb_spec nm "") as [|_]; [contradiction|].
      unfold bind at 1. rewrite new_registry_run.
      unfold bind at 1, lift at 1.
      rewrite (@find_family_by_name_run _ (mkRegistry _) nm fams insts Hmaps).
      rewrite Hr.
      destruct (String.eqb_spec fid "") as [|_]; [contradiction|].
      reflexivity. }
    unfold cmd_create_rectangle_family in Hrun.
    destruct (String.eqb_spec nm "") as [|_]; [contradiction|].
    rewrite Hrun. split; [reflexivity|]. left. reflexivity.
  - (* the family is created *)
    apply (find_family_in_none nm Hnames) in Hr.
    set (fid := uuid4_nth (uuid_count w)) in *.
    set (family := mkFamily fid nm "rectangle"
                     (JObj [("Width", JNum dw); ("Height", JNum dh)])).
    set (w1 := mkWorld (doc w) (S (uuid_count w)) (events w)).
    destruct (@add_family_run _ (mkRegistry (stored_registry (doc w))) family
                w1 fams insts Hmaps) as (reg' & Hadd & Hmaps').
    assert (Hrun : cmd_create_rectangle_family (Some nm) (Some dw) (Some dh) w
                   = (Ok tt,
                      log (saved w1 (data reg'))
                        [EvMessageBox ("Created family '" ++ nm ++ "'")])).
    { unfold cmd_create_rectangle_family.
      destruct (String.eqb_spec nm "") as [|_]; [contradiction|].
      unfold bind at 1. rewrite new_registry_run.
      unfold bind at 1, lift at 1.
      rewrite (@find_family_by_name_run _ (mkRegistry _) nm fams insts Hmaps).
      apply (find_family_in_none nm Hnames) in Hr. rewrite Hr.
      unfold bind at 1, uuid4. fold fid. fold w1. fold family.
      unfold bind at 1. rewrite Hadd. reflexivity. }
    unfold cmd_create_rectangle_family in Hrun.
    destruct (String.eqb_spec nm "") as [|_]; [contradiction|].
    rewrite Hrun. split; [reflexivity|]. right.
    exists (data reg'). cbn [snd log doc].
    split; [apply stored_text_saved|].
    cbn [family_id name family_type parameters family] in Hmaps'.
    set (record := JObj [("name", JStr nm);
                         ("family_type", JStr "rectangle");
                         ("parameters",
                          JObj [("Width", JNum dw); ("Height", JNum dh)])])
      in *.
    split.
    + destruct Hmaps' as (top' & Hd' & Hf' & Hi').
      exists top', (dict_set fams fid record), insts.
      repeat split; trivial.
      * now apply dict_wf_set.
      * apply Forall_dict_set_key; trivial. split; [exact Huuid|].
        eexists _, nm, _. repeat split; try reflexivity.
        exists [("Width", JNum dw); ("Height", JNum dh)], dw, dh.
        repeat split; auto.
    + rewrite (has_maps_families_of Hmaps').
      apply names_unique_set; trivial.
      change (name_key (fid, record)) with (lower nm).
      intros Hin. apply in_map_iff in Hin as (entry & Hkey & Hentry).
      rewrite Forall_forall in Hr, Hnames.
      apply (Hr _ Hentry). apply name_key_matches; auto.
Qed.

End NameUniqueness.

(** ** The survivor of a synchronisation *)

Section SurvivorScenario.
Context {E : Env}.
#[local] Abbreviation value := (json num).

(** What a call of [ensure_definition] that returned did, by its events. *)
Lemma ensure_definition_resolves (family values : value) (w w2 : World)
  (idx : nat) (nm : string) :
  ensure_definition family values w = (Ok idx, w2) ->
  (n <- py_getitem family "name" ;; definition_name n values)%res = Ok nm ->
  InstanceDefinitions_Find (doc w2) nm = Some idx /\
  exists evs,
    events w2 = (events w ++ EvFindDefinition nm :: evs)%list /\
    (InstanceDefinitions_Find (doc w) nm = None ->
     exists fw fh,
       (x <- py_getitem values "Width" ;; py_float x)%res = Ok fw /\
       (x <- py_getitem values "Height" ;; py_float x)%res = Ok fh /\
       evs = [EvBuildGeometry fw fh; EvAddDefinition nm idx]).
Proof.
  intros Hrun Hnm.
  pose proof (ensure_definition_outcome family values w) as H.
  rewrite Hrun in H. cbn [fst snd] in H.
  inversion H as [| nm' i Hnm' Hfind
                  | | nm' wd ht idef Hnm' Hfind Hwd Hht Hname];
    subst.
  - assert (nm' = nm) by congruence. subst nm'.
    split; [exact Hfind|]. exists []. split; [cbn [log events]; reflexivity|].
    intros Hnone. cbn [log doc] in Hfind. congruence.
  - assert (idef_Name idef = nm) by congruence.
    split.
    + cbn [log with_doc doc]. unfold InstanceDefinitions_Find in *.
      cbn [InstanceDefinitions]. subst nm.
      now apply (find_definition_app_new _ _ 0).
    + subst nm. eexists. split; [cbn [log with_doc events]; reflexivity|].
      intros _. exists wd, ht. repeat split; trivial.
Qed.

Lemma has_maps_same (d : value) (fams fams' insts insts' : list (string * value)) :
  has_maps d fams insts -> has_maps d fams' insts' ->
  fams' = fams /\ insts' = insts.
Proof.
  intros (top & -> & Hf & Hi) (top' & [= <-] & Hf' & Hi').
  split; congruence.
Qed.

(** One turn of the loop on an instance whose object is an unlocked
    instance object: the object is deleted, the definition named from
    the instance's values is looked up (and built when the document has
    none), and an object is requested for that definition. *)
Lemma sync_one_unlocked (fid : string) (family : value) (n : string)
  (reg : DynamicBlockRegistry) (g : Guid) (info vals : value)
  (o : RhinoObject) (index : nat) (xform : Transform) (w : World)
  (fams insts : list (string * value)) (nm : string) :
  has_maps (data reg) fams insts ->
  Objects_FindId (doc w) g = Some o ->
  Kind o = InstanceObject index xform ->
  IsLocked o = false ->
  py_getitem info "values" = Ok vals ->
  values_ok vals ->
  buildable family n ->
  definition_name (JStr n) vals = Ok nm ->
  exists idx new reg' w' insts' evs,
    sync_one fid family reg (str_of_Guid g, info) w = (Ok reg', w') /\
    has_maps (data reg') fams insts' /\
    events w' = (events w ++ evs)%list /\
    InstanceDefinitions_Find (doc w') nm = Some idx /\
    In (EvFindDefinition nm) evs /\
    In (EvAddInstanceObject idx new) evs /\
    (InstanceDefinitions_Find (doc w) nm = None ->
     exists fw fh,
       (x <- py_getitem vals "Width" ;; py_float x)%res = Ok fw /\
       (x <- py_getitem vals "Height" ;; py_float x)%res = Ok fh /\
       In (EvBuildGeometry fw fh) evs /\ In (EvAddDefinition nm idx) evs) /\
    Objects_FindId (doc w') g = None /\
    (new = Guid_Empty -> insts' = insts) /\
    (new <> Guid_Empty ->
     In new (NextIds (doc w)) /\
     insts' = dict_set (dict_pop insts (str_of_Guid g)) (str_of_Guid new)
                (instance_entry (JStr fid) vals) /\
     Objects_FindId (doc w') new
     = Some (mkRhinoObject new (InstanceObject idx xform) (Attributes o)
               false false)).
Proof.
  intros Hmaps Hfind Hkind Hlock Hvals Hvok Hbuild Hnm.
  pose proof (replace_instance_geometry_outcome (str_of_Guid g) family vals w)
    as Hout.
  destruct (replace_instance_geometry (str_of_Guid g) family vals w)
    as [r w1] eqn:Hrep.
  cbn [fst snd] in Hout.
  assert (Hstep : sync_one fid family reg (str_of_Guid g, info) w
                  = match r with
                    | Ok (PyStr s) =>
                        if negb (String.eqb s "")
                           && negb (String.eqb s (str_of_Guid g))
                        then
                          (reg1 <- remove_instance reg (str_of_Guid g) ;;
                           values <- lift (py_getitem info "values") ;;
                           add_instance reg1 s (JStr fid) values)%cmd w1
                        else (Ok reg, w1)
                    | Ok PyFalse => (Ok reg, w1)
                    | Raise e => (Raise e, w1)
                    end).
  { unfold sync_one. unfold bind at 1, lift at 1.
    rewrite Guid_of_str_of_Guid.
    unfold bind at 1, FindId, bind, get_doc, ret. cbn [fst snd].
    rewrite Hfind.
    unfold lift at 1. rewrite Hvals, Hrep.
    destruct r as [[|s]|e]; trivial.
    now destruct (negb (String.eqb s "")
                  && negb (String.eqb s (str_of_Guid g))). }
  rewrite Hstep. clear Hstep.
  pose proof (buildable_name vals Hbuild) as Hname. rewrite Hnm in Hname.
  inversion Hout as [e He | id' Hid' Hnone | id' o' Hid' Hf' Hk'
                | id' o' i' x' Hid' Hf' Hk' Hl'
                | id' o' i' x' e w2 Hid' Hf' Hk' Hl' Hens
                | id' o' i' x' idx w2 d3 Hid' Hf' Hk' Hl' Hens Hadd
                | id' o' i' x' idx w2 new d3 Hid' Hf' Hk' Hl' Hens Hadd
                    Hnew];
    subst; rewrite Guid_of_str_of_Guid in *;
    try discriminate;
    try (injection Hid' as <-).
  - congruence.
  - assert (o' = o) by congruence. subst o'. congruence.
  - assert (o' = o) by congruence. subst o'. congruence.
  - destruct (@ensure_definition_returns _ family vals n
                (log (with_doc w (without_object (doc w) g))
                   [EvDeleteObject g true]) Hbuild Hvok)
      as (i0 & w0 & H0). congruence.
  - (* nothing could be created *)
    assert (o' = o) by congruence. subst o'.
    assert (x' = xform) by congruence. subst x'.
    destruct (ensure_definition_resolves _ _ _ Hens Hname)
      as (Hfound & evs & Hev & Hbuilt).
    destruct (AddInstanceObject_failed _ _ _ _ Hadd) as (_ & Hdefs & _).
    exists idx, Guid_Empty, reg, (log (with_doc w2 d3)
                                    [EvAddInstanceObject idx Guid_Empty]),
      insts,
      (EvDeleteObject g true :: EvFindDefinition nm :: evs
         ++ [EvAddInstanceObject idx Guid_Empty])%list.
    split; [reflexivity|]. split; [exact Hmaps|]. split.
    { cbn [log with_doc events]. rewrite Hev. cbn [log with_doc events].
      rewrite <- !app_assoc. reflexivity. }
    split.
    { cbn [log with_doc doc]. unfold InstanceDefinitions_Find in *.
      now rewrite Hdefs. }
    split; [right; now left|]. split.
    { right. right. apply in_or_app. right. now left. }
    split.
    { intros Hnone. destruct (Hbuilt Hnone) as (fw & fh & Hfw & Hfh & ->).
      exists fw, fh. repeat split; trivial.
      - right. right. now left.
      - right. right. right. now left. }
    split.
    { cbn [log with_doc doc].
      destruct (AddInstanceObject_failed _ _ _ _ Hadd) as (_ & _ & Hobjs & _).
      destruct (ensure_definition_effects _ _ _ Hens) as (_ & Hobj2 & _).
      rewrite (@FindId_same_objects _ _ _ _ Hobjs).
      rewrite (@FindId_same_objects _ _ _ _ Hobj2).
      cbn [log with_doc doc]. apply FindId_without_object_same. }
    split; [reflexivity|]. intros Hne. now destruct Hne.
  - (* the object is replaced *)
    assert (o' = o) by congruence. subst o'.
    assert (x' = xform) by congruence. subst x'.
    destruct (ensure_definition_resolves _ _ _ Hens Hname)
      as (Hfound & evs & Hev & Hbuilt).
    destruct (ensure_definition_effects _ _ _ Hens)
      as (_ & Hobj2 & Hnext2 & _).
    destruct (AddInstanceObject_created _ _ _ _ Hadd Hnew)
      as (Hnx & Hfree & _ & Hdefs & Hobjs).
    assert (Hne : new <> g).
    { intros ->. apply FindId_in_use in Hfind.
      rewrite (@id_in_use_same_objects _ _ _ _ Hobj2) in Hfree.
      cbn [log with_doc doc] in Hfree.
      rewrite id_in_use_without_object in Hfree. congruence. }
    destruct (String.eqb_spec (str_of_Guid new) "") as [Hempty|_].
    { now apply str_of_Guid_nonempty in Hempty. }
    destruct (String.eqb_spec (str_of_Guid new) (str_of_Guid g))
      as [Hsame|_].
    { apply str_of_Guid_inj in Hsame. contradiction. }
    cbn [negb andb].
    set (w3 := log (with_doc w2 d3) [EvAddInstanceObject idx new]).
    destruct (@remove_instance_run _ reg (str_of_Guid g) w3 fams insts Hmaps)
      as (reg1 & Hrem & Hmaps1).
    destruct (@add_instance_run _ reg1 (str_of_Guid new) (JStr fid) vals
                (saved w3 (data reg1)) fams _ Hmaps1)
      as (reg2 & Hadd2 & Hmaps2).
    unfold bind at 1. rewrite Hrem.
    unfold bind at 1, lift at 1. rewrite Hvals. rewrite Hadd2.
    exists idx, new, reg2, (saved (saved w3 (data reg1)) (data reg2)),
      (dict_set (dict_pop insts (str_of_Guid g)) (str_of_Guid new)
         (instance_entry (JStr fid) vals)),
      ((EvDeleteObject g true :: EvFindDefinition nm :: evs
          ++ [EvAddInstanceObject idx new])
         ++ [EvSetString STORE_SECTION STORE_KEY (json_dumps (data reg1));
             EvSetString STORE_SECTION STORE_KEY (json_dumps (data reg2))])%list.
    split; [reflexivity|]. split; [exact Hmaps2|]. split.
    { unfold saved, w3. cbn [log with_doc events]. rewrite Hev.
      cbn [log with_doc events]. rewrite <- !app_assoc.
      cbn [app]. rewrite <- !app_assoc. reflexivity. }
    split.
    { unfold saved, w3, Strings_SetString. cbn [log with_doc doc].
      unfold InstanceDefinitions_Find in *. cbn [InstanceDefinitions].
      now rewrite Hdefs. }
    split; [apply in_or_app; left; right; now left|]. split.
    { apply in_or_app. left. right. right. apply in_or_app. right.
      now left. }
    split.
    { intros Hnone. destruct (Hbuilt Hnone) as (fw & fh & Hfw & Hfh & ->).
      exists fw, fh. repeat split; trivial.
      - apply in_or_app. left. right. right. now left.
      - apply in_or_app. left. right. right. right. now left. }
    split.
    { unfold saved, w3, Strings_SetString, Objects_FindId.
      cbn [log with_doc doc Objects].
      fold (Objects_FindId d3 g).
      apply FindId_created_other
        with (d := doc w2) (g := new)
             (o := mkRhinoObject new (InstanceObject idx xform)
                     (Attributes o) false false); trivial.
      - congruence.
      - rewrite (@FindId_same_objects _ _ _ _ Hobj2).
        cbn [log with_doc doc]. apply FindId_without_object_same. }
    split; [intros ->; now destruct Hnew|]. intros _.
    split; [|split; [reflexivity|]].
    + cbn [log with_doc doc NextIds without_object] in Hnext2.
      rewrite <- Hnext2, Hnx. now left.
    + unfold saved, w3, Strings_SetString, Objects_FindId.
      cbn [log with_doc doc Objects].
      fold (Objects_FindId d3 new).
      apply FindId_created_same with (doc w2); trivial.
Qed.

(** An instance whose object is locked: the deletion is refused and
    that is all. *)
Lemma sync_one_locked (fid : string) (family : value)
  (reg : DynamicBlockRegistry) (g : Guid) (info vals : value)
  (o : RhinoObject) (index : nat) (xform : Transform) (w : World) :
  Objects_FindId (doc w) g = Some o ->
  Kind o = InstanceObject index xform ->
  IsLocked o = true ->
  py_getitem info "values" = Ok vals ->
  sync_one fid family reg (str_of_Guid g, info) w
  = (Ok reg, log w [EvDeleteObject g false]).
Proof.
  intros Hfind Hkind Hlock Hvals.
  pose proof (replace_instance_geometry_outcome (str_of_Guid g) family vals w)
    as Hout.
  destruct (replace_instance_geometry (str_of_Guid g) family vals w)
    as [r w1] eqn:Hrep.
  cbn [fst snd] in Hout.
  unfold sync_one. unfold bind at 1, lift at 1.
  rewrite Guid_of_str_of_Guid.
  unfold bind at 1, FindId, bind, get_doc, ret. cbn [fst snd].
  rewrite Hfind.
  unfold lift at 1. rewrite Hvals, Hrep.
  inversion Hout as [e He | id' Hid' Hnone | id' o' Hid' Hf' Hk'
                | id' o' i' x' Hid' Hf' Hk' Hl'
                | id' o' i' x' e w2 Hid' Hf' Hk' Hl' Hens
                | id' o' i' x' idx w2 d3 Hid' Hf' Hk' Hl' Hens Hadd
                | id' o' i' x' idx w2 new d3 Hid' Hf' Hk' Hl' Hens Hadd
                    Hnew];
    subst; rewrite Guid_of_str_of_Guid in *;
    try discriminate;
    try (injection Hid' as <-);
    try (assert (o' = o) by congruence; subst o');
    try congruence; reflexivity.
Qed.

(** One turn of the loop on the surviving instance. *)
Lemma sync_one_survivor (fid : string) (family : value) (n : string)
  (reg : DynamicBlockRegistry) (g : Guid) (info vals : value)
  (o : RhinoObject) (index : nat) (xform : Transform) (w : World)
  (fams insts : list (string * value)) (nm : string) :
  has_maps (data reg) fams insts ->
  Objects_FindId (doc w) g = Some o ->
  Kind o = InstanceObject index xform ->
  py_getitem info "values" = Ok vals ->
  values_ok vals ->
  buildable family n ->
  definition_name (JStr n) vals = Ok nm ->
  exists reg' w' insts' evs,
    sync_one fid family reg (str_of_Guid g, info) w = (Ok reg', w') /\
    has_maps (data reg') fams insts' /\
    events w' = (events w ++ evs)%list /\
    (forall g0, Objects_FindId (doc w) g0 = None ->
                ~ In g0 (NextIds (doc w)) ->
                Objects_FindId (doc w') g0 = None) /\
    Forall (replace_event g (NextIds (doc w)) nm vals) evs /\
    In (EvDeleteObject g (negb (IsLocked o))) evs /\
    (IsLocked o = true -> insts' = insts /\ doc w' = doc w) /\
    (IsLocked o = false ->
     exists idx new,
       InstanceDefinitions_Find (doc w') nm = Some idx /\
       In (EvFindDefinition nm) evs /\
       In (EvAddInstanceObject idx new) evs /\
       (InstanceDefinitions_Find (doc w) nm = None ->
        exists fw fh,
          (x <- py_getitem vals "Width" ;; py_float x)%res = Ok fw /\
          (x <- py_getitem vals "Height" ;; py_float x)%res = Ok fh /\
          In (EvBuildGeometry fw fh) evs /\ In (EvAddDefinition nm idx) evs) /\
       Objects_FindId (doc w') g = None /\
       (new = Guid_Empty -> insts' = insts) /\
       (new <> Guid_Empty ->
        In new (NextIds (doc w)) /\
        insts' = dict_set (dict_pop insts (str_of_Guid g)) (str_of_Guid new)
                   (instance_entry (JStr fid) vals) /\
        Objects_FindId (doc w') new
        = Some (mkRhinoObject new (InstanceObject idx xform) (Attributes o)
                  false false))).
Proof.
  intros Hmaps Hfind Hkind Hvals Hvok Hbuild Hnm.
  destruct (@sync_one_live _ fid family n reg g info vals o w fams insts
              Hmaps Hfind Hvals Hvok Hbuild)
    as (reg' & w' & insts' & evs & Hrun & Hmaps' & Hev & _ & Hkeep & Hevents
        & Hdel & _).
  exists reg', w', insts', evs.
  split; [exact Hrun|]. split; [exact Hmaps'|]. split; [exact Hev|].
  split; [exact Hkeep|]. split; [now apply Hevents|].
  split; [now apply Hdel with index xform|]. split.
  - intros Hlock.
    rewrite (@sync_one_locked fid family reg g info vals o index xform w
               Hfind Hkind Hlock Hvals) in Hrun.
    injection Hrun as <- <-. split; [|reflexivity].
    now destruct (has_maps_same Hmaps Hmaps').
  - intros Hlock.
    destruct (@sync_one_unlocked fid family n reg g info vals o index xform w
                fams insts nm Hmaps Hfind Hkind Hlock Hvals Hvok Hbuild Hnm)
      as (idx & new & reg2 & w2 & insts2 & evs2 & Hrun2 & Hmaps2 & Hev2
          & Hfound & Hlook & Hreq & Hbuilt & Hgone & Hsame & Hnew).
    rewrite Hrun in Hrun2. injection Hrun2 as <- <-.
    destruct (has_maps_same Hmaps' Hmaps2) as [_ ->].
    rewrite Hev in Hev2. apply app_inv_head in Hev2. subst evs2.
    exists idx, new. repeat split; trivial; now apply Hnew.
Qed.

Lemma regenerated_from_within (fid : string) (vals : value) (live : Guid)
  (o : RhinoObject) (xform : Transform) (nm : string) (d d' d'' : RhinoDoc)
  (evs before after : list Event) (old entry : string * value) :
  regenerated_from fid vals live o xform nm d d' evs old entry ->
  InstanceDefinitions d'' = InstanceDefinitions d' ->
  Objects d'' = Objects d' ->
  regenerated_from fid vals live o xform nm d d''
    (before ++ evs ++ after) old entry.
Proof.
  intros (idx & new & Hfound & Hlook & Hreq & Hbuilt & Hgone & Hsame & Hnew)
    Hdefs Hobjs.
  assert (Hin : forall e, In e evs -> In e (before ++ evs ++ after)%list).
  { intros e He. apply in_or_app. right. apply in_or_app. now left. }
  exists idx, new. unfold InstanceDefinitions_Find.
  rewrite Hdefs, !(@FindId_same_objects _ _ _ _ Hobjs).
  repeat split; auto.
  - intros Hnone. destruct (Hbuilt Hnone) as (fw & fh & Hfw & Hfh & H1 & H2).
    exists fw, fh. auto.
  - now apply Hnew.
  - now apply Hnew.
Qed.

(** C8 (as the script has it). The stored registry is well shaped (its
    families are rectangles with a text name, and the values of its
    families and instances are numbers within float range); a family of
    it has two registered instances; the placed object of one is gone
    from the document, that of the other is an instance object of the
    document; and the document does not issue again an identity the
    registry holds.  Then the synchronisation command returns normally,
    and the registry it stores has no entry for the missing instance and
    exactly one instance entry for the family, carrying the surviving
    instance's own values.  No event of the run acts on the missing
    instance's object, and every definition looked up, built or added is
    the one named from the survivor's own values.  The deletion of the
    survivor's object is attempted.  When it is refused (the object is
    locked), the object and the survivor's entry stay as they were.
    When it is done, the definition named from the survivor's values is
    looked up, built from the floats of those values when the document
    had none, and an object is requested for its index: the family's
    entry is then bound to the new object's identity, or still to the
    old, deleted one when the document issued no identity. *)
Theorem sync_prunes_missing_keeps_survivor (w : World) (nm : string)
  (default_w default_h : num) (fid : string) (family : value)
  (gone live : Guid) (info_gone info_live vals : value) (o : RhinoObject)
  (index : nat) (xform : Transform) :
  let d := stored_registry (doc w) in
  let run := cmd_sync_family_instances (Some nm) (Some default_w)
               (Some default_h) in
  registry_ok d ->
  find_family_by_name (mkRegistry d) nm = Ok (Some (fid, family)) ->
  nm <> "" ->
  (iter_instances_for_family (mkRegistry d) fid
   = Ok [(str_of_Guid gone, info_gone); (str_of_Guid live, info_live)] \/
   iter_instances_for_family (mkRegistry d) fid
   = Ok [(str_of_Guid live, info_live); (str_of_Guid gone, info_gone)]) ->
  Objects_FindId (doc w) gone = None ->
  Objects_FindId (doc w) live = Some o ->
  Kind o = InstanceObject index xform ->
  py_getitem info_live "values" = Ok vals ->
  (forall g, In g (NextIds (doc w)) ->
             dict_get (instances_of d) (str_of_Guid g) = None) ->
  exists d' k info' n nm_def,
    fst (run w) = Ok tt /\
    stored_text (doc (snd (run w))) = Some (json_dumps d') /\
    iter_instances_for_family (mkRegistry d') fid = Ok [(k, info')] /\
    py_getitem info' "values" = Ok vals /\
    dict_get (instances_of d') (str_of_Guid gone) = None /\
    py_getitem family "name" = Ok (JStr n) /\
    definition_name (JStr n) vals = Ok nm_def /\
    Forall (survivor_event gone nm_def vals) (trace run w) /\
    In (EvDeleteObject live (negb (IsLocked o))) (trace run w) /\
    (IsLocked o = true ->
     (k, info') = (str_of_Guid live, info_live) /\
     Objects_FindId (doc (snd (run w))) live = Some o) /\
    (IsLocked o = false ->
     regenerated_from fid vals live o xform nm_def (doc w)
       (doc (snd (run w))) (trace run w) (str_of_Guid live, info_live)
       (k, info')).
Proof.
  intros d run. subst d.
  intros Hok Hfound Hnm Htwo Hgone Hlive Hkind Hvals Hfresh.
  destruct (@cmd_sync_reaches_batch _ w nm default_w default_h fid family
              Hok Hfound Hnm)
    as (family' & d0 & fams & fams' & insts & n & Hrun & Hmaps & Hmaps0
        & Hwi & Hio & Hb & Hb').
  pose proof (instances_of_family_returns fid Hio) as Hiter.
  rewrite (has_maps_instances_of Hmaps) in Hfresh.
  rewrite (@iter_instances_for_family_run _ (mkRegistry _) fid fams insts
             Hmaps), Hiter in Htwo.
  set (kg := str_of_Guid gone) in *. set (kl := str_of_Guid live) in *.
  assert (Htwo' : filter (bound_to fid) insts = [(kg, info_gone); (kl, info_live)]
                  \/ filter (bound_to fid) insts
                     = [(kl, info_live); (kg, info_gone)]).
  { destruct Htwo as [[= H]|[= H]]; auto. }
  clear Htwo.
  assert (Hin_g : In (kg, info_gone) insts).
  { assert (H : In (kg, info_gone) (filter (bound_to fid) insts))
      by (destruct Htwo' as [-> | ->]; simpl; auto).
    now apply filter_In in H. }
  assert (Hin_l : In (kl, info_live) insts).
  { assert (H : In (kl, info_live) (filter (bound_to fid) insts))
      by (destruct Htwo' as [-> | ->]; simpl; auto).
    now apply filter_In in H. }
  pose proof (@dict_get_of_In _ insts kg info_gone Hwi Hin_g) as Hget_g.
  pose proof (@dict_get_of_In _ insts kl info_live Hwi Hin_l) as Hget_l.
  assert (Hne : gone <> live) by congruence.
  assert (Hkne : kg <> kl).
  { intros Heq. apply str_of_Guid_inj in Heq. contradiction. }
  assert (Hsupply : ~ In gone (NextIds (doc w))).
  { intros Hin. apply Hfresh in Hin. fold kg in Hin. congruence. }
  assert (Hvok : values_ok vals).
  { rewrite Forall_forall in Hio.
    destruct (Hio _ Hin_l) as [_ (fields & fid' & vals' & Hil & _ & Hv & Hvok)].
    cbn [snd] in Hil. subst info_live. cbn [py_getitem] in Hvals.
    rewrite Hv in Hvals. now injection Hvals as <-. }
  destruct (values_ok_name n Hvok) as (nm_def & Hnm_def).
  assert (Hfid : Forall has_family_id insts).
  { revert Hio. apply Forall_impl. intros kv. apply instance_ok_family_id. }
  assert (Hnew : forall new_id,
             In new_id (NextIds (doc w)) ->
             str_of_Guid new_id <> kg /\ str_of_Guid new_id <> kl /\
             dict_get insts (str_of_Guid new_id) = None).
  { intros new_id Hin. pose proof (Hfresh _ Hin) as Hnone.
    repeat split; trivial; intros Heq; rewrite Heq in Hnone; congruence. }
  destruct (@survivor_kept _ fid insts kg kl info_gone info_live Htwo' Hkne)
    as (Hkept_g & Hkept).
  assert (Hbatch :
    exists reg' w' insts' evs k info',
      sync_all fid family' (mkRegistry d0) (filter (bound_to fid) insts) w
      = (Ok reg', w') /\
      has_maps (data reg') fams' insts' /\
      events w' = (events w ++ evs)%list /\
      Forall (survivor_event gone nm_def vals) evs /\
      In (EvDeleteObject live (negb (IsLocked o))) evs /\
      Forall has_family_id insts' /\
      dict_get insts' kg = None /\
      filter (bound_to fid) insts' = [(k, info')] /\
      py_getitem info' "values" = Ok vals /\
      (IsLocked o = true ->
       (k, info') = (kl, info_live) /\
       Objects_FindId (doc w') live = Some o) /\
      (IsLocked o = false ->
       regenerated_from fid vals live o xform nm_def (doc w) (doc w') evs
         (kl, info_live) (k, info'))).
  { pose proof Htwo' as Horder. destruct Horder as [Heq | Heq].
    - (* the missing instance comes first *)
      rewrite Heq.
      destruct (@sync_one_prune _ fid family' (mkRegistry d0) gone info_gone w
                  fams' insts Hmaps0 Hgone) as (reg1 & Hrun1 & Hmaps1).
      destruct (@sync_one_survivor fid family' n reg1 live info_live vals o
                  index xform (saved w (data reg1)) fams' (dict_pop insts kg)
                  nm_def Hmaps1 Hlive Hkind Hvals Hvok Hb' Hnm_def)
        as (reg2 & w2 & insts2 & evs2 & Hrun2 & Hmaps2 & Hev2 & _
            & Hevents & Hdel & Hlocked & Hunlocked).
      assert (Hcases :
        (insts2 = dict_pop insts kg /\
         (IsLocked o = true -> Objects_FindId (doc w2) live = Some o) /\
         (IsLocked o = false ->
          regenerated_from fid vals live o xform nm_def (doc w) (doc w2)
            evs2 (kl, info_live) (kl, info_live)))
        \/
        (exists new,
            In new (NextIds (doc w)) /\ IsLocked o = false /\
            insts2 = dict_set (dict_pop (dict_pop insts kg) kl)
                       (str_of_Guid new) (instance_entry (JStr fid) vals) /\
            regenerated_from fid vals live o xform nm_def (doc w) (doc w2)
              evs2 (kl, info_live)
              (str_of_Guid new, instance_entry (JStr fid) vals))).
      { destruct (IsLocked o) eqn:Hlock.
        - destruct (Hlocked eq_refl) as (-> & Hdoc). left.
          split; [reflexivity|]. split; [|discriminate].
          intros _. rewrite Hdoc. exact Hlive.
        - destruct (Hunlocked eq_refl)
            as (idx & new & Hfound' & Hlook & Hreq & Hbuilt & Hold & Hsame
                & Hcreated).
          destruct (N.eq_dec new Guid_Empty) as [Hempty|Hissued].
          + left. split; [now apply Hsame|]. split; [discriminate|].
            intros _. exists idx, new. repeat split; trivial; contradiction.
          + right. destruct (Hcreated Hissued) as (Hin & -> & Hobj).
            exists new. repeat split; trivial.
            exists idx, new. repeat split; trivial; contradiction. }
      assert (Hstep : sync_all fid family' (mkRegistry d0)
                        [(kg, info_gone); (kl, info_live)] w
                      = (Ok reg2, w2)).
      { cbn [sync_all]. unfold bind at 1. unfold kg, kl. rewrite Hrun1.
        unfold bind at 1. now rewrite Hrun2. }
      assert (Hev : events w2
                    = (events w
                         ++ EvSetString STORE_SECTION STORE_KEY
                              (json_dumps (data reg1)) :: evs2)%list).
      { rewrite Hev2. unfold saved. cbn [events].
        now rewrite <- app_assoc. }
      assert (Hsurv : Forall (survivor_event gone nm_def vals)
                        (EvSetString STORE_SECTION STORE_KEY
                           (json_dumps (data reg1)) :: evs2)).
      { constructor; [now apply survivor_event_plain|].
        revert Hevents. apply Forall_impl.
        intros e. now apply replace_event_survivor. }
      assert (Hwithin : forall entry,
                 regenerated_from fid vals live o xform nm_def (doc w)
                   (doc w2) evs2 (kl, info_live) entry ->
                 regenerated_from fid vals live o xform nm_def (doc w)
                   (doc w2)
                   (EvSetString STORE_SECTION STORE_KEY
                      (json_dumps (data reg1)) :: evs2)
                   (kl, info_live) entry).
      { intros entry H.
        pose proof (@regenerated_from_within fid vals live o xform nm_def
                      (doc w) (doc w2) (doc w2) evs2
                      [EvSetString STORE_SECTION STORE_KEY
                         (json_dumps (data reg1))] []
                      (kl, info_live) entry H eq_refl eq_refl) as H'.
        now rewrite app_nil_r in H'. }
      destruct Hcases as [(-> & Hstay & Hregen)
                         | (new & Hin & Hlock & -> & Hregen)].
      + exists reg2, w2, (dict_pop insts kg),
          (EvSetString STORE_SECTION STORE_KEY (json_dumps (data reg1))
             :: evs2), kl, info_live.
        split; [exact Hstep|]. split; [exact Hmaps2|]. split; [exact Hev|].
        split; [exact Hsurv|]. split; [now right|].
        split; [now apply Forall_dict_pop|].
        split; [exact Hkept_g|]. split; [exact Hkept|].
        split; [exact Hvals|]. split.
        * intros Hlock. split; [reflexivity|now apply Hstay].
        * intros Hlock. apply Hwithin. now apply Hregen.
      + destruct (Hnew new Hin) as (Hng & Hnl & Hnone).
        destruct (@survivor_handed_over _ fid insts kg kl (str_of_Guid new)
                    info_gone info_live vals Htwo' Hkne Hng Hnl Hnone)
          as ((Hg1 & Hone1) & _).
        exists reg2, w2,
          (dict_set (dict_pop (dict_pop insts kg) kl) (str_of_Guid new)
             (instance_entry (JStr fid) vals)),
          (EvSetString STORE_SECTION STORE_KEY (json_dumps (data reg1))
             :: evs2), (str_of_Guid new),
          (instance_entry (JStr fid) vals).
        split; [exact Hstep|]. split; [exact Hmaps2|]. split; [exact Hev|].
        split; [exact Hsurv|]. split; [now right|]. split.
        { apply Forall_dict_set; [intros; apply has_family_id_entry|].
          now do 2 apply Forall_dict_pop. }
        split; [exact Hg1|]. split; [exact Hone1|].
        split; [reflexivity|]. split; [congruence|].
        intros _. now apply Hwithin.
    - (* the surviving instance comes first *)
      rewrite Heq.
      destruct (@sync_one_survivor fid family' n (mkRegistry d0) live
                  info_live vals o index xform w fams' insts nm_def
                  Hmaps0 Hlive Hkind Hvals Hvok Hb' Hnm_def)
        as (reg1 & w1 & insts1 & evs1 & Hrun1 & Hmaps1 & Hev1 & Hkeep
            & Hevents & Hdel & Hlocked & Hunlocked).
      destruct (@sync_one_prune _ fid family' reg1 gone info_gone w1
                  fams' insts1 Hmaps1 (Hkeep gone Hgone Hsupply))
        as (reg2 & Hrun2 & Hmaps2).
      assert (Hcases :
        (insts1 = insts /\
         (IsLocked o = true -> Objects_FindId (doc w1) live = Some o) /\
         (IsLocked o = false ->
          regenerated_from fid vals live o xform nm_def (doc w) (doc w1)
            evs1 (kl, info_live) (kl, info_live)))
        \/
        (exists new,
            In new (NextIds (doc w)) /\ IsLocked o = false /\
            insts1 = dict_set (dict_pop insts kl)
                       (str_of_Guid new) (instance_entry (JStr fid) vals) /\
            regenerated_from fid vals live o xform nm_def (doc w) (doc w1)
              evs1 (kl, info_live)
              (str_of_Guid new, instance_entry (JStr fid) vals))).
      { destruct (IsLocked o) eqn:Hlock.
        - destruct (Hlocked eq_refl) as (-> & Hdoc). left.
          split; [reflexivity|]. split; [|discriminate].
          intros _. rewrite Hdoc. exact Hlive.
        - destruct (Hunlocked eq_refl)
            as (idx & new & Hfound' & Hlook & Hreq & Hbuilt & Hold & Hsame
                & Hcreated).
          destruct (N.eq_dec new Guid_Empty) as [Hempty|Hissued].
          + left. split; [now apply Hsame|]. split; [discriminate|].
            intros _. exists idx, new. repeat split; trivial; contradiction.
          + right. destruct (Hcreated Hissued) as (Hin & -> & Hobj).
            exists new. repeat split; trivial.
            exists idx, new. repeat split; trivial; contradiction. }
      assert (Hstep : sync_all fid family' (mkRegistry d0)
                        [(kl, info_live); (kg, info_gone)] w
                      = (Ok reg2, saved w1 (data reg2))).
      { cbn [sync_all]. unfold bind at 1. unfold kg, kl. rewrite Hrun1.
        unfold bind at 1. now rewrite Hrun2. }
      assert (Hev : events (saved w1 (data reg2))
                    = (events w
                         ++ evs1 ++ [EvSetString STORE_SECTION STORE_KEY
                                       (json_dumps (data reg2))])%list).
      { unfold saved. cbn [events]. now rewrite Hev1, <- app_assoc. }
      assert (Hsurv : Forall (survivor_event gone nm_def vals)
                        (evs1 ++ [EvSetString STORE_SECTION STORE_KEY
                                    (json_dumps (data reg2))])).
      { apply Forall_app. split.
        - revert Hevents. apply Forall_impl.
          intros e. now apply replace_event_survivor.
        - constructor; [now apply survivor_event_plain|constructor]. }
      assert (Hwithin : forall entry,
                 regenerated_from fid vals live o xform nm_def (doc w)
                   (doc w1) evs1 (kl, info_live) entry ->
                 regenerated_from fid vals live o xform nm_def (doc w)
                   (doc (saved w1 (data reg2)))
                   (evs1 ++ [EvSetString STORE_SECTION STORE_KEY
                               (json_dumps (data reg2))])
                   (kl, info_live) entry).
      { intros entry H.
        exact (@regenerated_from_within fid vals live o xform nm_def
                 (doc w) (doc w1) (doc (saved w1 (data reg2))) evs1 []
                 [EvSetString STORE_SECTION STORE_KEY
                    (json_dumps (data reg2))]
                 (kl, info_live) entry H eq_refl eq_refl). }
      destruct Hcases as [(-> & Hstay & Hregen)
                         | (new & Hin & Hlock & -> & Hregen)].
      + exists reg2, (saved w1 (data reg2)), (dict_pop insts kg),
          (evs1 ++ [EvSetString STORE_SECTION STORE_KEY
                      (json_dumps (data reg2))])%list, kl, info_live.
        split; [exact Hstep|]. split; [exact Hmaps2|]. split; [exact Hev|].
        split; [exact Hsurv|].
        split; [apply in_or_app; now left|].
        split; [now apply Forall_dict_pop|].
        split; [exact Hkept_g|]. split; [exact Hkept|].
        split; [exact Hvals|]. split.
        * intros Hlock. split; [reflexivity|now apply Hstay].
        * intros Hlock. apply Hwithin. now apply Hregen.
      + destruct (Hnew new Hin) as (Hng & Hnl & Hnone).
        destruct (@survivor_handed_over _ fid insts kg kl (str_of_Guid new)
                    info_gone info_live vals Htwo' Hkne Hng Hnl Hnone)
          as (_ & (Hg2 & Hone2)).
        exists reg2, (saved w1 (data reg2)),
          (dict_pop (dict_set (dict_pop insts kl) (str_of_Guid new)
                       (instance_entry (JStr fid) vals)) kg),
          (evs1 ++ [EvSetString STORE_SECTION STORE_KEY
                      (json_dumps (data reg2))])%list, (str_of_Guid new),
          (instance_entry (JStr fid) vals).
        split; [exact Hstep|]. split; [exact Hmaps2|]. split; [exact Hev|].
        split; [exact Hsurv|].
        split; [apply in_or_app; now left|]. split.
        { apply Forall_dict_pop.
          apply Forall_dict_set; [intros; apply has_family_id_entry|].
          now apply Forall_dict_pop. }
        split; [exact Hg2|]. split; [exact Hone2|].
        split; [reflexivity|]. split; [congruence|].
        intros _. now apply Hwithin. }
  destruct Hbatch as (reg' & w' & insts' & evs & k & info' & Hall & Hmaps'
                      & Hev & Hsurv & Hdel & Hfid' & Hgone' & Hone & Hvals'
                      & Hstay & Hregen).
  assert (Hfinal : run w
                   = (Ok tt,
                      log (log (saved w' (data reg')) [EvRedraw])
                        [EvMessageBox
                           ("Family '" ++ nm ++ "' synchronized.")])).
  { unfold run. rewrite Hrun.
    unfold bind at 1, lift at 1.
    rewrite (@iter_instances_for_family_run _ (mkRegistry d0) fid fams' insts
               Hmaps0), Hiter.
    unfold bind at 1. rewrite Hall. reflexivity. }
  assert (Htrace : trace run w
                   = (evs ++ [EvSetString STORE_SECTION STORE_KEY
                                (json_dumps (data reg'));
                              EvRedraw;
                              EvMessageBox
                                ("Family '" ++ nm ++ "' synchronized.")])%list).
  { apply trace_of_events. rewrite Hfinal. cbn [snd log saved events].
    rewrite Hev, <- !app_assoc. reflexivity. }
  exists (data reg'), k, info', n, nm_def.
  rewrite Htrace, Hfinal. cbn [fst snd log doc].
  split; [reflexivity|]. split; [apply stored_text_saved|]. split.
  { rewrite (@iter_instances_for_family_run _ (mkRegistry _) fid fams' insts'
               Hmaps').
    now rewrite (instances_of_family_filter fid Hfid'), Hone. }
  split; [exact Hvals'|]. split.
  { now rewrite (has_maps_instances_of Hmaps'). }
  split; [apply Hb|]. split; [exact Hnm_def|]. split.
  { apply Forall_app. split; trivial.
    repeat constructor; now apply survivor_event_plain. }
  split; [apply in_or_app; now left|]. split.
  - intros Hlock. destruct (Hstay Hlock) as (Hentry & Hobj).
    split; [exact Hentry|]. exact Hobj.
  - intros Hlock.
    exact (@regenerated_from_within fid vals live o xform nm_def
             (doc w) (doc w') _ evs [] _ (kl, info_live) (k, info')
             (Hregen Hlock) eq_refl eq_refl).
Qed.

End SurvivorScenario.

(** * The sample document, run

    The statements above, applied to the sample runtime and documents of
    [Sample]. *)

Module Runs.
Import Sample.
#[local] Existing Instance env.

(** The sample registry is what the sample document stores. *)
Lemma stored_registry_world_8 (locked : bool) (supply : list Guid) :
  stored_registry (doc (world_8 locked supply)) = registry.
Proof. vm_compute. reflexivity. Qed.

Lemma values_of_ok (w h : N) : values_ok (values_of w h).
Proof.
  exists [("Width", JNum w); ("Height", JNum h)], w, h.
  repeat split; trivial; now eexists.
Qed.

Lemma in_float_range_sample (x : N) : in_float_range x.
Proof. now exists x. Qed.

Lemma door_ok : family_value_ok door.
Proof.
  eexists _, "Door", (values_of 1 2).
  repeat split; try reflexivity. apply values_of_ok.
Qed.

Lemma instance_of_ok (fid : string) (w h : N) :
  instance_value_ok (instance_of fid w h).
Proof.
  eexists _, fid, (values_of w h).
  repeat split; try reflexivity. apply values_of_ok.
Qed.

Lemma registry_with_ok (insts : list (string * json N)) :
  dict_wf insts ->
  Forall instance_ok insts ->
  registry_ok (registry_with insts).
Proof.
  intros Hwf Hok.
  eexists _, [("f1", door)], insts.
  repeat split; trivial; try reflexivity.
  - repeat constructor. intros [].
  - repeat constructor; [discriminate|apply door_ok].
Qed.

(** The sample registry has the shape the script writes. *)
Lemma registry_ok_sample : registry_ok registry.
Proof.
  apply registry_with_ok.
  - repeat constructor; simpl; intuition discriminate.
  - repeat constructor; simpl.
    + now exists 7%N.
    + apply instance_of_ok.
    + now exists 8%N.
    + apply instance_of_ok.
Qed.

(** C3, on the two insertion orders of a door's values. *)
Lemma definition_name_order_independent_witness :
  exists s,
    definition_name (JStr "Door")
      (JObj [("Width", JNum 1%N); ("Height", JNum 2%N)]) = Ok s /\
    definition_name (JStr "Door")
      (JObj [("Height", JNum 2%N); ("Width", JNum 1%N)]) = Ok s.
Proof.
  apply definition_name_order_independent.
  - repeat constructor; simpl; intuition discriminate.
  - repeat constructor; simpl; intuition discriminate.
  - intros k. cbn [dict_get].
    destruct (String.eqb_spec "Width" k) as [<-|]; [reflexivity|].
    destruct (String.eqb "Height" k); reflexivity.
Defined.

(** C5, on a stored text that is not JSON. *)
Lemma load_fail_open_witness :
  _load world_corrupt
  = (Ok (JObj [("families", JObj []); ("instances", JObj [])]), world_corrupt).
Proof.
  apply load_fail_open. right. right. exists "{". split; reflexivity.
Defined.

(** C10, on a stored object that has no ["instances"] key. *)
Lemma load_fills_missing_keys_witness :
  exists loaded,
    _load world_families_5 = (Ok (JObj loaded), world_families_5) /\
    dict_get loaded "families" = Some (JNum 5%N) /\
    dict_get loaded "instances" = Some (JObj []) /\
    forall k, k <> "families" -> k <> "instances" ->
              dict_get loaded k = dict_get [("families", JNum 5%N)] k.
Proof.
  apply (@load_fills_missing_keys env world_families_5
           (dumps (JObj [("families", JNum 5%N)])) [("families", JNum 5%N)]).
  - reflexivity.
  - vm_compute. discriminate.
  - vm_compute. reflexivity.
Defined.

(** A stored object whose ["families"] is a number and that has no
    ["instances"] key loads with ["families"] still that number: the
    loaded state has both keys, but no families mapping. *)
Lemma load_keeps_non_mapping :
  exists raw,
    stored_text (doc world_families_5) = Some raw /\
    json_loads raw = Some (JObj [("families", JNum 5%N)]) /\
    dict_get [("families", JNum 5%N)] "instances" = None /\
    _load world_families_5
    = (Ok (JObj [("families", JNum 5%N); ("instances", JObj [])]),
       world_families_5) /\
    forall fams,
      dict_get [("families", JNum 5%N); ("instances", JObj [])] "families"
      <> Some (JObj fams).
Proof.
  exists (dumps (JObj [("families", JNum 5%N)])).
  repeat split; try (vm_compute; reflexivity).
  intros fams. cbn. discriminate.
Qed.

(** C6, saving the sample registry over a corrupt text. *)
Lemma save_load_roundtrip_witness :
  let w' := snd (save (mkRegistry (E := env) registry) world_corrupt) in
  new_registry w' = (Ok (mkRegistry (E := env) registry), w') /\
  families_of (data (mkRegistry (stored_registry (doc w'))))
  = families_of registry /\
  instances_of (data (mkRegistry (stored_registry (doc w'))))
  = instances_of registry.
Proof.
  eapply (@save_load_roundtrip env SampleFacts.json_laws (mkRegistry (E := env) registry)
            world_corrupt).
  - reflexivity.
  - reflexivity.
  - reflexivity.
  - vm_compute. repeat split; repeat constructor; simpl; intuition discriminate.
Defined.



(** What happens when object 8 is replaced in a document that cannot
    issue an identity. *)
Lemma lost_run_trace :
  trace (replace_instance_geometry "8" door (values_of 9 10))
    (world_8 false [])
  = [EvDeleteObject 8%N true;
     EvFindDefinition "DB_Door_Height=10_Width=9";
     EvBuildGeometry 9%N 10%N;
     EvAddDefinition "DB_Door_Height=10_Width=9" 0;
     EvAddInstanceObject 0 Guid_Empty].
Proof. reflexivity. Qed.

(** C2, in a document that cannot issue an identity. *)
Lemma replacement_lost_returns_False_witness :
  let w := world_8 false [] in
  let run := replace_instance_geometry "8" door (values_of 9 10) in
  fst (run w) = Ok PyFalse /\
  Objects_FindId (doc (snd (run w))) 8%N = None /\
  (forall g o, Objects_FindId (doc (snd (run w))) g = Some o ->
               Objects_FindId (doc w) g = Some o) /\
  (forall w0,
      instance_not_found (doc w0) 8%N \/ not_an_instance (doc w0) 8%N
      \/ delete_refused (doc w0) 8%N ->
      fst (run w0) = Ok PyFalse).
Proof.
  apply (@replacement_lost_returns_False env "8" 8%N door (values_of 9 10)
           (world_8 false []) 0%nat).
  - reflexivity.
  - rewrite lost_run_trace. simpl. auto.
  - rewrite lost_run_trace. simpl. auto 6.
Defined.

(** A replacement that deleted object 8 and could not create its
    successor returns what a replacement that found no object returns. *)
Lemma lost_and_not_found_return_the_same :
  let run := replace_instance_geometry "8" door (values_of 9 10) in
  let lost := world_8 false [] in
  let absent := world_of (doc_storing (dumps registry) [] []) in
  Objects_FindId (doc lost) 8%N = Some (placed 8%N false) /\
  Objects_FindId (doc (snd (run lost))) 8%N = None /\
  trace run lost
  = [EvDeleteObject 8%N true;
     EvFindDefinition "DB_Door_Height=10_Width=9";
     EvBuildGeometry 9%N 10%N;
     EvAddDefinition "DB_Door_Height=10_Width=9" 0;
     EvAddInstanceObject 0 Guid_Empty] /\
  Objects_FindId (doc absent) 8%N = None /\
  trace run absent = [] /\
  fst (run lost) = Ok PyFalse /\
  fst (run absent) = Ok PyFalse /\
  fst (run lost) = fst (run absent).
Proof.
  repeat split; vm_compute; reflexivity.
Qed.

(** C1: object 8 is edited and becomes object 20. *)
Lemma edit_hands_identity_over_witness :
  let w := world_8 false [20%N] in
  let run := cmd_edit_instance_parameters (Some 8%N) (Some 9%N) (Some 10%N) in
  fst (run w) = Ok tt /\
  20%N <> 8%N /\
  Objects_FindId (doc (snd (run w))) 8%N = None /\
  (exists idef_index,
      Objects_FindId (doc (snd (run w))) 20%N
      = Some (mkRhinoObject 20%N (InstanceObject idef_index 11%N)
                "layer 0" false false)) /\
  exists d',
    stored_text (doc (snd (run w))) = Some (json_dumps d') /\
    families_of d' = families_of (stored_registry (doc w)) /\
    dict_get (instances_of d') (str_of_Guid 8%N) = None /\
    dict_get (instances_of d') (str_of_Guid 20%N)
    = Some (instance_entry (JStr "f1") (values_of 9 10)).
Proof.
  apply (@edit_hands_identity_over env (world_8 false [20%N]) 8%N 20%N 9%N
           10%N (placed 8%N false) 0%nat 11%N [] (instance_of "f1" 5 6) "f1"
           door (values_of 5 6)).
  - rewrite stored_registry_world_8. apply registry_ok_sample.
  - apply in_float_range_sample.
  - apply in_float_range_sample.
  - reflexivity.
  - reflexivity.
  - reflexivity.
  - reflexivity.
  - reflexivity.
  - reflexivity.
  - reflexivity.
  - reflexivity.
  - discriminate.
  - reflexivity.
Defined.

(** Editing an instance whose placed object is locked: the command
    reports the failure and returns, and the registry keeps the old
    identity. *)
Lemma edit_of_locked_object_keeps_old_identity :
  let w := world_8 true [20%N] in
  let run := cmd_edit_instance_parameters (Some 8%N) (Some 9%N) (Some 10%N) in
  dict_get (instances_of (stored_registry (doc w))) "8"
  = Some (instance_of "f1" 5 6) /\
  Objects_FindId (doc w) 8%N = Some (placed 8%N true) /\
  fst (run w) = Ok tt /\
  trace run w
  = [EvDeleteObject 8%N false; EvMessageBox "Failed to update instance"] /\
  doc (snd (run w)) = doc w /\
  dict_get (instances_of (stored_registry (doc (snd (run w))))) "8"
  = Some (instance_of "f1" 5 6) /\
  map fst (instances_of (stored_registry (doc (snd (run w))))) = ["7"; "8"].
Proof.
  repeat split; vm_compute; reflexivity.
Qed.

Lemma registry_ok_stale : registry_ok (stored_registry (doc world_stale)).
Proof.
  change (registry_ok (registry_with [("7", instance_of "f1" 3 4)])).
  apply registry_with_ok.
  - repeat constructor; simpl; intuition discriminate.
  - repeat constructor; simpl.
    + now exists 7%N.
    + apply instance_of_ok.
Qed.

(** C9, where the only instance of the family lost its object. *)
Lemma sync_writes_registry_witness :
  let run := cmd_sync_family_instances (Some "door") (Some 9%N) (Some 9%N) in
  exists updates evs d',
    iter_instances_for_family
      (mkRegistry (stored_registry (doc world_stale))) "f1" = Ok updates /\
    fst (run world_stale) = Ok tt /\
    trace run world_stale
    = (evs ++ [EvSetString STORE_SECTION STORE_KEY (json_dumps d');
               EvRedraw;
               EvMessageBox "Family 'door' synchronized."])%list /\
    stored_text (doc (snd (run world_stale))) = Some (json_dumps d') /\
    (writes evs <= 2 * length updates)%nat /\
    writes (trace run world_stale) = S (writes evs) /\
    (updates = [] -> writes (trace run world_stale) = 1%nat).
Proof.
  apply (@sync_writes_registry env world_stale "door" 9%N 9%N "f1" door).
  - apply registry_ok_stale.
  - reflexivity.
  - discriminate.
Defined.

(** Pruning one instance writes the registry during the batch, and the
    end of the batch writes it again: two writes. *)
Lemma sync_writes_during_the_batch :
  let run := cmd_sync_family_instances (Some "door") (Some 9%N) (Some 9%N) in
  let pruned :=
    JObj [("families",
           JObj [("f1", JObj [("name", JStr "Door");
                              ("family_type", JStr "rectangle");
                              ("parameters", values_of 9 9)])]);
          ("instances", JObj [])] in
  fst (run world_stale) = Ok tt /\
  trace run world_stale
  = [EvSetString STORE_SECTION STORE_KEY (dumps pruned);
     EvSetString STORE_SECTION STORE_KEY (dumps pruned);
     EvRedraw;
     EvMessageBox "Family 'door' synchronized."] /\
  writes (trace run world_stale) = 2%nat.
Proof.
  repeat split; vm_compute; reflexivity.
Qed.

(** A family of a type the geometry factory does not know: the
    synchronisation prunes instance 7, deletes the object of instance 8
    and raises at the geometry factory; the stored registry still binds
    instance 8, whose object is gone. *)
Lemma sync_of_unknown_type_raises :
  let w := world_disc in
  let run := cmd_sync_family_instances (Some "disc") (Some 9%N) (Some 9%N) in
  let pruned :=
    JObj [("families",
           JObj [("f1", JObj [("name", JStr "Disc");
                              ("family_type", JStr "circle");
                              ("parameters", values_of 9 9)])]);
          ("instances", JObj [("8", instance_of "f1" 5 6)])] in
  iter_instances_for_family (mkRegistry (stored_registry (doc w))) "f1"
  = Ok two_instances /\
  Objects_FindId (doc w) 7%N = None /\
  Objects_FindId (doc w) 8%N = Some (placed 8%N false) /\
  fst (run w) = Raise (ValueError "Unsupported family type: circle") /\
  trace run w
  = [EvSetString STORE_SECTION STORE_KEY (dumps pruned);
     EvDeleteObject 8%N true;
     EvFindDefinition "DB_Disc_Height=6_Width=5"] /\
  Objects_FindId (doc (snd (run w))) 8%N = None /\
  stored_registry (doc (snd (run w))) = pruned.
Proof.
  repeat split; vm_compute; reflexivity.
Qed.

(** C8: instance 7 lost its object, instance 8 is replaced by 20. *)
Lemma sync_prunes_missing_keeps_survivor_witness :
  let w := world_8 false [20%N] in
  let run := cmd_sync_family_instances (Some "door") (Some 9%N) (Some 9%N) in
  exists d' k info' n nm_def,
    fst (run w) = Ok tt /\
    stored_text (doc (snd (run w))) = Some (json_dumps d') /\
    iter_instances_for_family (mkRegistry d') "f1" = Ok [(k, info')] /\
    py_getitem info' "values" = Ok (values_of 5 6) /\
    dict_get (instances_of d') (str_of_Guid 7%N) = None /\
    py_getitem door "name" = Ok (JStr n) /\
    definition_name (JStr n) (values_of 5 6) = Ok nm_def /\
    Forall (survivor_event 7%N nm_def (values_of 5 6)) (trace run w) /\
    In (EvDeleteObject 8%N (negb (IsLocked (placed 8%N false))))
      (trace run w) /\
    (IsLocked (placed 8%N false) = true ->
     (k, info') = (str_of_Guid 8%N, instance_of "f1" 5 6) /\
     Objects_FindId (doc (snd (run w))) 8%N = Some (placed 8%N false)) /\
    (IsLocked (placed 8%N false) = false ->
     regenerated_from "f1" (values_of 5 6) 8%N (placed 8%N false) 11%N
       nm_def (doc w) (doc (snd (run w))) (trace run w)
       (str_of_Guid 8%N, instance_of "f1" 5 6) (k, info')).
Proof.
  apply (@sync_prunes_missing_keeps_survivor env (world_8 false [20%N]) "door"
           9%N 9%N "f1" door 7%N 8%N (instance_of "f1" 3 4)
           (instance_of "f1" 5 6) (values_of 5 6) (placed 8%N false) 0%nat
           11%N).
  - rewrite stored_registry_world_8. apply registry_ok_sample.
  - reflexivity.
  - discriminate.
  - left. reflexivity.
  - reflexivity.
  - reflexivity.
  - reflexivity.
  - reflexivity.
  - intros g [<-|[]]. reflexivity.
Defined.

End Runs.

(** * The further properties, on the sample document *)

Module Samples.
Import Sample.
#[local] Existing Instance env.

Lemma has_maps_sample : has_maps registry [("f1", door)] two_instances.
Proof. eexists. repeat split; reflexivity. Qed.

Lemma has_maps_world_8 (locked : bool) (supply : list Guid) :
  has_maps (stored_registry (doc (world_8 locked supply)))
    [("f1", door)] two_instances.
Proof. rewrite Runs.stored_registry_world_8. apply has_maps_sample. Qed.

Lemma registry_ok_world_8 (locked : bool) (supply : list Guid) :
  registry_ok (stored_registry (doc (world_8 locked supply))).
Proof. rewrite Runs.stored_registry_world_8. apply Runs.registry_ok_sample. Qed.

Lemma has_name_door : Forall has_name [("f1", door)].
Proof. repeat constructor. now exists "Door". Qed.

(** X1, adding the family Window to the sample registry. *)
Lemma add_family_then_get_family_witness :
  exists reg',
    fst (add_family door_registry window world_corrupt) = Ok reg' /\
    get_family reg' (JStr "f2")
    = Ok (JObj [("name", JStr "Window");
                ("family_type", JStr "rectangle");
                ("parameters", values_of 3 4)]) /\
    (forall fid, fid <> "f2" ->
                 get_family reg' (JStr fid)
                 = get_family door_registry (JStr fid)) /\
    instances_of (data reg') = two_instances /\
    stored_text (doc (snd (add_family door_registry window
                             world_corrupt)))
    = Some (json_dumps (data reg')) /\
    trace (add_family door_registry window) world_corrupt
    = [EvSetString STORE_SECTION STORE_KEY (json_dumps (data reg'))].
Proof.
  apply (@add_family_then_get_family env door_registry window
           world_corrupt [("f1", door)] two_instances).
  apply has_maps_sample.
Defined.

(** X2, registering instance 9. *)
Lemma add_instance_then_get_instance_witness :
  exists reg',
    fst (add_instance door_registry "9" (JStr "f1") (values_of 1 1)
           world_corrupt) = Ok reg' /\
    get_instance reg' "9"
    = Ok (JObj [("family_id", JStr "f1"); ("values", values_of 1 1)]) /\
    (forall k', k' <> "9" ->
                get_instance reg' k' = get_instance door_registry k') /\
    families_of (data reg') = [("f1", door)] /\
    stored_text (doc (snd (add_instance door_registry "9" (JStr "f1")
                             (values_of 1 1) world_corrupt)))
    = Some (json_dumps (data reg')) /\
    trace (add_instance door_registry "9" (JStr "f1") (values_of 1 1))
      world_corrupt
    = [EvSetString STORE_SECTION STORE_KEY (json_dumps (data reg'))].
Proof.
  apply (@add_instance_then_get_instance env door_registry "9"
           (JStr "f1") (values_of 1 1) world_corrupt [("f1", door)]
           two_instances).
  apply has_maps_sample.
Defined.

(** X3, removing an instance that is not registered. *)
Lemma remove_instance_then_get_instance_witness :
  exists reg',
    fst (remove_instance door_registry "9" world_corrupt) = Ok reg' /\
    get_instance reg' "9" = Ok JNull /\
    (forall k', k' <> "9" ->
                get_instance reg' k' = get_instance door_registry k') /\
    families_of (data reg') = [("f1", door)] /\
    (dict_get two_instances "9" = None ->
     instances_of (data reg') = two_instances) /\
    trace (remove_instance door_registry "9") world_corrupt
    = [EvSetString STORE_SECTION STORE_KEY (json_dumps (data reg'))].
Proof.
  apply (@remove_instance_then_get_instance env door_registry "9"
           world_corrupt [("f1", door)] two_instances).
  apply has_maps_sample.
Defined.

(** X4, registering instance 9 and removing it again. *)
Lemma add_then_remove_instance_witness :
  let run := (reg1 <- add_instance door_registry "9" (JStr "f1")
                        (values_of 1 1) ;;
              remove_instance reg1 "9")%cmd in
  exists reg',
    fst (run world_corrupt) = Ok reg' /\
    instances_of (data reg') = two_instances /\
    families_of (data reg') = [("f1", door)] /\
    writes (trace run world_corrupt) = 2%nat.
Proof.
  apply (@add_then_remove_instance env door_registry "9" (JStr "f1")
           (values_of 1 1) world_corrupt [("f1", door)] two_instances).
  - apply has_maps_sample.
  - reflexivity.
Defined.

(** X5, looking DOOR up in the sample registry. *)
Lemma find_family_by_name_first_match_witness :
  (exists r, find_family_by_name door_registry "DOOR" = Ok r) /\
  (forall fid family,
      find_family_by_name door_registry "DOOR"
      = Ok (Some (fid, family)) <->
      exists before after,
        [("f1", door)] = (before ++ (fid, family) :: after)%list /\
        name_matches "DOOR" (fid, family) /\
        Forall (fun entry => ~ name_matches "DOOR" entry) before) /\
  (find_family_by_name door_registry "DOOR" = Ok None <->
   Forall (fun entry => ~ name_matches "DOOR" entry) [("f1", door)]).
Proof.
  apply (@find_family_by_name_first_match env door_registry "DOOR"
           [("f1", door)] two_instances).
  - apply has_maps_sample.
  - apply has_name_door.
Defined.

(** X6, listing the instances of family f1. *)
Lemma iter_instances_for_family_selects_witness :
  (Forall has_family_id two_instances ->
   iter_instances_for_family door_registry "f1"
   = Ok (filter (bound_to "f1") two_instances)) /\
  (Exists (fun entry => forall v, py_getitem (snd entry) "family_id" <> Ok v)
     two_instances ->
   exists e, iter_instances_for_family door_registry "f1" = Raise e).
Proof.
  apply (@iter_instances_for_family_selects env door_registry "f1"
           [("f1", door)] two_instances).
  apply has_maps_sample.
Defined.

(** X7, on a stored text whose families is the number 5. *)
Lemma create_family_raises_without_families_mapping_witness :
  cmd_create_rectangle_family (Some "Door") (Some 1%N) (Some 2%N)
    world_families_5
  = (Raise AttributeError, world_families_5).
Proof.
  apply (@create_family_raises_without_families_mapping env world_families_5
           "Door" 1%N 2%N (JNum 5%N)).
  - reflexivity.
  - discriminate.
  - discriminate.
Defined.

(** X8, on a stored text whose instances is the number 5. *)
Lemma edit_raises_without_instances_mapping_witness :
  cmd_edit_instance_parameters (Some 8%N) (Some 1%N) (Some 2%N)
    world_instances_5
  = (Raise AttributeError, world_instances_5).
Proof.
  apply (@edit_raises_without_instances_mapping env world_instances_5 8%N
           (Some 1%N) (Some 2%N) (JNum 5%N)).
  - reflexivity.
  - discriminate.
Defined.

(** X9, for a door nine wide and ten high. *)
Lemma definition_name_rectangle_witness :
  definition_name (JStr "Door") (values_of 9 10)
  = Ok "DB_Door_Height=10_Width=9".
Proof.
  apply (@definition_name_rectangle env (JStr "Door") (JNum 9%N) (JNum 10%N)
           [("Width", JNum 9%N); ("Height", JNum 10%N)]).
  - apply Permutation_refl.
  - reflexivity.
  - reflexivity.
Defined.

(** X10, in a document without definitions. *)
Lemma ensure_definition_builds_rectangle_witness :
  let w := world_8 false [] in
  let w' := snd (ensure_definition door (values_of 9 10) w) in
  fst (ensure_definition door (values_of 9 10) w) = Ok 0%nat /\
  InstanceDefinitions (doc w')
  = [mkInstanceDefinition "DB_Door_Height=10_Width=9"
       "Dynamic block variant" (mkPoint3d 0%N 0%N 0%N)
       [rectangle 9%N 10%N] ["default"]] /\
  Strings (doc w') = Strings (doc w) /\
  Objects (doc w') = Objects (doc w) /\
  NextIds (doc w') = NextIds (doc w) /\
  trace (ensure_definition door (values_of 9 10)) w
  = [EvFindDefinition "DB_Door_Height=10_Width=9";
     EvBuildGeometry 9%N 10%N;
     EvAddDefinition "DB_Door_Height=10_Width=9" 0].
Proof.
  apply (@ensure_definition_builds_rectangle env door (values_of 9 10)
           (world_8 false []) "DB_Door_Height=10_Width=9" 9%N 10%N);
    reflexivity.
Defined.

(** X11, likewise. *)
Lemma ensure_definition_ensures_witness :
  let w := world_8 false [] in
  let w' := snd (ensure_definition door (values_of 9 10) w) in
  (exists nm,
      (n <- py_getitem door "name" ;; definition_name n (values_of 9 10))%res
      = Ok nm /\
      InstanceDefinitions_Find (doc w') nm = Some 0%nat) /\
  (forall nm' i, InstanceDefinitions_Find (doc w) nm' = Some i ->
                 InstanceDefinitions_Find (doc w') nm' = Some i) /\
  Strings (doc w') = Strings (doc w) /\
  Objects (doc w') = Objects (doc w) /\
  NextIds (doc w') = NextIds (doc w).
Proof.
  apply (@ensure_definition_ensures env door (values_of 9 10)
           (world_8 false []) 0%nat).
  reflexivity.
Defined.

(** X12, for a family of type circle. *)
Lemma ensure_definition_unsupported_type_witness :
  ensure_definition disc (values_of 9 10) (world_8 false [])
  = (Raise (ValueError "Unsupported family type: circle"),
     log (world_8 false []) [EvFindDefinition "DB_Disc_Height=10_Width=9"]).
Proof.
  apply (@ensure_definition_unsupported_type env disc (values_of 9 10)
           (JStr "circle") (world_8 false []) "DB_Disc_Height=10_Width=9");
    reflexivity.
Defined.

(** X14: replacing object 8 for a family of type circle deletes it and
    raises. *)
Lemma replace_raises_after_delete_witness :
  let run := replace_instance_geometry "8" disc (values_of 9 10) in
  let w := world_8 false [20%N] in
  (exists o index xform,
      Objects_FindId (doc w) 8%N = Some o /\
      Kind o = InstanceObject index xform /\ IsLocked o = false) /\
  Objects_FindId (doc (snd (run w))) 8%N = None /\
  (exists evs, trace run w = EvDeleteObject 8%N true :: evs /\
               forall i g, ~ In (EvAddInstanceObject i g) evs) /\
  NextIds (doc (snd (run w))) = NextIds (doc w) /\
  (forall n, buildable disc n -> values_ok (values_of 9 10) -> False).
Proof.
  apply (@replace_raises_after_delete env "8" 8%N disc (values_of 9 10)
           (world_8 false [20%N])
           (ValueError "Unsupported family type: circle"));
    reflexivity.
Defined.

(** X15: replacing object 8 gives object 20. *)
Lemma replace_returns_new_identity_witness :
  let run := replace_instance_geometry "8" door (values_of 9 10) in
  let w := world_8 false [20%N] in
  exists o index xform idef_index new_id,
    "20" = str_of_Guid new_id /\ "20" <> "" /\
    new_id <> Guid_Empty /\ new_id <> 8%N /\
    Objects_FindId (doc w) 8%N = Some o /\
    Kind o = InstanceObject index xform /\
    Objects_FindId (doc (snd (run w))) 8%N = None /\
    Objects_FindId (doc (snd (run w))) new_id
    = Some (mkRhinoObject new_id (InstanceObject idef_index xform)
              (Attributes o) false false).
Proof.
  apply (@replace_returns_new_identity env "8" 8%N door (values_of 9 10)
           (world_8 false [20%N]) "20");
    reflexivity.
Defined.

(** X16: the object is locked, and nothing changed. *)
Lemma replace_False_two_meanings_witness :
  let run := replace_instance_geometry "8" door (values_of 9 10) in
  let w := world_8 true [20%N] in
  (doc (snd (run w)) = doc w /\
   (instance_not_found (doc w) 8%N \/ not_an_instance (doc w) 8%N
    \/ delete_refused (doc w) 8%N))
  \/
  ((exists o index xform,
       Objects_FindId (doc w) 8%N = Some o /\
       Kind o = InstanceObject index xform /\ IsLocked o = false) /\
   cannot_issue (doc w) /\
   Objects_FindId (doc (snd (run w))) 8%N = None /\
   NextIds (doc (snd (run w))) = tl (NextIds (doc w))).
Proof.
  apply (@replace_False_two_meanings env "8" 8%N door (values_of 9 10)
           (world_8 true [20%N]));
    reflexivity.
Defined.


Lemma no_window_yet :
  Forall (fun entry => ~ name_matches "Window" entry) [("f1", door)].
Proof.
  repeat constructor. intros (n & Hn & Hlow).
  injection Hn as <-. discriminate.
Qed.

(** X17: the family Window is created beside Door. *)
Lemma create_family_adds_family_witness :
  let w := world_8 false [20%N] in
  let run := cmd_create_rectangle_family (Some "Window") (Some 3%N)
               (Some 4%N) in
  exists d',
    fst (run w) = Ok tt /\
    stored_text (doc (snd (run w))) = Some (json_dumps d') /\
    get_family (mkRegistry d') (JStr "family-0")
    = Ok (JObj [("name", JStr "Window");
                ("family_type", JStr "rectangle");
                ("parameters", JObj [("Width", JNum 3%N);
                                     ("Height", JNum 4%N)])]) /\
    (forall fid', fid' <> "family-0" ->
                  get_family (mkRegistry d') (JStr fid')
                  = get_family (mkRegistry (stored_registry (doc w)))
                      (JStr fid')) /\
    instances_of d' = two_instances /\
    trace run w
    = [EvSetString STORE_SECTION STORE_KEY (json_dumps d');
       EvMessageBox "Created family 'Window'"].
Proof.
  apply (@create_family_adds_family env (world_8 false [20%N]) "Window"
           3%N 4%N [("f1", door)] two_instances).
  - apply has_maps_world_8.
  - apply has_name_door.
  - apply no_window_yet.
  - discriminate.
Defined.

(** X18: object 9 is not registered. *)
Lemma edit_refuses_unknown_instance_or_family_witness :
  let run := cmd_edit_instance_parameters (Some 9%N) (Some 1%N) (Some 2%N) in
  let w := world_8 false [20%N] in
  (dict_get two_instances (str_of_Guid 9%N) = None ->
   run w
   = (Ok tt,
      log w [EvMessageBox
               "Selected instance is not managed by Dynamic Blocks."])) /\
  (forall info fid,
      dict_get two_instances (str_of_Guid 9%N) = Some info ->
      py_truthy info = true ->
      py_getitem info "family_id" = Ok (JStr fid) ->
      dict_get [("f1", door)] fid = None ->
      run w = (Ok tt, log w [EvMessageBox "Family metadata missing."])).
Proof.
  apply (@edit_refuses_unknown_instance_or_family env (world_8 false [20%N])
           9%N (Some 1%N) (Some 2%N) [("f1", door)] two_instances).
  apply has_maps_world_8.
Defined.

(** X19: the object of instance 8 is locked. *)
Lemma edit_failure_keeps_stale_entry_witness :
  let w := world_8 true [20%N] in
  let run := cmd_edit_instance_parameters (Some 8%N) (Some 9%N)
               (Some 10%N) in
  fst (run w) = Ok tt /\
  Strings (doc (snd (run w))) = Strings (doc w) /\
  dict_get (instances_of (stored_registry (doc (snd (run w)))))
    (str_of_Guid 8%N) = Some (instance_of "f1" 5 6) /\
  writes (trace run w) = 0%nat /\
  (exists evs,
      trace run w = (evs ++ [EvMessageBox "Failed to update instance"])%list) /\
  (IsLocked (placed 8%N true) = true -> doc (snd (run w)) = doc w) /\
  (IsLocked (placed 8%N true) = false ->
   Objects_FindId (doc (snd (run w))) 8%N = None).
Proof.
  apply (@edit_failure_keeps_stale_entry env (world_8 true [20%N]) 8%N 9%N
           10%N (placed 8%N true) 0%nat 11%N (instance_of "f1" 5 6) "f1"
           door).
  - apply registry_ok_world_8.
  - apply Runs.in_float_range_sample.
  - apply Runs.in_float_range_sample.
  - reflexivity.
  - reflexivity.
  - reflexivity.
  - reflexivity.
  - reflexivity.
  - left. reflexivity.
Defined.

(** X20: the defaults of Door become 9 and 9. *)
Lemma sync_stores_rounded_defaults_witness :
  let w := world_8 false [20%N] in
  let run := cmd_sync_family_instances (Some "door") (Some 9%N) (Some 9%N) in
  exists d' family',
    fst (run w) = Ok tt /\
    stored_text (doc (snd (run w))) = Some (json_dumps d') /\
    registry_ok d' /\
    dict_get (families_of d') "f1" = Some family' /\
    py_getitem family' "name" = py_getitem door "name" /\
    py_getitem family' "family_type" = py_getitem door "family_type" /\
    (p <- py_getitem family' "parameters" ;; py_getitem p "Width")%res
    = Ok (JNum 9%N) /\
    (p <- py_getitem family' "parameters" ;; py_getitem p "Height")%res
    = Ok (JNum 9%N) /\
    forall fid', fid' <> "f1" ->
                 dict_get (families_of d') fid'
                 = dict_get (families_of (stored_registry (doc w))) fid'.
Proof.
  apply (@sync_stores_rounded_defaults env (world_8 false [20%N]) "door"
           9%N 9%N "f1" door).
  - apply registry_ok_world_8.
  - apply Runs.in_float_range_sample.
  - apply Runs.in_float_range_sample.
  - reflexivity.
  - discriminate.
Defined.

(** X21, on the same run. *)
Lemma sync_keeps_other_families_instances_witness :
  let w := world_8 false [20%N] in
  let run := cmd_sync_family_instances (Some "door") (Some 9%N) (Some 9%N) in
  exists d',
    fst (run w) = Ok tt /\
    stored_text (doc (snd (run w))) = Some (json_dumps d') /\
    forall k info,
      dict_get (instances_of (stored_registry (doc w))) k = Some info ->
      bound_to "f1" (k, info) = false ->
      dict_get (instances_of d') k = Some info.
Proof.
  apply (@sync_keeps_other_families_instances env (world_8 false [20%N])
           "door" 9%N 9%N "f1" door).
  - apply registry_ok_world_8.
  - reflexivity.
  - discriminate.
  - intros g [<-|[]]. reflexivity.
Defined.

Lemma has_maps_corrupt :
  has_maps (stored_registry (doc world_corrupt)) [] [].
Proof. eexists. repeat split; reflexivity. Qed.

(** X22, in a document whose registry text is unreadable. *)
Lemma no_families_only_a_message_witness :
  cmd_sync_family_instances (Some "door") (Some 9%N) (Some 9%N) world_corrupt
  = (Ok tt, log world_corrupt [EvMessageBox "No families available."]) /\
  cmd_insert_instance translation (Some "door") (Some 9%N) (Some 9%N)
    (Some spot) world_corrupt
  = (Ok tt,
     log world_corrupt
       [EvMessageBox "No families found. Create one first."]).
Proof.
  apply (@no_families_only_a_message env translation world_corrupt
           (Some "door") (Some 9%N) (Some 9%N)
           (Some spot) []).
  apply has_maps_corrupt.
Defined.

Lemma families_world_8 (locked : bool) (supply : list Guid) :
  families_of (stored_registry (doc (world_8 locked supply))) <> [].
Proof. rewrite Runs.stored_registry_world_8. discriminate. Qed.

(** X23: the second number is not given. *)
Lemma sync_cancel_has_no_effect_witness :
  cmd_sync_family_instances (Some "door") (Some 9%N) None
    (world_8 false [20%N])
  = (Ok tt, world_8 false [20%N]).
Proof.
  apply (@sync_cancel_has_no_effect env (world_8 false [20%N]) (Some "door")
           (Some 9%N) None).
  - apply registry_ok_world_8.
  - apply families_world_8.
  - do 4 right. reflexivity.
Defined.

(** X24: the point is not given. *)
Lemma insert_cancel_has_no_effect_witness :
  cmd_insert_instance translation (Some "door") (Some 9%N) (Some 10%N) None
    (world_8 false [20%N])
  = (Ok tt, world_8 false [20%N]).
Proof.
  apply (@insert_cancel_has_no_effect env translation (world_8 false [20%N])
           (Some "door") (Some 9%N) (Some 10%N) None).
  - apply registry_ok_world_8.
  - apply families_world_8.
  - do 5 right. reflexivity.
Defined.

(** X25: the height is not given for instance 8. *)
Lemma edit_cancel_has_no_effect_witness :
  cmd_edit_instance_parameters (Some 8%N) (Some 9%N) None
    (world_8 false [20%N])
  = (Ok tt, world_8 false [20%N]).
Proof.
  apply (@edit_cancel_has_no_effect env (world_8 false [20%N]) (Some 8%N)
           (Some 9%N) None).
  - apply registry_ok_world_8.
  - intros id [= <-].
    exists (instance_of "f1" 5 6), "f1", door. repeat split; reflexivity.
  - do 2 right. reflexivity.
Defined.

(** X26: a door nine by ten is placed at [(1, 2, 3)] as object 20. *)
Lemma insert_places_instance_witness :
  let w := world_8 false [20%N] in
  let run := cmd_insert_instance translation (Some "door") (Some 9%N)
               (Some 10%N) (Some spot) in
  exists d' idef_index nm_def,
    fst (run w) = Ok tt /\
    Objects_FindId (doc (snd (run w))) 20%N
    = Some (mkRhinoObject 20%N (InstanceObject idef_index 10203%N)
              "default" false false) /\
    (n <- py_getitem door "name" ;; definition_name n (values_of 9 10))%res
    = Ok nm_def /\
    InstanceDefinitions_Find (doc (snd (run w))) nm_def = Some idef_index /\
    (forall g o, Objects_FindId (doc w) g = Some o ->
                 Objects_FindId (doc (snd (run w))) g = Some o) /\
    stored_text (doc (snd (run w))) = Some (json_dumps d') /\
    families_of d' = families_of (stored_registry (doc w)) /\
    dict_get (instances_of d') (str_of_Guid 20%N)
    = Some (instance_entry (JStr "f1") (values_of 9 10)) /\
    (forall k, k <> str_of_Guid 20%N ->
               dict_get (instances_of d') k
               = dict_get (instances_of (stored_registry (doc w))) k) /\
    writes (trace run w) = 1%nat.
Proof.
  apply (@insert_places_instance env translation (world_8 false [20%N])
           "door" 9%N 10%N spot "f1" door 20%N []).
  - apply registry_ok_world_8.
  - apply Runs.in_float_range_sample.
  - apply Runs.in_float_range_sample.
  - reflexivity.
  - discriminate.
  - reflexivity.
  - discriminate.
  - reflexivity.
Defined.

(** X27: the document has no identity to issue. *)
Lemma insert_failure_leaves_definition_witness :
  let w := world_8 false [] in
  let run := cmd_insert_instance translation (Some "door") (Some 9%N)
               (Some 10%N) (Some spot) in
  exists idef_index nm_def evs,
    fst (run w) = Ok tt /\
    Strings (doc (snd (run w))) = Strings (doc w) /\
    Objects (doc (snd (run w))) = Objects (doc w) /\
    (n <- py_getitem door "name" ;; definition_name n (values_of 9 10))%res
    = Ok nm_def /\
    InstanceDefinitions_Find (doc (snd (run w))) nm_def = Some idef_index /\
    trace run w
    = (evs ++ [EvAddInstanceObject idef_index Guid_Empty;
               EvMessageBox "Failed to create instance"])%list /\
    writes (trace run w) = 0%nat.
Proof.
  apply (@insert_failure_leaves_definition env translation
           (world_8 false []) "door" 9%N 10%N spot "f1"
           door).
  - apply registry_ok_world_8.
  - apply Runs.in_float_range_sample.
  - apply Runs.in_float_range_sample.
  - reflexivity.
  - discriminate.
  - exact I.
Defined.


Lemma names_unique_world_8 (locked : bool) (supply : list Guid) :
  names_unique (families_of (stored_registry (doc (world_8 locked supply)))).
Proof.
  rewrite Runs.stored_registry_world_8. repeat constructor. intros [].
Qed.

(** X28: creating Window beside Door. *)
Lemma create_family_keeps_names_unique_witness :
  let w := world_8 false [20%N] in
  let run := cmd_create_rectangle_family (Some "Window") (Some 3%N)
               (Some 4%N) in
  fst (run w) = Ok tt /\
  (doc (snd (run w)) = doc w \/
   exists d',
     stored_text (doc (snd (run w))) = Some (json_dumps d') /\
     registry_ok d' /\ names_unique (families_of d')).
Proof.
  apply (@create_family_keeps_names_unique env (world_8 false [20%N])
           (Some "Window") (Some 3%N) (Some 4%N)).
  - apply registry_ok_world_8.
  - apply names_unique_world_8.
  - discriminate.
  - intros x _. apply Runs.in_float_range_sample.
  - intros x _. apply Runs.in_float_range_sample.
Defined.

End Samples.
